(** * BlackRoad Power Manager: a shallow embedding of [power_manager.py]

    The development follows the layout of the Python module:

    - [Binary64]: Python's [float] (IEEE 754 binary64, round to nearest even)
      on top of the Standard Library's executable [SpecFloat] model, with the
      builtins [round], [max], [min] and [sum] the module uses;
    - [MeterType], [PowerEventType], [PowerState]: the three [Enum] classes;
    - [PowerMeter], [PowerReading], [PowerEvent], [DeviceRecord]: the four
      dataclasses with their derived properties;
    - [Store] and [Sql]: the four SQLite tables of [init_db], and the
      statements the methods execute, with the constraints of the schema
      (primary keys, [NOT NULL], foreign keys) and the two indexes;
    - [World], [Sys] and the monad [M]: what the module takes from outside
      (identifiers, the clock, the database engine and its failures), and
      the error-and-state monad the methods run in; [db_conn] is
      [with_conn];
    - [PowerManager]: the methods, in the order of the class;
    - the vocabulary of the statements and a concrete deployment
      ([Scenario]) on which they are instantiated;
    - the properties.

    Left out: logging, the command line of [main], and the text
    [json.dumps] prints ([export_report] is taken up to the dictionary it
    serialises).  Arguments have the types the signatures announce; a
    [str] is kept as the string of its code points, taken below 256. *)

From Stdlib Require Import ZArith NArith String Ascii List Bool Lia Permutation Sorted.
From Stdlib Require Import Floats.SpecFloat.
From stdpp Require Import gmap strings pretty.

Local Open Scope Z_scope.

(** ** Python floats *)

Module Binary64.

Definition float := spec_float.

Definition prec : Z := 53.
Definition emax : Z := 1024.

Definition mul : float -> float -> float := SFmul prec emax.
Definition div : float -> float -> float := SFdiv prec emax.
Definition add : float -> float -> float := SFadd prec emax.
Definition ltb : float -> float -> bool := SFltb.
Definition leb : float -> float -> bool := SFleb.
(** [a > b] and [a >= b] are [b < a] and [b <= a]; both are [False] as
    soon as one side is a NaN. *)
Definition gtb (a b : float) : bool := ltb b a.
Definition geb (a b : float) : bool := leb b a.

Definition is_nan (x : float) : bool :=
  match x with S754_nan => true | _ => false end.

(** [float(n)] for an integer [n], and [m * 2**e]. *)
Definition of_Z (n : Z) : float := binary_normalize prec emax n 0 false.
Definition of_dyadic (m e : Z) : float := binary_normalize prec emax m e false.

(** The float nearest to the decimal [n / 10**k] (what [float("1.67")]
    gives for [n = 167], [k = 2]); the sign is kept on a zero. *)
Definition of_decimal (s : bool) (n : Z) (k : Z) : float :=
  match n, 10 ^ k with
  | Zpos n', Zpos p => div (S754_finite s n' 0) (S754_finite false p 0)
  | _, _ => S754_zero s
  end.

(** The integer nearest to [n / d] for [d > 0], ties to the even one. *)
Definition div_half_even (n d : Z) : Z :=
  let q := n / d in
  match (2 * (n mod d)) ?= d with
  | Lt => q
  | Gt => q + 1
  | Eq => if Z.even q then q else q + 1
  end.

(** [round(x, ndigits)] for a float [x] and [0 <= ndigits] (the module
    calls it with 4 and 2): CPython prints the exact binary value of [x]
    with [ndigits] decimals, correctly rounded half to even, and reads the
    decimal back as the nearest float.  NaN, the infinities and the zeros
    round to themselves. *)
Definition round (x : float) (ndigits : Z) : float :=
  match x with
  | S754_finite s m e =>
      let scaled := Zpos m * 10 ^ ndigits in
      let k := if 0 <=? e then scaled * 2 ^ e
               else div_half_even scaled (2 ^ (- e)) in
      of_decimal s k ndigits
  | _ => x
  end.

(** The two-argument builtins: [max(a, b)] keeps [a] unless [b > a],
    [min(a, b)] keeps [a] unless [b < a]. *)
Definition max (a b : float) : float := if gtb b a then b else a.
Definition min (a b : float) : float := if ltb b a then b else a.

(** [max(xs)] and [min(xs)] on a non-empty list. *)
Definition max_list (x : float) (xs : list float) : float :=
  fold_left max xs x.
Definition min_list (x : float) (xs : list float) : float :=
  fold_left min xs x.

Definition zero : float := S754_zero false.

(** [sum(xs)]: a left fold of [+] from the integer [0]; [0 + x] is
    [float(0) + x].  (The sum of no float is the integer [0], kept here as
    the float [0.0].) *)
Definition sum (xs : list float) : float := fold_left add xs zero.

End Binary64.

Abbreviation float := Binary64.float.

(** ** Python strings

    [repr(s)] for a [str], which [Enum] uses ([%r]) in the message of the
    [ValueError] it raises on a value that names no member.  The string is
    put between single quotes, or between double quotes when it holds a
    single quote and no double quote; the quote chosen and the backslash
    are escaped, tab, line feed and carriage return are written [\t], [\n]
    and [\r], and every other character that is not printable ([0]-[31],
    [127]-[160] and [173] below 256) as [\xhh]. *)

Module PyStr.

Definition squote : ascii := "039"%char.
Definition dquote : ascii := "034"%char.
Definition backslash : ascii := "092"%char.

Definition hex_digit (n : N) : ascii :=
  ascii_of_N (if (n <? 10)%N then 48 + n else 87 + n)%N.

(** [str.isprintable] on one code point below 256. *)
Definition printable (n : N) : bool :=
  ((32 <=? n) && (n <? 127) || (161 <=? n) && negb (n =? 173))%N.

Definition escape (quote c : ascii) : string :=
  let n := N_of_ascii c in
  if Ascii.eqb c quote || Ascii.eqb c backslash then
    String backslash (String c EmptyString)
  else if (n =? 9)%N then String backslash "t"
  else if (n =? 10)%N then String backslash "n"
  else if (n =? 13)%N then String backslash "r"
  else if printable n then String c EmptyString
  else String backslash
         (String "x" (String (hex_digit (n / 16))
                        (String (hex_digit (n mod 16)) EmptyString))).

Fixpoint contains (c : ascii) (s : string) : bool :=
  match s with
  | EmptyString => false
  | String x rest => Ascii.eqb x c || contains c rest
  end.

Fixpoint escaped (quote : ascii) (s : string) : string :=
  match s with
  | EmptyString => EmptyString
  | String c rest => String.append (escape quote c) (escaped quote rest)
  end.

Definition repr (s : string) : string :=
  let quote :=
    if contains squote s && negb (contains dquote s) then dquote else squote in
  String quote (String.append (escaped quote s) (String quote EmptyString)).

End PyStr.

(** ** The enumerations *)

Inductive MeterType := MAIN | BATTERY | SOLAR | UPS.
Inductive PowerEventType := CHARGE_START | DISCHARGE | LOW_BATTERY | SHUTDOWN | RESTORE.
Inductive PowerState := NORMAL | LOW | CRITICAL | CHARGING | UNKNOWN.

Definition MeterType_eqb (a b : MeterType) : bool :=
  match a, b with
  | MAIN, MAIN | BATTERY, BATTERY | SOLAR, SOLAR | UPS, UPS => true
  | _, _ => false
  end.

(** [e.value] *)
Definition MeterType_value (t : MeterType) : string :=
  match t with
  | MAIN => "main" | BATTERY => "battery" | SOLAR => "solar" | UPS => "ups"
  end.

Definition PowerEventType_value (t : PowerEventType) : string :=
  match t with
  | CHARGE_START => "charge_start" | DISCHARGE => "discharge"
  | LOW_BATTERY => "low_battery" | SHUTDOWN => "shutdown" | RESTORE => "restore"
  end.

Definition PowerState_value (t : PowerState) : string :=
  match t with
  | NORMAL => "normal" | LOW => "low" | CRITICAL => "critical"
  | CHARGING => "charging" | UNKNOWN => "unknown"
  end.

(** [MeterType(s)] and [PowerEventType(s)]: the member whose value is [s];
    [None] stands for the [ValueError] the call raises on any other string,
    with the message [repr(s) + " is not a valid MeterType"]. *)
Definition MeterType_of_value (s : string) : option MeterType :=
  List.find (fun t => String.eqb (MeterType_value t) s) [MAIN; BATTERY; SOLAR; UPS].

Definition PowerEventType_of_value (s : string) : option PowerEventType :=
  List.find (fun t => String.eqb (PowerEventType_value t) s)
    [CHARGE_START; DISCHARGE; LOW_BATTERY; SHUTDOWN; RESTORE].

Definition LOW_BATTERY_THRESHOLD : float := Eval vm_compute in Binary64.of_Z 20.
Definition CRITICAL_BATTERY_THRESHOLD : float := Eval vm_compute in Binary64.of_Z 5.

(** The float literals [95.0], [100.0], [3.0] and [0.0] of the module. *)
Definition f95 : float := Eval vm_compute in Binary64.of_Z 95.
Definition f100 : float := Eval vm_compute in Binary64.of_Z 100.
Definition f3 : float := Eval vm_compute in Binary64.of_Z 3.
Definition f0 : float := Binary64.zero.

(** ** The dataclasses

    Timestamps are the strings [datetime.isoformat()] gives for UTC instants.
    Two such strings compare (as SQLite compares [TEXT]) the way the instants
    do: the fields are zero padded, and an instant on a whole second prints
    without its fraction, [+] sorting before [.].  A timestamp is therefore
    kept as the instant itself, in microseconds since 1970-01-01T00:00:00
    UTC.  [datetime_min] and [datetime_max] are the instants
    0001-01-01T00:00:00 and 9999-12-31T23:59:59.999999, between which every
    [datetime] lies. *)

Definition timestamp := Z.

Definition datetime_min : timestamp := -62135596800000000.
Definition datetime_max : timestamp := 253402300799999999.

Module PowerMeter.
Record t := mk {
  id : string; device_id : string; type : MeterType; voltage : float;
  current_draw : float; capacity_wh : float; charge_pct : float;
  name : option string }.

Definition wattage (self : t) : float :=
  Binary64.round (Binary64.mul (voltage self) (current_draw self)) 4.

Definition state (self : t) : PowerState :=
  if MeterType_eqb (type self) SOLAR then CHARGING
  else if Binary64.leb (charge_pct self) CRITICAL_BATTERY_THRESHOLD then CRITICAL
  else if Binary64.leb (charge_pct self) LOW_BATTERY_THRESHOLD then LOW
  else if Binary64.geb (charge_pct self) f95 then CHARGING
  else NORMAL.
End PowerMeter.

Module PowerReading.
Record t := mk {
  id : string; meter_id : string; voltage : float; current_draw : float;
  wattage : float; charge_pct : float; timestamp : timestamp }.
End PowerReading.

Module PowerEvent.
Record t := mk {
  id : string; device_id : string; type : PowerEventType; value : float;
  timestamp : timestamp; note : option string }.
End PowerEvent.

Module DeviceRecord.
Record t := mk {
  id : string; name : string; shutdown_threshold : float;
  target_wh : option float }.
End DeviceRecord.

(** ** The database

    The four tables of [init_db].  A row is kept as the dataclass value its
    [from_row] builds.  [devices] is keyed by its primary key; the other
    tables keep their rows in insertion (rowid) order, the order a query
    without [ORDER BY] enumerates them in. *)

Record Store := mkStore {
  devices : gmap string DeviceRecord.t;
  power_meters : list PowerMeter.t;
  power_readings : list PowerReading.t;
  power_events : list PowerEvent.t }.

Definition empty_store : Store := mkStore ∅ [] [] [].

Inductive Exc :=
| ValueError (msg : string)
| IntegrityError (msg : string)
| OperationalError (msg : string)
| OverflowError (msg : string).

(** [str(exc)] *)
Definition Exc_str (e : Exc) : string :=
  match e with
  | ValueError m | IntegrityError m | OperationalError m | OverflowError m => m
  end.

Inductive result (A : Type) := Ok (a : A) | Raise (e : Exc).
Arguments Ok {A} a.
Arguments Raise {A} e.

Module Sql.

(** What a [REAL] column keeps of a bound Python float: a NaN is bound as
    [NULL], and a negative zero is stored as zero. *)
Definition real (x : float) : option float :=
  match x with
  | S754_nan => None
  | S754_zero _ => Some (S754_zero false)
  | _ => Some x
  end.

(** A [REAL NOT NULL] column. *)
Definition real_not_null (column : string) (x : float) : result float :=
  match real x with
  | Some y => Ok y
  | None => Raise (IntegrityError (String.append "NOT NULL constraint failed: " column))
  end.

Definition unique (table : string) (taken : bool) : result unit :=
  if taken then Raise (IntegrityError (String.append "UNIQUE constraint failed: " table))
  else Ok tt.

Definition foreign_key (present : bool) : result unit :=
  if present then Ok tt else Raise (IntegrityError "FOREIGN KEY constraint failed").

Definition has_device (s : Store) (device_id : string) : bool :=
  bool_decide (is_Some (devices s !! device_id)).

Definition has_meter (s : Store) (meter_id : string) : bool :=
  existsb (fun m => String.eqb (PowerMeter.id m) meter_id) (power_meters s).

Definition has_reading (s : Store) (rid : string) : bool :=
  existsb (fun r => String.eqb (PowerReading.id r) rid) (power_readings s).

Definition has_event (s : Store) (eid : string) : bool :=
  existsb (fun e => String.eqb (PowerEvent.id e) eid) (power_events s).

Definition and_then {A B : Type} (r : result A) (k : A -> result B) : result B :=
  match r with Ok a => k a | Raise e => Raise e end.

Local Notation "'check' x ':=' c 'in' k" := (and_then c (fun x => k))
  (at level 10, x name, c at level 100, k at level 200).

Definition set_devices (s : Store) (d : gmap string DeviceRecord.t) : Store :=
  mkStore d (power_meters s) (power_readings s) (power_events s).
Definition set_power_meters (s : Store) (l : list PowerMeter.t) : Store :=
  mkStore (devices s) l (power_readings s) (power_events s).
Definition set_power_readings (s : Store) (l : list PowerReading.t) : Store :=
  mkStore (devices s) (power_meters s) l (power_events s).
Definition set_power_events (s : Store) (l : list PowerEvent.t) : Store :=
  mkStore (devices s) (power_meters s) (power_readings s) l.

(** [INSERT OR REPLACE INTO devices (id,name,shutdown_threshold,target_wh)]:
    the row with this id, if any, is replaced.  Under [OR REPLACE] a [NULL]
    in a [NOT NULL] column that has a default takes the default. *)
Definition insert_or_replace_device (device_id name : string)
    (shutdown_threshold : float) (target_wh : option float) (s : Store)
    : result (unit * Store) :=
  let th := match real shutdown_threshold with Some y => y | None => f3 end in
  let row := DeviceRecord.mk device_id name th (target_wh ≫= real) in
  Ok (tt, set_devices s (<[device_id := row]> (devices s))).

(** [SELECT * FROM devices WHERE id=?], [fetchone()] *)
Definition select_device (device_id : string) (s : Store)
    : result (option DeviceRecord.t * Store) :=
  Ok (devices s !! device_id, s).

(** [INSERT INTO power_meters (id,device_id,type,capacity_wh,name)]; the
    columns left out take their defaults 0.0, 0.0 and 100.0. *)
Definition insert_meter (meter_id device_id : string) (type : MeterType)
    (capacity_wh : float) (name : option string) (s : Store)
    : result (unit * Store) :=
  check cap := real_not_null "power_meters.capacity_wh" capacity_wh in
  check _u := unique "power_meters.id" (has_meter s meter_id) in
  check _f := foreign_key (has_device s device_id) in
  Ok (tt, set_power_meters s
            (power_meters s ++
             [PowerMeter.mk meter_id device_id type f0 f0 cap f100 name])).

(** [SELECT * FROM power_meters WHERE id=?], [fetchone()] *)
Definition select_meter (meter_id : string) (s : Store)
    : result (option PowerMeter.t * Store) :=
  Ok (List.find (fun m => String.eqb (PowerMeter.id m) meter_id) (power_meters s), s).

(** [SELECT * FROM power_meters WHERE 1=1], with [AND device_id=?] when a
    filter is given; [fetchall()] *)
Definition select_meters (filter : option string) (s : Store)
    : result (list PowerMeter.t * Store) :=
  Ok (match filter with
      | Some d => List.filter (fun m => String.eqb (PowerMeter.device_id m) d)
                    (power_meters s)
      | None => power_meters s
      end, s).

(** [INSERT INTO power_readings (id,meter_id,voltage,current_draw,wattage,
    charge_pct,timestamp)] *)
Definition insert_reading (rid meter_id : string)
    (voltage current wattage pct : float) (now : timestamp) (s : Store)
    : result (unit * Store) :=
  check v := real_not_null "power_readings.voltage" voltage in
  check c := real_not_null "power_readings.current_draw" current in
  check w := real_not_null "power_readings.wattage" wattage in
  check p := real_not_null "power_readings.charge_pct" pct in
  check _u := unique "power_readings.id" (has_reading s rid) in
  check _f := foreign_key (has_meter s meter_id) in
  Ok (tt, set_power_readings s
            (power_readings s ++ [PowerReading.mk rid meter_id v c w p now])).

Definition set_live (v c p : float) (m : PowerMeter.t) : PowerMeter.t :=
  PowerMeter.mk (PowerMeter.id m) (PowerMeter.device_id m) (PowerMeter.type m)
    v c (PowerMeter.capacity_wh m) p (PowerMeter.name m).

(** [UPDATE power_meters SET voltage=?, current_draw=?, charge_pct=?
    WHERE id=?] *)
Definition update_meter_live (voltage current pct : float) (meter_id : string)
    (s : Store) : result (unit * Store) :=
  if has_meter s meter_id then
    check v := real_not_null "power_meters.voltage" voltage in
    check c := real_not_null "power_meters.current_draw" current in
    check p := real_not_null "power_meters.charge_pct" pct in
    Ok (tt, set_power_meters s
              (List.map (fun m => if String.eqb (PowerMeter.id m) meter_id
                                  then set_live v c p m else m)
                 (power_meters s)))
  else Ok (tt, s).

(** [INSERT INTO power_events (id,device_id,type,value,timestamp,note)] *)
Definition insert_event (eid device_id : string) (etype : PowerEventType)
    (value : float) (now : timestamp) (note : option string) (s : Store)
    : result (unit * Store) :=
  check v := real_not_null "power_events.value" value in
  check _u := unique "power_events.id" (has_event s eid) in
  check _f := foreign_key (has_device s device_id) in
  Ok (tt, set_power_events s
            (power_events s ++ [PowerEvent.mk eid device_id etype v now note])).

(** The two indexes of [init_db], [idx_readings_meter] and
    [idx_events_device], keep the rows of one meter (one device) ordered by
    timestamp, rows of equal timestamp in insertion order; the two ordered
    queries walk them, forwards for [ORDER BY timestamp] and backwards for
    [ORDER BY timestamp DESC].  (SQL leaves the order among equal
    timestamps open.) *)
Section Index.
Context {A : Type} (key : A -> timestamp).

Fixpoint index_insert (r : A) (l : list A) : list A :=
  match l with
  | [] => [r]
  | x :: l' => if key r <? key x then r :: l else x :: index_insert r l'
  end.

Definition index_scan (rows : list A) : list A :=
  fold_left (fun idx r => index_insert r idx) rows [].
End Index.

(** [LIMIT ?]: a negative limit is no limit. *)
Definition limit {A : Type} (n : Z) (rows : list A) : list A :=
  if n <? 0 then rows else firstn (Z.to_nat n) rows.

(** An [int] is bound as a 64-bit signed [INTEGER]; [sqlite3] raises an
    [OverflowError] on one that does not fit. *)
Definition fits_integer (n : Z) : bool :=
  (-9223372036854775808 <=? n) && (n <=? 9223372036854775807).

(** [SELECT * FROM power_events WHERE device_id=? ORDER BY timestamp DESC
    LIMIT ?] *)
Definition select_events (device_id : string) (lim : Z) (s : Store)
    : result (list PowerEvent.t * Store) :=
  if fits_integer lim then
    Ok (limit lim
          (rev (index_scan PowerEvent.timestamp
                  (List.filter (fun e => String.eqb (PowerEvent.device_id e) device_id)
                     (power_events s)))), s)
  else Raise (OverflowError "Python int too large to convert to SQLite INTEGER").

(** [SELECT * FROM power_readings WHERE meter_id=? AND timestamp >= ?
    ORDER BY timestamp] *)
Definition select_readings (meter_id : string) (since : timestamp) (s : Store)
    : result (list PowerReading.t * Store) :=
  Ok (index_scan PowerReading.timestamp
        (List.filter (fun r => String.eqb (PowerReading.meter_id r) meter_id
                               && (since <=? PowerReading.timestamp r))
           (power_readings s)), s).

End Sql.

(** ** The environment and the monad of the methods

    What the module takes from outside: [uuid.uuid4()], the clock, and the
    database engine, which may refuse a statement ([sqlite3.OperationalError]:
    a locked database, a full disk).  [uuid4 n] is the n-th identifier drawn,
    [utcnow n] the n-th reading of the clock, and [sql_fault n] the error
    message with which the n-th statement is refused, if it is.  Statements
    are those the methods pass to [conn.execute]; the two [PRAGMA]s of
    [db_conn] and its [commit] are taken to succeed. *)

Record World := mkWorld {
  uuid4 : nat -> string;
  utcnow : nat -> timestamp;
  sql_fault : nat -> option string }.

(** The state a method runs in: the database file, and how many identifiers,
    clock readings and statements were consumed so far. *)
Record Sys := mkSys {
  db : Store;
  uuid_calls : nat;
  clock_calls : nat;
  statements : nat }.

Definition initial : Sys := mkSys empty_store 0 0 0.

Definition M (A : Type) : Type := Sys -> result A * Sys.

Definition ret {A : Type} (a : A) : M A := fun s => (Ok a, s).

Definition raise {A : Type} (e : Exc) : M A := fun s => (Raise e, s).

(** A computation that touches nothing: it returns or raises at once. *)
Definition lift {A : Type} (r : result A) : M A := fun s => (r, s).

Definition bind {A B : Type} (m : M A) (k : A -> M B) : M B :=
  fun s => match m s with
           | (Ok a, s') => k a s'
           | (Raise e, s') => (Raise e, s')
           end.

Notation "'let*' x ':=' c 'in' k" := (bind c (fun x => k))
  (at level 10, x name, c at level 100, k at level 200).
Notation "c ';;;' k" := (bind c (fun _ => k))
  (at level 100, k at level 200, right associativity).

(** [try: body except Exception as exc: handler(exc)] *)
Definition try_except {A : Type} (body : M A) (handler : Exc -> M A) : M A :=
  fun s => match body s with
           | (Ok a, s') => (Ok a, s')
           | (Raise e, s') => handler e s'
           end.

(** [with db_conn(...) as conn: body]: the writes of [body] are committed
    when it ends, and rolled back when it raises. *)
Definition with_conn {A : Type} (body : M A) : M A :=
  fun s => match body s with
           | (Ok a, s') => (Ok a, s')
           | (Raise e, s') =>
               (Raise e, mkSys (db s) (uuid_calls s') (clock_calls s') (statements s'))
           end.

Section Environment.
Context (W : World).

(** [str(uuid.uuid4())] *)
Definition new_uuid : M string :=
  fun s => (Ok (uuid4 W (uuid_calls s)),
            mkSys (db s) (S (uuid_calls s)) (clock_calls s) (statements s)).

(** [datetime.now(timezone.utc)] *)
Definition now_utc : M timestamp :=
  fun s => (Ok (utcnow W (clock_calls s)),
            mkSys (db s) (uuid_calls s) (S (clock_calls s)) (statements s)).

(** [conn.execute(stmt)] *)
Definition execute {A : Type} (stmt : Store -> result (A * Store)) : M A :=
  fun s =>
    let s1 := mkSys (db s) (uuid_calls s) (clock_calls s) (S (statements s)) in
    match sql_fault W (statements s) with
    | Some msg => (Raise (OperationalError msg), s1)
    | None =>
        match stmt (db s) with
        | Ok (a, d) => (Ok a, mkSys d (uuid_calls s) (clock_calls s) (S (statements s)))
        | Raise e => (Raise e, s1)
        end
    end.

End Environment.

(** ** The results of the aggregation methods *)

(** One value of the dictionary [power_budget_check] returns. *)
Record Budget := mkBudget {
  total_wattage : float;
  battery_count : nat;
  solar_count : nat;
  avg_charge_pct : option float;
  estimated_runtime_hours : option float;
  states : list string }.

Inductive BudgetEntry :=
| BudgetResult (b : Budget)
| BudgetError (error : string).

(** One element of [report["meters"]]. *)
Inductive MeterReport :=
| MeterSummary (meter_id type current_state : string)
    (avg_wattage max_wattage min_charge_pct : float) (reading_count : nat)
| MeterNoReadings (meter_id type : string).

(** The dictionary [export_report] serialises with [json.dumps]. *)
Record Report := mkReport {
  report_device_id : string;
  period_days : Z;
  generated_at : timestamp;
  report_meters : list MeterReport;
  event_count : nat;
  report_events : list PowerEvent.t }.

(** ** The methods of [PowerManager] *)

Module PowerManager.
Section Methods.
Context (W : World).

Definition get_device (device_id : string) : M DeviceRecord.t :=
  let* row := with_conn (execute W (Sql.select_device device_id)) in
  match row with
  | None => raise (ValueError (String.append "Device not found: " device_id))
  | Some d => ret d
  end.

(** Defaults: [shutdown_threshold=3.0], [target_wh=None]. *)
Definition register_device (device_id name : string)
    (shutdown_threshold : float) (target_wh : option float) : M DeviceRecord.t :=
  (with_conn (execute W
     (Sql.insert_or_replace_device device_id name shutdown_threshold target_wh))) ;;;
  get_device device_id.

Definition get_meter (meter_id : string) : M PowerMeter.t :=
  let* row := with_conn (execute W (Sql.select_meter meter_id)) in
  match row with
  | None => raise (ValueError (String.append "Meter not found: " meter_id))
  | Some m => ret m
  end.

(** Defaults: [capacity_wh=0.0], [name=None]. *)
Definition add_meter (device_id meter_type : string) (capacity_wh : float)
    (name : option string) : M PowerMeter.t :=
  (get_device device_id) ;;;
  let* meter_id := new_uuid W in
  (with_conn
     match MeterType_of_value meter_type with
     | Some t => execute W (Sql.insert_meter meter_id device_id t capacity_wh name)
     | None => raise (ValueError (String.append (PyStr.repr meter_type)
                                    " is not a valid MeterType"))
     end) ;;;
  get_meter meter_id.

(** [if device_id:] holds for a string that is not empty. *)
Definition list_meters (device_id : option string) : M (list PowerMeter.t) :=
  let filter := match device_id with
                | Some d => if String.eqb d "" then None else Some d
                | None => None
                end in
  with_conn (execute W (Sql.select_meters filter)).

(** Defaults: [value=0.0], [note=None]. *)
Definition trigger_event (device_id event_type : string) (value : float)
    (note : option string) : M PowerEvent.t :=
  (get_device device_id) ;;;
  let* eid := new_uuid W in
  let* now := now_utc W in
  match PowerEventType_of_value event_type with
  | None => raise (ValueError (String.append (PyStr.repr event_type)
                                 " is not a valid PowerEventType"))
  | Some etype =>
      (with_conn (execute W (Sql.insert_event eid device_id etype value now note))) ;;;
      ret (PowerEvent.mk eid device_id etype value now note)
  end.

(** [max(0.0, min(100.0, pct))] *)
Definition clamp (pct : float) : float :=
  Binary64.max f0 (Binary64.min f100 pct).

(** Default: [charge_pct=None]. *)
Definition log_power (meter_id : string) (voltage current : float)
    (charge_pct : option float) : M PowerReading.t :=
  let* meter := get_meter meter_id in
  let wattage := Binary64.round (Binary64.mul voltage current) 4 in
  let pct := match charge_pct with
             | Some p => p
             | None => PowerMeter.charge_pct meter
             end in
  let pct := clamp pct in
  let* now := now_utc W in
  let* rid := new_uuid W in
  (with_conn
     ((execute W (Sql.insert_reading rid meter_id voltage current wattage pct now)) ;;;
      execute W (Sql.update_meter_live voltage current pct meter_id))) ;;;
  (if MeterType_eqb (PowerMeter.type meter) BATTERY then
     if Binary64.leb pct CRITICAL_BATTERY_THRESHOLD then
       (trigger_event (PowerMeter.device_id meter) "low_battery" pct None) ;;; ret tt
     else if Binary64.leb pct LOW_BATTERY_THRESHOLD then
       (trigger_event (PowerMeter.device_id meter) "discharge" pct None) ;;; ret tt
     else ret tt
   else ret tt) ;;;
  ret (PowerReading.mk rid meter_id voltage current wattage pct now).

Definition calculate_wattage (meter_id : string) : M float :=
  let* meter := get_meter meter_id in
  ret (PowerMeter.wattage meter).

Definition estimate_runtime (device_id : string) : M (option float) :=
  let* meters := list_meters (Some device_id) in
  let battery_meters :=
    List.filter (fun m => MeterType_eqb (PowerMeter.type m) BATTERY
                          && Binary64.gtb (PowerMeter.current_draw m) f0) meters in
  match battery_meters with
  | [] => ret None
  | bm :: _ =>
      let remaining_wh :=
        Binary64.mul (PowerMeter.capacity_wh bm)
          (Binary64.div (PowerMeter.charge_pct bm) f100) in
      if Binary64.leb (PowerMeter.wattage bm) f0 then ret None
      else
        let hours := Binary64.div remaining_wh (PowerMeter.wattage bm) in
        ret (Some (Binary64.round hours 2))
  end.

(** Default: [limit=50]. *)
Definition get_events (device_id : string) (limit : Z) : M (list PowerEvent.t) :=
  with_conn (execute W (Sql.select_events device_id limit)).

(** The fields of one result of [power_budget_check], from the meters
    listed for the device and its runtime estimate. *)
Definition budget_of (meters : list PowerMeter.t) (runtime : option float) : Budget :=
  let total_wattage := Binary64.sum (List.map PowerMeter.wattage meters) in
  let battery_meters :=
    List.filter (fun m => MeterType_eqb (PowerMeter.type m) BATTERY) meters in
  let solar_meters :=
    List.filter (fun m => MeterType_eqb (PowerMeter.type m) SOLAR) meters in
  mkBudget
    (Binary64.round total_wattage 4)
    (length battery_meters)
    (length solar_meters)
    (match battery_meters with
     | [] => None
     | _ => Some (Binary64.round
                    (Binary64.div
                       (Binary64.sum (List.map PowerMeter.charge_pct battery_meters))
                       (Binary64.of_Z (Z.of_nat (length battery_meters)))) 2)
     end)
    runtime
    (List.map (fun m => PowerState_value (PowerMeter.state m)) meters).

Definition budget_entry (dev_id : string) : M BudgetEntry :=
  try_except
    ((get_device dev_id) ;;;
     let* meters := list_meters (Some dev_id) in
     let* runtime := estimate_runtime dev_id in
     ret (BudgetResult (budget_of meters runtime)))
    (fun exc => ret (BudgetError (Exc_str exc))).

Fixpoint power_budget_loop (device_ids : list string)
    (results : gmap string BudgetEntry) : M (gmap string BudgetEntry) :=
  match device_ids with
  | [] => ret results
  | dev_id :: rest =>
      let* entry := budget_entry dev_id in
      power_budget_loop rest (<[dev_id := entry]> results)
  end.

Definition power_budget_check (device_ids : list string)
    : M (gmap string BudgetEntry) :=
  power_budget_loop device_ids ∅.

(** [timedelta(hours=hours)], in microseconds. *)
Definition timedelta_hours (hours : Z) : Z := hours * 3600 * 1000000.

(** [timedelta(hours=hours)]: the days of a [timedelta], [hours // 24]
    here, are held in a C [int] and lie within 999999999 of zero. *)
Definition timedelta (hours : Z) : result Z :=
  let days := hours / 24 in
  if (days <? -2147483648) || (2147483647 <? days) then
    Raise (OverflowError "Python int too large to convert to C int")
  else if (days <? -999999999) || (999999999 <? days) then
    Raise (OverflowError
             (String.append "days="
                (String.append (pretty days) "; must have magnitude <= 999999999")))
  else Ok (timedelta_hours hours).

(** [d - delta] for a [datetime] and a [timedelta]. *)
Definition datetime_sub (d : timestamp) (delta : Z) : result timestamp :=
  let r := d - delta in
  if (r <? datetime_min) || (datetime_max <? r) then
    Raise (OverflowError "date value out of range")
  else Ok r.

(** Default: [hours=24]. *)
Definition get_history (meter_id : string) (hours : Z) : M (list PowerReading.t) :=
  let* now := now_utc W in
  let* delta := lift (timedelta hours) in
  let* since := lift (datetime_sub now delta) in
  with_conn (execute W (Sql.select_readings meter_id since)).

Definition meter_report (m : PowerMeter.t) (readings : list PowerReading.t)
    : MeterReport :=
  match readings with
  | [] => MeterNoReadings (PowerMeter.id m) (MeterType_value (PowerMeter.type m))
  | r :: rs =>
      let wattages := List.map PowerReading.wattage readings in
      MeterSummary (PowerMeter.id m) (MeterType_value (PowerMeter.type m))
        (PowerState_value (PowerMeter.state m))
        (Binary64.round
           (Binary64.div (Binary64.sum wattages)
              (Binary64.of_Z (Z.of_nat (length wattages)))) 4)
        (Binary64.max_list (PowerReading.wattage r)
           (List.map PowerReading.wattage rs))
        (Binary64.min_list (PowerReading.charge_pct r)
           (List.map PowerReading.charge_pct rs))
        (length readings)
  end.

Fixpoint report_meters_loop (days : Z) (meters : list PowerMeter.t)
    (acc : list MeterReport) : M (list MeterReport) :=
  match meters with
  | [] => ret acc
  | m :: rest =>
      let* readings := get_history (PowerMeter.id m) (days * 24) in
      report_meters_loop days rest (acc ++ [meter_report m readings])
  end.

(** Default: [days=7].  The value is the report dictionary; [json.dumps]
    only prints it. *)
Definition export_report (device_id : string) (days : Z) : M Report :=
  (get_device device_id) ;;;
  let* meters := list_meters (Some device_id) in
  let* generated := now_utc W in
  let* meter_reports := report_meters_loop days meters [] in
  let* events := get_events device_id 200 in
  ret (mkReport device_id days generated meter_reports
         (length events) (firstn 20 events)).

End Methods.
End PowerManager.

(** ** Vocabulary of the statements *)

(** A world whose database engine refuses no statement. *)
Definition no_fault (W : World) : Prop := forall n, sql_fault W n = None.

Definition after_statements (n : nat) (s : Sys) : Sys :=
  mkSys (db s) (uuid_calls s) (clock_calls s) (n + statements s).

(** The store after the first block of [log_power]: the reading appended and
    the live fields of the meter overwritten. *)
Definition logged (d : Store) (row : PowerReading.t) (meter_id : string)
    (v c p : float) : Store :=
  mkStore (devices d)
    (List.map (fun m => if String.eqb (PowerMeter.id m) meter_id
                        then Sql.set_live v c p m else m) (power_meters d))
    (power_readings d ++ [row])
    (power_events d).

(** The event type [log_power] raises by itself for a meter of type [t] at
    the clamped charge [pct], if any. *)
Definition auto_event (t : MeterType) (pct : float) : option PowerEventType :=
  if MeterType_eqb t BATTERY then
    if Binary64.leb pct CRITICAL_BATTERY_THRESHOLD then Some LOW_BATTERY
    else if Binary64.leb pct LOW_BATTERY_THRESHOLD then Some DISCHARGE
    else None
  else None.

(** The classification as the specification words it: a list of rules in
    priority order, the first whose condition holds decides, [NORMAL]
    otherwise. *)
Definition state_rules (m : PowerMeter.t) : list (bool * PowerState) :=
  [ (MeterType_eqb (PowerMeter.type m) SOLAR, CHARGING);
    (Binary64.leb (PowerMeter.charge_pct m) (Binary64.of_Z 5), CRITICAL);
    (Binary64.leb (PowerMeter.charge_pct m) (Binary64.of_Z 20), LOW);
    (Binary64.geb (PowerMeter.charge_pct m) (Binary64.of_Z 95), CHARGING) ].

Fixpoint first_match (rules : list (bool * PowerState)) (otherwise : PowerState)
    : PowerState :=
  match rules with
  | [] => otherwise
  | (condition, st) :: rest => if condition then st else first_match rest otherwise
  end.

(** The meters [list_meters(device_id)] gives on the database [d]. *)
Definition listed (d : Store) (device_id : string) : list PowerMeter.t :=
  if String.eqb device_id "" then power_meters d
  else List.filter (fun m => String.eqb (PowerMeter.device_id m) device_id)
         (power_meters d).

(** The meters of a device: the rows of [power_meters] that reference it. *)
Definition meters_of (d : Store) (device_id : string) : list PowerMeter.t :=
  List.filter (fun m => String.eqb (PowerMeter.device_id m) device_id) (power_meters d).

(** A battery-type meter with [current_draw > 0]. *)
Definition drawing_battery (m : PowerMeter.t) : bool :=
  MeterType_eqb (PowerMeter.type m) BATTERY
  && Binary64.gtb (PowerMeter.current_draw m) f0.

(** The estimate [estimate_runtime] computes from a list of meters. *)
Definition runtime_of (meters : list PowerMeter.t) : option float :=
  match List.filter drawing_battery meters with
  | [] => None
  | bm :: _ =>
      if Binary64.leb (PowerMeter.wattage bm) f0 then None
      else Some (Binary64.round
                   (Binary64.div
                      (Binary64.mul (PowerMeter.capacity_wh bm)
                         (Binary64.div (PowerMeter.charge_pct bm) f100))
                      (PowerMeter.wattage bm)) 2)
  end.

(** The entry [power_budget_check] computes for one id on the database [d]. *)
Definition budget_entry_of (d : Store) (dev_id : string) : BudgetEntry :=
  match devices d !! dev_id with
  | None => BudgetError (String.append "Device not found: " dev_id)
  | Some _ =>
      BudgetResult (PowerManager.budget_of (listed d dev_id) (runtime_of (listed d dev_id)))
  end.

(** A call is all-or-nothing on the database: when it raises, the database
    is as it was before the call. *)
Definition all_or_nothing {A : Type} (m : M A) (s : Sys) : Prop :=
  forall e s', m s = (Raise e, s') -> db s' = db s.

(** A computation keeps the property [P] of the database: [P] holds when it
    ends, returning or raising, if it held when it started. *)
Definition preserves {A : Type} (P : Store -> Prop) (m : M A) : Prop :=
  forall s, P (db s) -> P (db (snd (m s))).

(** A statement keeps [P]: when it succeeds on a database with [P], the
    database it leaves has [P]. *)
Definition keeps {A : Type} (P : Store -> Prop) (stmt : Store -> result (A * Store))
    : Prop :=
  forall d a d', P d -> stmt d = Ok (a, d') -> P d'.

(** [0.0 <= x <= 100.0] *)
Definition in_range (x : float) : Prop :=
  Binary64.leb f0 x = true /\ Binary64.leb x f100 = true.

(** Every charge level in the database lies in [0, 100]. *)
Definition charge_in_range (d : Store) : Prop :=
  Forall (fun m => in_range (PowerMeter.charge_pct m)) (power_meters d) /\
  Forall (fun r => in_range (PowerReading.charge_pct r)) (power_readings d).

(** The foreign keys of [init_db]. *)
Definition foreign_keys (d : Store) : Prop :=
  Forall (fun m => Sql.has_device d (PowerMeter.device_id m) = true) (power_meters d) /\
  Forall (fun r => Sql.has_meter d (PowerReading.meter_id r) = true) (power_readings d) /\
  Forall (fun e => Sql.has_device d (PowerEvent.device_id e) = true) (power_events d).

(** The calls a client can make: the public methods with their arguments. *)
Inductive call :=
| RegisterDevice (device_id name : string) (shutdown_threshold : float)
    (target_wh : option float)
| GetDevice (device_id : string)
| AddMeter (device_id meter_type : string) (capacity_wh : float) (name : option string)
| GetMeter (meter_id : string)
| ListMeters (device_id : option string)
| LogPower (meter_id : string) (voltage current : float) (charge_pct : option float)
| CalculateWattage (meter_id : string)
| EstimateRuntime (device_id : string)
| TriggerEvent (device_id event_type : string) (value : float) (note : option string)
| GetEvents (device_id : string) (limit : Z)
| PowerBudgetCheck (device_ids : list string)
| GetHistory (meter_id : string) (hours : Z)
| ExportReport (device_id : string) (days : Z).

(** The state a call leaves, whether it returns or raises. *)
Definition perform (W : World) (c : call) (s : Sys) : Sys :=
  match c with
  | RegisterDevice d n t w => snd (PowerManager.register_device W d n t w s)
  | GetDevice d => snd (PowerManager.get_device W d s)
  | AddMeter d t c n => snd (PowerManager.add_meter W d t c n s)
  | GetMeter m => snd (PowerManager.get_meter W m s)
  | ListMeters d => snd (PowerManager.list_meters W d s)
  | LogPower m v c p => snd (PowerManager.log_power W m v c p s)
  | CalculateWattage m => snd (PowerManager.calculate_wattage W m s)
  | EstimateRuntime d => snd (PowerManager.estimate_runtime W d s)
  | TriggerEvent d t v n => snd (PowerManager.trigger_event W d t v n s)
  | GetEvents d l => snd (PowerManager.get_events W d l s)
  | PowerBudgetCheck ds => snd (PowerManager.power_budget_check W ds s)
  | GetHistory m h => snd (PowerManager.get_history W m h s)
  | ExportReport d n => snd (PowerManager.export_report W d n s)
  end.

(** The primary keys of [init_db]: no two rows of a table share an id. *)
Definition primary_keys (d : Store) : Prop :=
  NoDup (List.map PowerMeter.id (power_meters d)) /\
  NoDup (List.map PowerReading.id (power_readings d)) /\
  NoDup (List.map PowerEvent.id (power_events d)).

(** The calls that only read. *)
Definition is_query (c : call) : bool :=
  match c with
  | RegisterDevice _ _ _ _ | AddMeter _ _ _ _ | LogPower _ _ _ _
  | TriggerEvent _ _ _ _ => false
  | _ => true
  end.

(** Every charge a meter holds is a value the clamp of [log_power] leaves
    as it is. *)
Definition charge_settled (d : Store) : Prop :=
  Forall (fun m => PowerManager.clamp (PowerMeter.charge_pct m) = PowerMeter.charge_pct m)
    (power_meters d).

(** The readings of a meter from an instant on, by ascending timestamp: the
    rows of [get_history]. *)
Definition history_of (d : Store) (meter_id : string) (since : timestamp)
    : list PowerReading.t :=
  Sql.index_scan PowerReading.timestamp
    (List.filter (fun r => String.eqb (PowerReading.meter_id r) meter_id
                           && (since <=? PowerReading.timestamp r))
       (power_readings d)).

(** ["meter_id"] and ["reading_count"] of an element of [report["meters"]]. *)
Definition report_meter_id (e : MeterReport) : string :=
  match e with
  | MeterSummary meter_id _ _ _ _ _ _ => meter_id
  | MeterNoReadings meter_id _ => meter_id
  end.

Definition report_reading_count (e : MeterReport) : nat :=
  match e with
  | MeterSummary _ _ _ _ _ _ n => n
  | MeterNoReadings _ _ => 0%nat
  end.

(** What identifies a meter and is set once, by [add_meter]. *)
Definition meter_identity (m : PowerMeter.t)
    : string * string * MeterType * float * option string :=
  (PowerMeter.id m, PowerMeter.device_id m, PowerMeter.type m,
   PowerMeter.capacity_wh m, PowerMeter.name m).

(** The database [d'] extends [d]: every device of [d] is still registered,
    the meters of [d] are there in the same order with their identity, and
    the readings and the events of [d] are there unchanged, followed by the
    new ones. *)
Definition grows (d d' : Store) : Prop :=
  (forall k, is_Some (devices d !! k) -> is_Some (devices d' !! k)) /\
  (exists new,
     List.map meter_identity (power_meters d')
     = List.map meter_identity (power_meters d) ++ new) /\
  (exists new, power_readings d' = power_readings d ++ new) /\
  (exists new, power_events d' = power_events d ++ new).

(** The window of [hours] back from the instant [now] exists: the
    [timedelta] is one, and the instant it leads back to is a [datetime]. *)
Definition window (now : timestamp) (hours : Z) : Prop :=
  -999999999 <= hours / 24 <= 999999999 /\
  datetime_min <= now - PowerManager.timedelta_hours hours <= datetime_max.

(** An [int] that SQLite takes as an [INTEGER]. *)
Definition int64 (n : Z) : Prop :=
  -9223372036854775808 <= n <= 9223372036854775807.

(** A string of printable ASCII characters that holds no single quote and
    no backslash. *)
Fixpoint plain (s : string) : bool :=
  match s with
  | EmptyString => true
  | String c rest =>
      (32 <=? N_of_ascii c)%N && (N_of_ascii c <? 127)%N
      && negb (Ascii.eqb c PyStr.squote) && negb (Ascii.eqb c PyStr.backslash)
      && plain rest
  end.

(** A session: calls made one after the other on a new database. *)
Definition session (W : World) (calls : list call) : Sys :=
  fold_left (fun s c => perform W c s) calls initial.

(** ** A concrete deployment

    The worlds and states the statements are instantiated on: identifiers
    [uuid-0], [uuid-1], ..., a clock that ticks once a second, and an engine
    that refuses nothing ([quiet]) or refuses one statement ([faulty]). *)

Module Scenario.

Definition uuid (n : nat) : string := String.append "uuid-" (pretty n).

Definition quiet : World := mkWorld uuid (fun n => 1000000 * Z.of_nat n) (fun _ => None).

(** The engine refuses the statement number [k]. *)
Definition faulty (k : nat) : World :=
  mkWorld uuid (fun n => 1000000 * Z.of_nat n)
    (fun n => if Nat.eqb n k then Some "disk I/O error" else None).

(** [register_device("dev-001", "Edge Node")] then
    [add_meter("dev-001", "battery", capacity_wh=50.0, name="Main Battery")]:
    the fixture of the test-suite.  The meter is [uuid-0]. *)
Definition with_battery : Sys :=
  snd (bind (PowerManager.register_device quiet "dev-001" "Edge Node" f3 None)
         (fun _ => PowerManager.add_meter quiet "dev-001" "battery"
                     (Binary64.of_Z 50) (Some "Main Battery")) initial).

Definition battery : PowerMeter.t :=
  PowerMeter.mk "uuid-0" "dev-001" BATTERY f0 f0 (Binary64.of_Z 50) f100
    (Some "Main Battery").

(** Then [log_power(uuid-0, 12.0, 2.0, charge_pct=80.0)]: the reading is
    [uuid-1], of 24 W. *)
Definition with_reading : Sys :=
  snd (PowerManager.log_power quiet "uuid-0" (Binary64.of_Z 12) (Binary64.of_Z 2)
         (Some (Binary64.of_Z 80)) with_battery).

Definition reading : PowerReading.t :=
  PowerReading.mk "uuid-1" "uuid-0" (Binary64.of_Z 12) (Binary64.of_Z 2)
    (Binary64.of_Z 24) (Binary64.of_Z 80) 0.

(** [trigger_event("dev-001", "charge_start")] 201 times on the fixture. *)
Definition many_events : Sys :=
  Nat.iter 201
    (fun s => snd (PowerManager.trigger_event quiet "dev-001" "charge_start" f0 None s))
    with_battery.

(** [register_device("", "Unnamed")] after the first reading: a device
    whose id is the empty string, with no meter. *)
Definition with_unnamed : Sys :=
  snd (PowerManager.register_device quiet "" "Unnamed" f3 None with_reading).

End Scenario.

(** * Properties *)

(** ** Floats: comparison and the clamp *)

Section FloatFacts.
Import Binary64.

Lemma ltb_leb (a b : float) : ltb a b = true -> leb a b = true.
Proof.
  unfold ltb, leb, SFltb, SFleb.
  destruct (SFcompare a b) as [[ | | ] | ]; intros H; congruence.
Qed.

Lemma compare_flip (a b : float) :
  SFcompare b a = option_map CompOpp (SFcompare a b).
Proof.
  destruct a as [sa | sa | | sa ma ea], b as [sb | sb | | sb mb eb];
    simpl; try reflexivity;
    try (destruct sa; reflexivity); try (destruct sb; reflexivity);
    try (destruct sa, sb; reflexivity).
  assert (Hm : Pos.compare_cont Eq mb ma = CompOpp (Pos.compare_cont Eq ma mb))
    by (rewrite Pos.compare_cont_antisym; reflexivity).
  destruct sa, sb; simpl; try reflexivity;
    rewrite (Z.compare_antisym ea eb);
    destruct (ea ?= eb)%Z; simpl; try reflexivity;
    rewrite Hm; try rewrite CompOpp_involutive; reflexivity.
Qed.

(** [a > b] is [not (a <= b)] as soon as neither is a NaN. *)
Lemma gtb_not_leb (a b : float) :
  is_nan a = false -> is_nan b = false -> gtb a b = negb (leb a b).
Proof.
  intros Ha Hb. unfold gtb, ltb, leb, SFltb, SFleb.
  rewrite (compare_flip a b).
  destruct (SFcompare a b) as [[ | | ] | ] eqn:E; simpl; try reflexivity.
  destruct a, b; simpl in *; try discriminate;
    repeat match goal with s : bool |- _ => destruct s end; discriminate.
Qed.

Lemma leb_nan_r (a b : float) : leb a b = true -> is_nan b = false.
Proof.
  destruct b; simpl; intros H; try reflexivity.
  unfold leb, SFleb in H. destruct a; discriminate.
Qed.
End FloatFacts.

Section ClampFacts.
Import Binary64 PowerManager.

Lemma clamp_cases (p : float) :
  (ltb p f100 = true /\ gtb p f0 = true /\ clamp p = p) \/
  (ltb p f100 = true /\ gtb p f0 = false /\ clamp p = f0) \/
  (ltb p f100 = false /\ clamp p = f100).
Proof.
  unfold clamp, Binary64.max, Binary64.min.
  destruct (ltb p f100) eqn:E1.
  - destruct (gtb p f0) eqn:E2; [left | right; left]; auto.
  - right; right. split; reflexivity.
Qed.

(** The clamped charge lies in [0, 100], whatever the input is. *)
Lemma clamp_range (p : float) :
  leb f0 (clamp p) = true /\ leb (clamp p) f100 = true.
Proof.
  destruct (clamp_cases p) as [(H1 & H2 & ->) | [(H1 & H2 & ->) | (H1 & ->)]].
  - split; apply ltb_leb; assumption.
  - split; reflexivity.
  - split; reflexivity.
Qed.

Lemma clamp_not_nan (p : float) : is_nan (clamp p) = false.
Proof. apply (leb_nan_r f0), clamp_range. Qed.

(** A value in range is kept: the clamp only moves what lies outside
    (and gives 0.0 for a negative zero). *)
Lemma clamp_in_range (p : float) :
  gtb p f0 = true -> ltb p f100 = true -> clamp p = p.
Proof.
  intros H0 H100. unfold clamp, Binary64.max, Binary64.min.
  rewrite H100, H0. reflexivity.
Qed.

(** The clamped charge is stored as it is: it is neither a NaN nor a
    negative zero. *)
Lemma real_clamp (p : float) : Sql.real (clamp p) = Some (clamp p).
Proof.
  destruct (clamp_cases p) as [(H1 & H2 & ->) | [(H1 & H2 & ->) | (H1 & ->)]];
    try reflexivity.
  destruct p as [s | s | | s m e]; try reflexivity; try discriminate.
Qed.
End ClampFacts.

(** ** Running the methods *)

Section Runs.
Import PowerManager.
Context (W : World) (HW : no_fault W).

Lemma bind_run {A B : Type} (m : M A) (k : A -> M B) (s s' : Sys) (a : A) :
  m s = (Ok a, s') -> bind m k s = k a s'.
Proof. intros H. unfold bind. rewrite H. reflexivity. Qed.

Lemma bind_raise {A B : Type} (m : M A) (k : A -> M B) (s s' : Sys) (e : Exc) :
  m s = (Raise e, s') -> bind m k s = (Raise e, s').
Proof. intros H. unfold bind. rewrite H. reflexivity. Qed.

(** A statement that succeeds, in its own [db_conn] block. *)
Lemma conn_execute_ok {A : Type} (stmt : Store -> result (A * Store))
    (s : Sys) (a : A) (d : Store) :
  stmt (db s) = Ok (a, d) ->
  with_conn (execute W stmt) s
  = (Ok a, mkSys d (uuid_calls s) (clock_calls s) (S (statements s))).
Proof.
  intros H. unfold with_conn, execute. rewrite HW, H. reflexivity.
Qed.

Lemma get_device_found (device_id : string) (d : DeviceRecord.t) (s : Sys) :
  devices (db s) !! device_id = Some d ->
  get_device W device_id s = (Ok d, after_statements 1 s).
Proof.
  intros H. unfold get_device.
  rewrite (bind_run _ _ s (after_statements 1 s) (Some d)).
  - reflexivity.
  - rewrite (conn_execute_ok _ s (Some d) (db s)); [reflexivity | ].
    unfold Sql.select_device. rewrite H. reflexivity.
Qed.

Lemma get_device_missing (device_id : string) (s : Sys) :
  devices (db s) !! device_id = None ->
  get_device W device_id s
  = (Raise (ValueError (String.append "Device not found: " device_id)),
     after_statements 1 s).
Proof.
  intros H. unfold get_device.
  rewrite (bind_run _ _ s (after_statements 1 s) None).
  - reflexivity.
  - rewrite (conn_execute_ok _ s None (db s)); [reflexivity | ].
    unfold Sql.select_device. rewrite H. reflexivity.
Qed.

Lemma get_meter_found (meter_id : string) (m : PowerMeter.t) (s : Sys) :
  List.find (fun m => String.eqb (PowerMeter.id m) meter_id) (power_meters (db s))
    = Some m ->
  get_meter W meter_id s = (Ok m, after_statements 1 s).
Proof.
  intros H. unfold get_meter.
  rewrite (bind_run _ _ s (after_statements 1 s) (Some m)).
  - reflexivity.
  - rewrite (conn_execute_ok _ s (Some m) (db s)); [reflexivity | ].
    unfold Sql.select_meter. rewrite H. reflexivity.
Qed.

Lemma list_meters_run (device_id : string) (s : Sys) :
  list_meters W (Some device_id) s
  = (Ok (if String.eqb device_id "" then power_meters (db s)
         else List.filter (fun m => String.eqb (PowerMeter.device_id m) device_id)
                (power_meters (db s))),
     after_statements 1 s).
Proof.
  unfold list_meters.
  erewrite conn_execute_ok; [reflexivity | ].
  unfold Sql.select_meters. destruct (String.eqb device_id ""); reflexivity.
Qed.

Lemma has_device_lookup (d : Store) (device_id : string) :
  Sql.has_device d device_id = true -> exists r, devices d !! device_id = Some r.
Proof.
  unfold Sql.has_device. intros H. apply bool_decide_eq_true in H.
  destruct H as [r Hr]. exists r. exact Hr.
Qed.

(** [trigger_event] on a device that exists: one row is appended. *)
Lemma trigger_event_run (device_id event_type : string) (etype : PowerEventType)
    (value stored : float) (note : option string) (s : Sys) :
  Sql.has_device (db s) device_id = true ->
  PowerEventType_of_value event_type = Some etype ->
  Sql.real value = Some stored ->
  Sql.has_event (db s) (uuid4 W (uuid_calls s)) = false ->
  trigger_event W device_id event_type value note s
  = (Ok (PowerEvent.mk (uuid4 W (uuid_calls s)) device_id etype value
           (utcnow W (clock_calls s)) note),
     mkSys (Sql.set_power_events (db s)
              (power_events (db s) ++
               [PowerEvent.mk (uuid4 W (uuid_calls s)) device_id etype stored
                  (utcnow W (clock_calls s)) note]))
       (S (uuid_calls s)) (S (clock_calls s)) (2 + statements s)).
Proof.
  intros Hdev Hty Hreal Hfresh.
  destruct (has_device_lookup _ _ Hdev) as [r Hr].
  unfold trigger_event.
  rewrite (bind_run _ _ _ _ _ (get_device_found _ _ _ Hr)).
  unfold new_uuid, now_utc, bind at 1 2. cbn [db uuid_calls clock_calls statements after_statements].
  rewrite Hty.
  erewrite bind_run; [reflexivity | ].
  erewrite conn_execute_ok; [reflexivity | ].
  cbn [db uuid_calls clock_calls statements].
  unfold Sql.insert_event, Sql.real_not_null.
  rewrite Hreal. cbn [Sql.and_then]. rewrite Hfresh. cbn [Sql.unique Sql.and_then].
  rewrite Hdev. reflexivity.
Qed.
End Runs.

Section LogPower.
Import PowerManager.
Context (W : World) (HW : no_fault W).

Lemma find_has_meter (meter_id : string) (d : Store) (m : PowerMeter.t) :
  List.find (fun m => String.eqb (PowerMeter.id m) meter_id) (power_meters d) = Some m ->
  Sql.has_meter d meter_id = true.
Proof.
  intros H. apply find_some in H. destruct H as [Hin Heq].
  unfold Sql.has_meter. apply existsb_exists. exists m. auto.
Qed.

(** The first block of [log_power]. *)
Lemma log_block_run (meter_id rid : string) (v c w p v' c' w' : float)
    (now : timestamp) (s : Sys) :
  Sql.has_meter (db s) meter_id = true ->
  Sql.real v = Some v' -> Sql.real c = Some c' -> Sql.real w = Some w' ->
  Sql.has_reading (db s) rid = false ->
  with_conn
    (bind (execute W (Sql.insert_reading rid meter_id v c w (clamp p) now))
       (fun _ => execute W (Sql.update_meter_live v c (clamp p) meter_id))) s
  = (Ok tt,
     mkSys (logged (db s) (PowerReading.mk rid meter_id v' c' w' (clamp p) now)
              meter_id v' c' (clamp p))
       (uuid_calls s) (clock_calls s) (2 + statements s)).
Proof.
  intros Hm Hv Hc Hw Hfresh.
  unfold with_conn, bind, execute. rewrite !HW.
  unfold Sql.insert_reading, Sql.real_not_null.
  rewrite Hv, Hc, Hw, (real_clamp p). cbn [Sql.and_then].
  rewrite Hfresh, Hm. cbn [Sql.unique Sql.foreign_key Sql.and_then].
  cbn [db uuid_calls clock_calls statements]. rewrite HW.
  unfold Sql.update_meter_live, Sql.real_not_null.
  replace (Sql.has_meter (Sql.set_power_readings (db s) _) meter_id) with true
    by (symmetry; exact Hm).
  rewrite Hv, Hc, (real_clamp p). cbn [Sql.and_then].
  reflexivity.
Qed.

(** [log_power] on a meter that exists, with values the tables accept and
    identifiers that are new: the reading is stored with the live fields,
    then the automatic event, if the rule gives one. *)
Lemma log_power_run (meter_id : string) (v c v' c' w' : float)
    (charge_pct : option float) (m : PowerMeter.t) (s : Sys) :
  List.find (fun m => String.eqb (PowerMeter.id m) meter_id) (power_meters (db s))
    = Some m ->
  Sql.has_device (db s) (PowerMeter.device_id m) = true ->
  Sql.real v = Some v' -> Sql.real c = Some c' ->
  Sql.real (Binary64.round (Binary64.mul v c) 4) = Some w' ->
  Sql.has_reading (db s) (uuid4 W (uuid_calls s)) = false ->
  Sql.has_event (db s) (uuid4 W (S (uuid_calls s))) = false ->
  let pct := clamp (match charge_pct with
                    | Some p => p
                    | None => PowerMeter.charge_pct m
                    end) in
  let rid := uuid4 W (uuid_calls s) in
  let now := utcnow W (clock_calls s) in
  let d1 := logged (db s) (PowerReading.mk rid meter_id v' c' w' pct now)
              meter_id v' c' pct in
  log_power W meter_id v c charge_pct s
  = (Ok (PowerReading.mk rid meter_id v c
           (Binary64.round (Binary64.mul v c) 4) pct now),
     match auto_event (PowerMeter.type m) pct with
     | Some etype =>
         mkSys (Sql.set_power_events d1
                  (power_events (db s) ++
                   [PowerEvent.mk (uuid4 W (S (uuid_calls s)))
                      (PowerMeter.device_id m) etype pct
                      (utcnow W (S (clock_calls s))) None]))
           (2 + uuid_calls s) (2 + clock_calls s) (5 + statements s)
     | None =>
         mkSys d1 (1 + uuid_calls s) (1 + clock_calls s) (3 + statements s)
     end).
Proof.
  intros Hfind Hdev Hv Hc Hw Hrid Heid pct rid now d1.
  unfold log_power.
  rewrite (bind_run _ _ _ _ _ (get_meter_found W HW _ _ _ Hfind)).
  unfold now_utc, new_uuid, bind at 1 2.
  cbn [db uuid_calls clock_calls statements after_statements].
  fold pct.
  erewrite bind_run;
    [ | unfold pct; apply (log_block_run meter_id _ v c _ _ v' c' w');
        cbn [db uuid_calls clock_calls statements];
        eauto using find_has_meter ].
  cbn [db uuid_calls clock_calls statements]. fold pct rid now d1.
  unfold auto_event.
  destruct (MeterType_eqb (PowerMeter.type m) BATTERY).
  2: { reflexivity. }
  destruct (Binary64.leb pct CRITICAL_BATTERY_THRESHOLD) eqn:E5;
    [ | destruct (Binary64.leb pct LOW_BATTERY_THRESHOLD) eqn:E20 ].
  3: { reflexivity. }
  all: erewrite bind_run;
    [ reflexivity
    | erewrite bind_run;
      [ reflexivity
      | etransitivity;
        [ eapply (trigger_event_run W HW _ _ _ pct pct);
          [ exact Hdev | reflexivity | apply real_clamp | exact Heid ]
        | reflexivity ] ] ].
Qed.
End LogPower.

(** ** Every outcome of a method

    The lemmas above run a method in a world without faults.  The ones below
    hold in every world: they list what a call can do to the database,
    whether it returns or raises. *)

Section Outcomes.
Import PowerManager.
Context (W : World).

Lemma bind_inv {A B : Type} (m : M A) (k : A -> M B) (s s' : Sys) (b : B) :
  bind m k s = (Ok b, s') ->
  exists a s1, m s = (Ok a, s1) /\ k a s1 = (Ok b, s').
Proof.
  unfold bind. destruct (m s) as [[a | e] s1]; intros H.
  - exists a, s1. auto.
  - discriminate.
Qed.

(** A block of one statement either commits what the statement did, or
    raises and leaves the database as it was. *)
Lemma conn_execute_cases {A : Type} (stmt : Store -> result (A * Store)) (s : Sys) :
  (exists a d, sql_fault W (statements s) = None /\ stmt (db s) = Ok (a, d) /\
     with_conn (execute W stmt) s
     = (Ok a, mkSys d (uuid_calls s) (clock_calls s) (S (statements s)))) \/
  (exists e, with_conn (execute W stmt) s = (Raise e, after_statements 1 s)).
Proof.
  unfold with_conn, execute.
  destruct (sql_fault W (statements s)) as [msg | ].
  - right. eexists. reflexivity.
  - destruct (stmt (db s)) as [[a d] | e].
    + left. exists a, d. auto.
    + right. eexists. reflexivity.
Qed.

Lemma get_device_cases (device_id : string) (s : Sys) :
  (exists d, devices (db s) !! device_id = Some d /\
     get_device W device_id s = (Ok d, after_statements 1 s)) \/
  (exists e, get_device W device_id s = (Raise e, after_statements 1 s)).
Proof.
  unfold get_device.
  destruct (conn_execute_cases (Sql.select_device device_id) s)
    as [(a & d & _ & Hs & Hrun) | (e & Hrun)].
  - unfold Sql.select_device in Hs. injection Hs as <- <-.
    rewrite (bind_run _ _ _ _ _ Hrun).
    destruct (devices (db s) !! device_id) as [r | ] eqn:E.
    + left. exists r. auto.
    + right. eexists. reflexivity.
  - right. exists e. apply bind_raise. exact Hrun.
Qed.

Lemma get_meter_cases (meter_id : string) (s : Sys) :
  (exists m,
     List.find (fun m => String.eqb (PowerMeter.id m) meter_id) (power_meters (db s))
       = Some m /\
     get_meter W meter_id s = (Ok m, after_statements 1 s)) \/
  (exists e, get_meter W meter_id s = (Raise e, after_statements 1 s)).
Proof.
  unfold get_meter.
  destruct (conn_execute_cases (Sql.select_meter meter_id) s)
    as [(a & d & _ & Hs & Hrun) | (e & Hrun)].
  - unfold Sql.select_meter in Hs. injection Hs as <- <-.
    rewrite (bind_run _ _ _ _ _ Hrun).
    destruct (List.find _ (power_meters (db s))) as [r | ] eqn:E.
    + left. exists r. auto.
    + right. eexists. reflexivity.
  - right. exists e. apply bind_raise. exact Hrun.
Qed.

Lemma insert_event_inv (eid device_id : string) (etype : PowerEventType)
    (value : float) (now : timestamp) (note : option string) (d d' : Store) (u : unit) :
  Sql.insert_event eid device_id etype value now note d = Ok (u, d') ->
  exists stored, Sql.real value = Some stored /\
    Sql.has_event d eid = false /\ Sql.has_device d device_id = true /\
    d' = Sql.set_power_events d
           (power_events d ++ [PowerEvent.mk eid device_id etype stored now note]).
Proof.
  unfold Sql.insert_event, Sql.real_not_null.
  destruct (Sql.real value) as [stored | ]; cbn [Sql.and_then]; [ | discriminate].
  destruct (Sql.has_event d eid); cbn [Sql.unique Sql.and_then]; [discriminate | ].
  destruct (Sql.has_device d device_id); cbn [Sql.foreign_key Sql.and_then];
    [ | discriminate].
  intros H. injection H as _ <-. exists stored. auto.
Qed.

Lemma trigger_event_step (device_id event_type : string) (value : float)
    (note : option string) (s : Sys) (d : DeviceRecord.t) :
  get_device W device_id s = (Ok d, after_statements 1 s) ->
  trigger_event W device_id event_type value note s
  = let eid := uuid4 W (uuid_calls s) in
    let now := utcnow W (clock_calls s) in
    let s1 := mkSys (db s) (S (uuid_calls s)) (S (clock_calls s))
                (1 + statements s) in
    match PowerEventType_of_value event_type with
    | None => (Raise (ValueError (String.append (PyStr.repr event_type)
                                    " is not a valid PowerEventType")), s1)
    | Some etype =>
        bind (with_conn (execute W
                (Sql.insert_event eid device_id etype value now note)))
          (fun _ => ret (PowerEvent.mk eid device_id etype value now note)) s1
    end.
Proof.
  intros Hrun. unfold trigger_event.
  rewrite (bind_run _ _ _ _ _ Hrun).
  destruct (PowerEventType_of_value event_type); reflexivity.
Qed.

(** [trigger_event] appends one event row, or raises and changes nothing. *)
Lemma trigger_event_cases (device_id event_type : string) (value : float)
    (note : option string) (s : Sys) :
  (exists etype stored ev s',
     trigger_event W device_id event_type value note s = (Ok ev, s') /\
     PowerEventType_of_value event_type = Some etype /\
     Sql.real value = Some stored /\
     ev = PowerEvent.mk (uuid4 W (uuid_calls s)) device_id etype value
            (utcnow W (clock_calls s)) note /\
     db s' = Sql.set_power_events (db s)
               (power_events (db s) ++
                [PowerEvent.mk (uuid4 W (uuid_calls s)) device_id etype stored
                   (utcnow W (clock_calls s)) note])) \/
  (exists e s', trigger_event W device_id event_type value note s = (Raise e, s') /\
     db s' = db s).
Proof.
  destruct (get_device_cases device_id s) as [(d & _ & Hrun) | (e & Hrun)].
  2: { right. exists e, (after_statements 1 s). split; [ | reflexivity].
       unfold trigger_event. apply bind_raise. exact Hrun. }
  rewrite (trigger_event_step _ _ _ _ _ _ Hrun). cbv zeta.
  destruct (PowerEventType_of_value event_type) as [etype | ].
  2: { right. do 2 eexists. split; reflexivity. }
  match goal with
  | |- context [bind (with_conn (execute W ?st)) _ ?s1] =>
      destruct (conn_execute_cases st s1) as [(a & d' & _ & Hs & Hr) | (e & Hr)]
  end.
  - apply insert_event_inv in Hs. destruct Hs as (stored & Hreal & _ & _ & ->).
    rewrite (bind_run _ _ _ _ _ Hr).
    left. exists etype, stored. do 2 eexists.
    split; [ reflexivity | ].
    cbn [db]. auto.
  - rewrite (bind_raise _ _ _ _ _ Hr).
    right. do 2 eexists. split; reflexivity.
Qed.
End Outcomes.

Section LogPowerOutcomes.
Import PowerManager.
Context (W : World).

Lemma has_meter_set_readings (d : Store) (l : list PowerReading.t) (meter_id : string) :
  Sql.has_meter (Sql.set_power_readings d l) meter_id = Sql.has_meter d meter_id.
Proof. reflexivity. Qed.

Lemma insert_reading_inv (rid meter_id : string) (v c w p : float)
    (now : timestamp) (d d' : Store) (u : unit) :
  Sql.insert_reading rid meter_id v c w p now d = Ok (u, d') ->
  exists v' c' w' p',
    Sql.real v = Some v' /\ Sql.real c = Some c' /\ Sql.real w = Some w' /\
    Sql.real p = Some p' /\
    Sql.has_reading d rid = false /\ Sql.has_meter d meter_id = true /\
    d' = Sql.set_power_readings d
           (power_readings d ++ [PowerReading.mk rid meter_id v' c' w' p' now]).
Proof.
  unfold Sql.insert_reading, Sql.real_not_null.
  destruct (Sql.real v) as [v' | ]; cbn [Sql.and_then]; [ | discriminate].
  destruct (Sql.real c) as [c' | ]; cbn [Sql.and_then]; [ | discriminate].
  destruct (Sql.real w) as [w' | ]; cbn [Sql.and_then]; [ | discriminate].
  destruct (Sql.real p) as [p' | ]; cbn [Sql.and_then]; [ | discriminate].
  destruct (Sql.has_reading d rid); cbn [Sql.unique Sql.and_then]; [discriminate | ].
  destruct (Sql.has_meter d meter_id); cbn [Sql.foreign_key Sql.and_then];
    [ | discriminate].
  intros H. injection H as _ <-. exists v', c', w', p'. repeat split; reflexivity.
Qed.

(** The first block of [log_power] in every world: the reading and the
    live fields are written together, or neither is. *)
Lemma log_block_cases (meter_id rid : string) (v c w p : float)
    (now : timestamp) (s : Sys) :
  (exists v' c' w',
     Sql.real v = Some v' /\ Sql.real c = Some c' /\ Sql.real w = Some w' /\
     Sql.has_reading (db s) rid = false /\ Sql.has_meter (db s) meter_id = true /\
     with_conn
       (bind (execute W (Sql.insert_reading rid meter_id v c w (clamp p) now))
          (fun _ => execute W (Sql.update_meter_live v c (clamp p) meter_id))) s
     = (Ok tt,
        mkSys (logged (db s) (PowerReading.mk rid meter_id v' c' w' (clamp p) now)
                 meter_id v' c' (clamp p))
          (uuid_calls s) (clock_calls s) (2 + statements s))) \/
  (exists e s',
     with_conn
       (bind (execute W (Sql.insert_reading rid meter_id v c w (clamp p) now))
          (fun _ => execute W (Sql.update_meter_live v c (clamp p) meter_id))) s
     = (Raise e, s') /\ db s' = db s).
Proof.
  unfold with_conn, bind, execute.
  destruct (sql_fault W (statements s)) as [msg | ].
  { right. do 2 eexists. split; reflexivity. }
  destruct (Sql.insert_reading rid meter_id v c w (clamp p) now (db s))
    as [[u d1] | e] eqn:Hins.
  2: { right. do 2 eexists. split; reflexivity. }
  apply insert_reading_inv in Hins.
  destruct Hins as (v' & c' & w' & p' & Hv & Hc & Hw & Hp & Hfresh & Hm & ->).
  rewrite real_clamp in Hp. injection Hp as <-.
  cbn [db uuid_calls clock_calls statements].
  destruct (sql_fault W (S (statements s))) as [msg | ].
  { right. do 2 eexists. split; reflexivity. }
  unfold Sql.update_meter_live, Sql.real_not_null.
  rewrite has_meter_set_readings, Hm, Hv, Hc, (real_clamp p). cbn [Sql.and_then].
  left. exists v', c', w'. repeat split; auto.
Qed.

Lemma log_power_step (meter_id : string) (v c : float) (charge_pct : option float)
    (m : PowerMeter.t) (s : Sys) :
  get_meter W meter_id s = (Ok m, after_statements 1 s) ->
  log_power W meter_id v c charge_pct s
  = let wattage := Binary64.round (Binary64.mul v c) 4 in
    let pct := clamp (match charge_pct with
                      | Some p => p
                      | None => PowerMeter.charge_pct m
                      end) in
    let now := utcnow W (clock_calls s) in
    let rid := uuid4 W (uuid_calls s) in
    bind (with_conn
            (bind (execute W (Sql.insert_reading rid meter_id v c wattage pct now))
               (fun _ => execute W (Sql.update_meter_live v c pct meter_id))))
      (fun _ =>
         bind (if MeterType_eqb (PowerMeter.type m) BATTERY then
                 if Binary64.leb pct CRITICAL_BATTERY_THRESHOLD then
                   bind (trigger_event W (PowerMeter.device_id m) "low_battery" pct None)
                     (fun _ => ret tt)
                 else if Binary64.leb pct LOW_BATTERY_THRESHOLD then
                   bind (trigger_event W (PowerMeter.device_id m) "discharge" pct None)
                     (fun _ => ret tt)
                 else ret tt
               else ret tt)
           (fun _ => ret (PowerReading.mk rid meter_id v c wattage pct now)))
      (mkSys (db s) (S (uuid_calls s)) (S (clock_calls s)) (1 + statements s)).
Proof.
  intros Hrun. unfold log_power.
  rewrite (bind_run _ _ _ _ _ Hrun). reflexivity.
Qed.

(** What a call of [log_power] can have done when it ends, in every world:
    nothing (it raised before or in its first block); the reading and the
    live fields, with no event due; these and the event; or these without
    the event that was due, which [trigger_event] failed to write. *)
Lemma log_power_cases (meter_id : string) (v c : float) (charge_pct : option float)
    (s : Sys) (res : result PowerReading.t) (s' : Sys) :
  log_power W meter_id v c charge_pct s = (res, s') ->
  (exists e, res = Raise e /\ db s' = db s) \/
  (exists m v' c' w',
     List.find (fun m => String.eqb (PowerMeter.id m) meter_id) (power_meters (db s))
       = Some m /\
     Sql.real v = Some v' /\ Sql.real c = Some c' /\
     Sql.real (Binary64.round (Binary64.mul v c) 4) = Some w' /\
     Sql.has_reading (db s) (uuid4 W (uuid_calls s)) = false /\
     let pct := clamp (match charge_pct with
                       | Some p => p
                       | None => PowerMeter.charge_pct m
                       end) in
     let rid := uuid4 W (uuid_calls s) in
     let now := utcnow W (clock_calls s) in
     let d1 := logged (db s) (PowerReading.mk rid meter_id v' c' w' pct now)
                 meter_id v' c' pct in
     let r := PowerReading.mk rid meter_id v c
                (Binary64.round (Binary64.mul v c) 4) pct now in
     (res = Ok r /\ auto_event (PowerMeter.type m) pct = None /\ db s' = d1) \/
     (exists etype, auto_event (PowerMeter.type m) pct = Some etype /\
        ((res = Ok r /\
          db s' = Sql.set_power_events d1
                    (power_events (db s) ++
                     [PowerEvent.mk (uuid4 W (S (uuid_calls s)))
                        (PowerMeter.device_id m) etype pct
                        (utcnow W (S (clock_calls s))) None])) \/
         (exists e, res = Raise e /\ db s' = d1)))).
Proof.
  intros H.
  destruct (get_meter_cases W meter_id s) as [(m & Hfind & Hrun) | (e & Hrun)].
  2: { unfold log_power in H. rewrite (bind_raise _ _ _ _ _ Hrun) in H.
       injection H as <- <-. left. exists e. auto. }
  rewrite (log_power_step _ _ _ _ _ _ Hrun) in H. cbv zeta in H.
  set (pct := clamp (match charge_pct with
                     | Some p => p
                     | None => PowerMeter.charge_pct m
                     end)) in *.
  match type of H with
  | bind (with_conn (bind (execute W (Sql.insert_reading ?rid _ _ _ ?w _ ?now)) _)) _ ?s1 = _ =>
      destruct (log_block_cases meter_id rid v c w
                  (match charge_pct with
                   | Some p => p
                   | None => PowerMeter.charge_pct m
                   end) now s1)
        as [(v' & c' & w' & Hv & Hc & Hw & Hfresh & _ & Hblock) | (e & s1' & Hblock & Hdb)]
  end.
  2: { fold pct in Hblock. rewrite (bind_raise _ _ _ _ _ Hblock) in H.
       injection H as <- <-. left. exists e. auto. }
  fold pct in Hblock. rewrite (bind_run _ _ _ _ _ Hblock) in H.
  cbn [db uuid_calls clock_calls statements] in H, Hfresh.
  right. exists m, v', c', w'. repeat (split; [assumption | ]).
  cbv zeta. unfold auto_event. fold pct.
  destruct (MeterType_eqb (PowerMeter.type m) BATTERY).
  2: { injection H as <- <-. left. auto. }
  assert (Hstored : forall stored, Sql.real pct = Some stored -> stored = pct).
  { intros stored Hs. unfold pct in Hs. rewrite real_clamp in Hs.
    injection Hs as <-. reflexivity. }
  destruct (Binary64.leb pct CRITICAL_BATTERY_THRESHOLD);
    [ | destruct (Binary64.leb pct LOW_BATTERY_THRESHOLD) ].
  3: { injection H as <- <-. left. auto. }
  all: right; eexists; split; [reflexivity | ].
  all: match type of H with
       | bind (bind (trigger_event W ?dev ?ty ?val ?note) _) _ ?s2 = _ =>
           destruct (trigger_event_cases W dev ty val note s2)
             as [(etype & stored & ev & s3 & Ht & Hty & Hreal & _ & Hdb3)
                | (e & s3 & Ht & Hdb3)]
       end.
  all: unfold bind in H; rewrite Ht in H; injection H as <- <-.
  all: try (right; exists e; split; [reflexivity | exact Hdb3]).
  all: left; split; [reflexivity | ].
  all: vm_compute in Hty; injection Hty as <-.
  all: rewrite Hdb3, (Hstored _ Hreal); reflexivity.
Qed.
End LogPowerOutcomes.

(** ** The thresholds *)

Section Thresholds.
Import Binary64.

Lemma gtb_leb_false (a b : float) : gtb a b = true -> leb a b = false.
Proof.
  unfold gtb, ltb, leb, SFltb, SFleb. rewrite (compare_flip a b).
  destruct (SFcompare a b) as [[ | | ] | ]; simpl; intros H;
    try discriminate; reflexivity.
Qed.

(** Above the low threshold is above the critical one. *)
Lemma above_low_not_critical (p : float) :
  gtb p LOW_BATTERY_THRESHOLD = true -> leb p CRITICAL_BATTERY_THRESHOLD = false.
Proof.
  unfold gtb, ltb, leb, SFltb, SFleb, LOW_BATTERY_THRESHOLD, CRITICAL_BATTERY_THRESHOLD.
  destruct p as [s | s | | s m e]; cbn [SFcompare]; try discriminate.
  - destruct s; [discriminate | reflexivity].
  - destruct s; [discriminate | ].
    destruct (Z.compare_spec (-48) e) as [He | He | He]; try discriminate.
    + subst e. intros _. reflexivity.
    + intros _.
      destruct (Z.compare_spec e (-50)) as [He' | He' | He'];
        [lia | lia | reflexivity].
Qed.

Lemma real_not_nan (x : float) : is_nan x = false -> exists y, Sql.real x = Some y.
Proof. destruct x; simpl; intros H; try discriminate; eexists; reflexivity. Qed.

(** What a [REAL] column keeps of a float is equal to it, in the sense of
    Python's [==]. *)
Lemma real_eqb (x y : float) : Sql.real x = Some y -> SFeqb y x = true.
Proof.
  destruct x as [s | s | | s m e]; simpl; intros H; try discriminate;
    injection H as <-; unfold SFeqb; simpl.
  - reflexivity.
  - destruct s; reflexivity.
  - destruct s; rewrite Z.compare_refl, Pos.compare_cont_refl; reflexivity.
Qed.
End Thresholds.

(** ** Claims on [log_power] *)

Section LogPowerClaims.
Import PowerManager.

(** C1.  A call of [log_power] on an existing meter that returns has
    appended one reading and, when the meter is a battery, exactly one
    [low_battery] event carrying the clamped charge if that charge is <= 5.0,
    exactly one [discharge] event carrying it if it is in (5.0, 20.0], and no
    event if it is > 20.0; when the meter is of another type, no event.  This
    holds in every world.  And the call does return in a world without
    faults, for values the tables accept (no NaN) and fresh identifiers, the
    device of the meter being there (the foreign key of [power_meters]). *)
Theorem log_power_auto_event (W : World) (s : Sys) (meter_id : string)
    (v c : float) (charge_pct : option float) (m : PowerMeter.t) :
  List.find (fun m => String.eqb (PowerMeter.id m) meter_id) (power_meters (db s))
    = Some m ->
  let pct := clamp (match charge_pct with
                    | Some p => p
                    | None => PowerMeter.charge_pct m
                    end) in
  let event (t : PowerEventType) :=
    PowerEvent.mk (uuid4 W (S (uuid_calls s))) (PowerMeter.device_id m) t pct
      (utcnow W (S (clock_calls s))) None in
  (forall r s',
     log_power W meter_id v c charge_pct s = (Ok r, s') ->
     PowerReading.charge_pct r = pct /\
     (exists row, power_readings (db s') = power_readings (db s) ++ [row]) /\
     (PowerMeter.type m = BATTERY ->
      Binary64.leb pct CRITICAL_BATTERY_THRESHOLD = true ->
      power_events (db s') = power_events (db s) ++ [event LOW_BATTERY]) /\
     (PowerMeter.type m = BATTERY ->
      Binary64.gtb pct CRITICAL_BATTERY_THRESHOLD = true ->
      Binary64.leb pct LOW_BATTERY_THRESHOLD = true ->
      power_events (db s') = power_events (db s) ++ [event DISCHARGE]) /\
     (PowerMeter.type m = BATTERY ->
      Binary64.gtb pct LOW_BATTERY_THRESHOLD = true ->
      power_events (db s') = power_events (db s)) /\
     (PowerMeter.type m <> BATTERY ->
      power_events (db s') = power_events (db s))) /\
  (no_fault W ->
   Sql.has_device (db s) (PowerMeter.device_id m) = true ->
   Binary64.is_nan v = false -> Binary64.is_nan c = false ->
   Binary64.is_nan (Binary64.round (Binary64.mul v c) 4) = false ->
   Sql.has_reading (db s) (uuid4 W (uuid_calls s)) = false ->
   Sql.has_event (db s) (uuid4 W (S (uuid_calls s))) = false ->
   exists r s', log_power W meter_id v c charge_pct s = (Ok r, s')).
Proof.
  intros Hfind pct event. split.
  - intros r s' H. apply log_power_cases in H.
    destruct H as [(e & H & _) | (m0 & v' & c' & w' & Hfind0 & _ & _ & _ & _ & H)];
      [discriminate | ].
    rewrite Hfind in Hfind0. injection Hfind0 as <-.
    cbv zeta in H. fold pct in H.
    assert (Hauto :
      PowerReading.charge_pct r = pct /\
      (exists row, power_readings (db s') = power_readings (db s) ++ [row]) /\
      power_events (db s')
      = power_events (db s) ++
        match auto_event (PowerMeter.type m) pct with
        | Some t => [event t]
        | None => []
        end).
    { destruct H as [(Hr & -> & ->) | (etype & -> & [(Hr & ->) | (e & Hr & _)])];
        try discriminate; injection Hr as ->;
        (split; [reflexivity | split; [eexists; reflexivity | ] ]);
        cbn [Sql.set_power_events logged power_events];
        [symmetry; apply app_nil_r | reflexivity]. }
    destruct Hauto as (Hpct & Hrow & Hev). rewrite Hev. unfold auto_event.
    split; [exact Hpct | split; [exact Hrow | ] ].
    split; [ | split; [ | split] ].
    + intros Ht H5. rewrite Ht, H5. reflexivity.
    + intros Ht H5 H20. rewrite Ht, (gtb_leb_false _ _ H5), H20. reflexivity.
    + intros Ht H20.
      rewrite Ht, (above_low_not_critical _ H20), (gtb_leb_false _ _ H20).
      apply app_nil_r.
    + intros Ht. destruct (PowerMeter.type m); try apply app_nil_r. contradiction.
  - intros HW Hdev Hv Hc Hw Hrid Heid.
    destruct (real_not_nan _ Hv) as [v' Hv'].
    destruct (real_not_nan _ Hc) as [c' Hc'].
    destruct (real_not_nan _ Hw) as [w' Hw'].
    do 2 eexists.
    exact (log_power_run W HW meter_id v c v' c' w' charge_pct m s
             Hfind Hdev Hv' Hc' Hw' Hrid Heid).
Qed.

(** C1 on the fixture: [log_power(uuid-0, 3.2, 0.5, charge_pct=4.0)] returns
    and leaves one event, [low_battery] at 4.0. *)
Lemma log_power_auto_event_witness :
  exists r s',
    log_power Scenario.quiet "uuid-0" (Binary64.of_decimal false 32 1)
      (Binary64.of_dyadic 1 (-1)) (Some (Binary64.of_Z 4)) Scenario.with_battery
    = (Ok r, s') /\
    power_events (db s')
    = [PowerEvent.mk "uuid-2" "dev-001" LOW_BATTERY (Binary64.of_Z 4) 1000000 None].
Proof.
  destruct (log_power_auto_event Scenario.quiet Scenario.with_battery "uuid-0"
              (Binary64.of_decimal false 32 1) (Binary64.of_dyadic 1 (-1))
              (Some (Binary64.of_Z 4)) Scenario.battery)
    as (Hsound & Hreturns); [vm_compute; reflexivity | ].
  destruct Hreturns as (r & s' & Hrun);
    [ intros n; reflexivity | vm_compute; reflexivity .. | ].
  exists r, s'. split; [exact Hrun | ].
  destruct (Hsound r s' Hrun) as (_ & _ & Hlow & _).
  rewrite Hlow; [ vm_compute; reflexivity | reflexivity | vm_compute; reflexivity ].
Defined.
End LogPowerClaims.

(** ** Invariants of the database *)

Section Preservation.
Import PowerManager.
Context (W : World) (P : Store -> Prop).

Lemma preserves_ret {A : Type} (a : A) : preserves P (ret a).
Proof. intros s H. exact H. Qed.

Lemma preserves_raise {A : Type} (e : Exc) : preserves P (@raise A e).
Proof. intros s H. exact H. Qed.

Lemma preserves_lift {A : Type} (r : result A) : preserves P (lift r).
Proof. intros s H. exact H. Qed.

Lemma preserves_new_uuid : preserves P (new_uuid W).
Proof. intros s H. exact H. Qed.

Lemma preserves_now_utc : preserves P (now_utc W).
Proof. intros s H. exact H. Qed.

Lemma preserves_bind {A B : Type} (m : M A) (k : A -> M B) :
  preserves P m -> (forall a, preserves P (k a)) -> preserves P (bind m k).
Proof.
  intros Hm Hk s H. unfold bind. specialize (Hm s H).
  destruct (m s) as [[a | e] s1]; cbn [snd] in *.
  - apply Hk. exact Hm.
  - exact Hm.
Qed.

Lemma preserves_try_except {A : Type} (m : M A) (h : Exc -> M A) :
  preserves P m -> (forall e, preserves P (h e)) -> preserves P (try_except m h).
Proof.
  intros Hm Hh s H. unfold try_except. specialize (Hm s H).
  destruct (m s) as [[a | e] s1]; cbn [snd] in *.
  - exact Hm.
  - apply Hh. exact Hm.
Qed.

(** A block keeps [P] as soon as its body does: what a failed block leaves
    is the database it started from. *)
Lemma preserves_with_conn {A : Type} (m : M A) :
  preserves P m -> preserves P (with_conn m).
Proof.
  intros Hm s H. unfold with_conn. specialize (Hm s H).
  destruct (m s) as [[a | e] s1]; cbn [snd db] in *.
  - exact Hm.
  - exact H.
Qed.

Lemma preserves_execute {A : Type} (stmt : Store -> result (A * Store)) :
  keeps P stmt -> preserves P (execute W stmt).
Proof.
  intros Hk s H. unfold execute.
  destruct (sql_fault W (statements s)); [exact H | ].
  destruct (stmt (db s)) as [[a d] | e] eqn:E; cbn [snd db].
  - exact (Hk _ _ _ H E).
  - exact H.
Qed.

(** The queries change nothing. *)
Lemma keeps_select_device (device_id : string) : keeps P (Sql.select_device device_id).
Proof. intros d a d' H E. injection E as _ <-. exact H. Qed.

Lemma keeps_select_meter (meter_id : string) : keeps P (Sql.select_meter meter_id).
Proof. intros d a d' H E. injection E as _ <-. exact H. Qed.

Lemma keeps_select_meters (filter : option string) : keeps P (Sql.select_meters filter).
Proof. intros d a d' H E. injection E as _ <-. exact H. Qed.

Lemma keeps_select_events (device_id : string) (lim : Z) :
  keeps P (Sql.select_events device_id lim).
Proof.
  intros d a d' H E. unfold Sql.select_events in E.
  destruct (Sql.fits_integer lim); [ | discriminate].
  injection E as _ <-. exact H.
Qed.

Lemma keeps_select_readings (meter_id : string) (since : timestamp) :
  keeps P (Sql.select_readings meter_id since).
Proof. intros d a d' H E. injection E as _ <-. exact H. Qed.
End Preservation.

Create HintDb preserve.

#[local] Hint Resolve preserves_ret preserves_raise preserves_lift preserves_new_uuid
  preserves_now_utc
  preserves_with_conn preserves_execute keeps_select_device keeps_select_meter
  keeps_select_meters keeps_select_events keeps_select_readings : preserve.

(** Takes a method apart along its binds, blocks and branches. *)
Ltac preserve :=
  repeat first
    [ progress intros
    | progress cbv beta zeta
    | apply preserves_bind
    | apply preserves_try_except
    | match goal with
      | |- preserves _ (match ?x with _ => _ end) => destruct x
      end
    | solve [auto with preserve] ].

Section ReadOnly.
Import PowerManager.
Context (W : World) (P : Store -> Prop).

Lemma preserves_get_device (device_id : string) : preserves P (get_device W device_id).
Proof. unfold get_device. preserve. Qed.

Lemma preserves_get_meter (meter_id : string) : preserves P (get_meter W meter_id).
Proof. unfold get_meter. preserve. Qed.

Lemma preserves_list_meters (device_id : option string) :
  preserves P (list_meters W device_id).
Proof. unfold list_meters. preserve. Qed.

Lemma preserves_calculate_wattage (meter_id : string) :
  preserves P (calculate_wattage W meter_id).
Proof. unfold calculate_wattage. preserve. Qed.

Lemma preserves_estimate_runtime (device_id : string) :
  preserves P (estimate_runtime W device_id).
Proof. unfold estimate_runtime. preserve. apply preserves_list_meters. Qed.

Lemma preserves_get_events (device_id : string) (limit : Z) :
  preserves P (get_events W device_id limit).
Proof. unfold get_events. preserve. Qed.

Lemma preserves_get_history (meter_id : string) (hours : Z) :
  preserves P (get_history W meter_id hours).
Proof. unfold get_history. preserve. Qed.

Lemma preserves_budget_entry (dev_id : string) : preserves P (budget_entry W dev_id).
Proof.
  unfold budget_entry. preserve;
    auto using preserves_get_device, preserves_list_meters, preserves_estimate_runtime.
Qed.

Lemma preserves_power_budget_check (device_ids : list string) :
  preserves P (power_budget_check W device_ids).
Proof.
  unfold power_budget_check. generalize (∅ : gmap string BudgetEntry).
  induction device_ids as [ | dev_id rest IH]; intros results; cbn [power_budget_loop].
  - apply preserves_ret.
  - apply preserves_bind; [apply preserves_budget_entry | intros entry; apply IH].
Qed.

Lemma preserves_report_meters_loop (days : Z) (meters : list PowerMeter.t)
    (acc : list MeterReport) :
  preserves P (report_meters_loop W days meters acc).
Proof.
  revert acc. induction meters as [ | m rest IH]; intros acc; cbn [report_meters_loop].
  - apply preserves_ret.
  - apply preserves_bind; [apply preserves_get_history | intros readings; apply IH].
Qed.

Lemma preserves_export_report (device_id : string) (days : Z) :
  preserves P (export_report W device_id days).
Proof.
  unfold export_report. preserve;
    auto using preserves_get_device, preserves_list_meters,
      preserves_report_meters_loop, preserves_get_events.
Qed.
End ReadOnly.

Section ChargeInvariant.
Import PowerManager.
Context (W : World).

Lemma in_range_clamp (p : float) : in_range (clamp p).
Proof. apply clamp_range. Qed.

Lemma in_range_real (x y : float) : in_range x -> Sql.real x = Some y -> in_range y.
Proof.
  intros [H0 H100] E. destruct x as [s | s | | s m e]; simpl in E; try discriminate;
    injection E as <-; split; try assumption; reflexivity.
Qed.

Lemma keeps_charge_register (device_id name : string) (th : float) (target : option float) :
  keeps charge_in_range (Sql.insert_or_replace_device device_id name th target).
Proof. intros d a d' H E. injection E as _ <-. exact H. Qed.

Lemma keeps_charge_insert_meter (meter_id device_id : string) (t : MeterType)
    (cap : float) (name : option string) :
  keeps charge_in_range (Sql.insert_meter meter_id device_id t cap name).
Proof.
  intros d a d' [Hm Hr] E. unfold Sql.insert_meter in E.
  destruct (Sql.real_not_null _ cap); cbn [Sql.and_then] in E; [ | discriminate].
  destruct (Sql.unique _ _); cbn [Sql.and_then] in E; [ | discriminate].
  destruct (Sql.foreign_key _); cbn [Sql.and_then] in E; [ | discriminate].
  injection E as _ <-. split; [ | exact Hr].
  cbn [power_meters Sql.set_power_meters]. apply Forall_app. split; [exact Hm | ].
  constructor; [ | constructor]. split; reflexivity.
Qed.

Lemma keeps_charge_insert_reading (rid meter_id : string) (v c w p : float)
    (now : timestamp) :
  in_range p ->
  keeps charge_in_range (Sql.insert_reading rid meter_id v c w p now).
Proof.
  intros Hp d a d' [Hm Hr] E. apply insert_reading_inv in E.
  destruct E as (v' & c' & w' & p' & _ & _ & _ & Hp' & _ & _ & ->).
  split; [exact Hm | ].
  cbn [power_readings Sql.set_power_readings]. apply Forall_app. split; [exact Hr | ].
  constructor; [ | constructor]. exact (in_range_real _ _ Hp Hp').
Qed.

Lemma keeps_charge_update (v c p : float) (meter_id : string) :
  in_range p ->
  keeps charge_in_range (Sql.update_meter_live v c p meter_id).
Proof.
  intros Hp d a d' [Hm Hr] E. unfold Sql.update_meter_live, Sql.real_not_null in E.
  destruct (Sql.has_meter d meter_id); [ | injection E as _ <-; split; assumption].
  destruct (Sql.real v) as [v' | ]; cbn [Sql.and_then] in E; [ | discriminate].
  destruct (Sql.real c) as [c' | ]; cbn [Sql.and_then] in E; [ | discriminate].
  destruct (Sql.real p) as [p' | ] eqn:Hp'; cbn [Sql.and_then] in E; [ | discriminate].
  injection E as _ <-. split; [ | exact Hr].
  cbn [power_meters Sql.set_power_meters]. apply Forall_map.
  eapply Forall_impl; [exact Hm | ]. intros m Hin. cbn beta.
  destruct (String.eqb (PowerMeter.id m) meter_id); [ | exact Hin].
  exact (in_range_real _ _ Hp Hp').
Qed.

Lemma keeps_charge_insert_event (eid device_id : string) (t : PowerEventType)
    (value : float) (now : timestamp) (note : option string) :
  keeps charge_in_range (Sql.insert_event eid device_id t value now note).
Proof.
  intros d a d' H E. apply insert_event_inv in E.
  destruct E as (stored & _ & _ & _ & ->). exact H.
Qed.

Lemma charge_register_device (device_id name : string) (th : float)
    (target : option float) :
  preserves charge_in_range (register_device W device_id name th target).
Proof.
  unfold register_device. preserve; auto using keeps_charge_register with preserve.
Qed.

Lemma charge_add_meter (device_id meter_type : string) (cap : float)
    (name : option string) :
  preserves charge_in_range (add_meter W device_id meter_type cap name).
Proof.
  unfold add_meter. preserve;
    auto using preserves_get_device, preserves_get_meter.
  apply preserves_with_conn.
  destruct (MeterType_of_value meter_type);
    auto using keeps_charge_insert_meter with preserve.
Qed.

Lemma charge_trigger_event (device_id event_type : string) (value : float)
    (note : option string) :
  preserves charge_in_range (trigger_event W device_id event_type value note).
Proof.
  unfold trigger_event. preserve;
    auto using preserves_get_device, keeps_charge_insert_event with preserve.
Qed.

Lemma charge_log_power (meter_id : string) (v c : float) (charge_pct : option float) :
  preserves charge_in_range (log_power W meter_id v c charge_pct).
Proof.
  unfold log_power. preserve;
    auto using preserves_get_meter, keeps_charge_insert_event with preserve.
  apply preserves_with_conn, preserves_bind;
    [ | intros _ ];
    apply preserves_execute;
    auto using keeps_charge_insert_reading, keeps_charge_update, in_range_clamp.
Qed.

Lemma charge_perform (c : call) (s : Sys) :
  charge_in_range (db s) -> charge_in_range (db (perform W c s)).
Proof.
  destruct c; cbn [perform];
    [ apply charge_register_device | apply preserves_get_device
    | apply charge_add_meter | apply preserves_get_meter
    | apply preserves_list_meters | apply charge_log_power
    | apply preserves_calculate_wattage | apply preserves_estimate_runtime
    | apply charge_trigger_event | apply preserves_get_events
    | apply preserves_power_budget_check | apply preserves_get_history
    | apply preserves_export_report ].
Qed.

(** After every session every charge level in the database is in range. *)
Lemma charge_session (calls : list call) : charge_in_range (db (session W calls)).
Proof.
  unfold session.
  assert (H : charge_in_range (db initial)) by (split; constructor).
  revert H. generalize initial.
  induction calls as [ | c rest IH]; intros s H; cbn [fold_left].
  - exact H.
  - apply IH, charge_perform, H.
Qed.
End ChargeInvariant.

(** ** What [log_power] stores *)

Section Stored.
Import PowerManager.

Lemma find_logged (meter_id : string) (l : list PowerMeter.t) (m : PowerMeter.t)
    (v c p : float) :
  List.find (fun m => String.eqb (PowerMeter.id m) meter_id) l = Some m ->
  List.find (fun m => String.eqb (PowerMeter.id m) meter_id)
    (List.map (fun m => if String.eqb (PowerMeter.id m) meter_id
                        then Sql.set_live v c p m else m) l)
  = Some (Sql.set_live v c p m).
Proof.
  induction l as [ | x l IH]; cbn [List.find List.map]; [discriminate | ].
  destruct (String.eqb (PowerMeter.id x) meter_id) eqn:E.
  - intros H. injection H as <-. cbn [Sql.set_live PowerMeter.id]. rewrite E. reflexivity.
  - rewrite E. exact IH.
Qed.

(** A call of [log_power] that returns has stored a row with the reading's
    id, in which a [REAL] column holds what SQLite keeps of the value
    computed, and has overwritten the live fields of the meter. *)
Lemma log_power_stored (W : World) (meter_id : string) (v c : float)
    (charge_pct : option float) (s : Sys) (r : PowerReading.t) (s' : Sys) :
  log_power W meter_id v c charge_pct s = (Ok r, s') ->
  exists m v' c' w',
    List.find (fun m => String.eqb (PowerMeter.id m) meter_id) (power_meters (db s))
      = Some m /\
    Sql.real v = Some v' /\ Sql.real c = Some c' /\
    Sql.real (Binary64.round (Binary64.mul v c) 4) = Some w' /\
    let pct := clamp (match charge_pct with
                      | Some p => p
                      | None => PowerMeter.charge_pct m
                      end) in
    r = PowerReading.mk (uuid4 W (uuid_calls s)) meter_id v c
          (Binary64.round (Binary64.mul v c) 4) pct (utcnow W (clock_calls s)) /\
    power_readings (db s')
    = power_readings (db s) ++
      [PowerReading.mk (uuid4 W (uuid_calls s)) meter_id v' c' w' pct
         (utcnow W (clock_calls s))] /\
    List.find (fun m => String.eqb (PowerMeter.id m) meter_id) (power_meters (db s'))
    = Some (Sql.set_live v' c' pct m).
Proof.
  intros H. apply log_power_cases in H.
  destruct H as [(e & H & _) | (m & v' & c' & w' & Hfind & Hv & Hc & Hw & _ & H)];
    [discriminate | ].
  exists m, v', c', w'. repeat (split; [assumption | ]). cbv zeta in *.
  destruct H as [(Hr & _ & Hdb) | (etype & _ & [(Hr & Hdb) | (e & Hr & _)])];
    try discriminate;
    injection Hr as <-; rewrite Hdb; repeat split;
    cbn [Sql.set_power_events logged power_readings power_meters];
    try reflexivity; apply find_logged; exact Hfind.
Qed.

(** C3.  The wattage the system derives is voltage * current rounded to 4
    decimal places: for the [wattage] property of a meter, for what
    [calculate_wattage] returns, for the reading [log_power] returns, and
    (as Python's [==] has it) for the row [log_power] stores. *)
Theorem wattage_is_rounded_product :
  (forall m : PowerMeter.t,
     PowerMeter.wattage m
     = Binary64.round (Binary64.mul (PowerMeter.voltage m) (PowerMeter.current_draw m)) 4) /\
  (forall (W : World) (meter_id : string) (s s' : Sys) (w : float),
     calculate_wattage W meter_id s = (Ok w, s') ->
     exists m,
       List.find (fun m => String.eqb (PowerMeter.id m) meter_id) (power_meters (db s))
         = Some m /\
       w = Binary64.round
             (Binary64.mul (PowerMeter.voltage m) (PowerMeter.current_draw m)) 4) /\
  (forall (W : World) (meter_id : string) (v c : float) (charge_pct : option float)
          (s s' : Sys) (r : PowerReading.t),
     log_power W meter_id v c charge_pct s = (Ok r, s') ->
     PowerReading.wattage r = Binary64.round (Binary64.mul v c) 4 /\
     exists row,
       In row (power_readings (db s')) /\
       PowerReading.id row = PowerReading.id r /\
       SFeqb (PowerReading.wattage row) (Binary64.round (Binary64.mul v c) 4) = true).
Proof.
  split; [reflexivity | split].
  - intros W meter_id s s' w H. unfold calculate_wattage in H.
    destruct (get_meter_cases W meter_id s) as [(m & Hfind & Hrun) | (e & Hrun)].
    + rewrite (bind_run _ _ _ _ _ Hrun) in H. injection H as <- _.
      exists m. split; [exact Hfind | reflexivity].
    + rewrite (bind_raise _ _ _ _ _ Hrun) in H. discriminate.
  - intros W meter_id v c charge_pct s s' r H.
    destruct (log_power_stored _ _ _ _ _ _ _ _ H)
      as (m & v' & c' & w' & _ & _ & _ & Hw & Hr & Hrows & _).
    cbv zeta in *. subst r. split; [reflexivity | ].
    eexists. split; [rewrite Hrows; apply in_app_iff; right; left; reflexivity | ].
    split; [reflexivity | ]. cbn [PowerReading.wattage].
    exact (real_eqb _ _ Hw).
Qed.

(** C3 on the test-suite's [log_power(uuid-0, 12.0, 1.5, charge_pct=80.0)]:
    the wattage is 18.0. *)
Lemma wattage_is_rounded_product_witness :
  exists r s',
    log_power Scenario.quiet "uuid-0" (Binary64.of_Z 12) (Binary64.of_dyadic 3 (-1))
      (Some (Binary64.of_Z 80)) Scenario.with_battery = (Ok r, s') /\
    PowerReading.wattage r = Binary64.of_Z 18.
Proof.
  destruct (log_power Scenario.quiet "uuid-0" (Binary64.of_Z 12)
              (Binary64.of_dyadic 3 (-1)) (Some (Binary64.of_Z 80))
              Scenario.with_battery) as [[r | e] s'] eqn:E.
  - exists r, s'. split; [reflexivity | ].
    rewrite (proj1 (proj2 (proj2 wattage_is_rounded_product) _ _ _ _ _ _ _ _ E)).
    vm_compute. reflexivity.
  - vm_compute in E. discriminate.
Defined.

(** C4.  For a charge [p] given to [log_power], the value in the reading
    returned, in the row stored and written onto the meter is
    [max(0.0, min(100.0, p))], which lies in [0, 100]; and after every
    session of calls, in every world, every meter and every reading in the
    database has its charge in [0, 100]. *)
Theorem charge_pct_clamped :
  (forall (W : World) (meter_id : string) (v c p : float) (s s' : Sys)
          (r : PowerReading.t),
     log_power W meter_id v c (Some p) s = (Ok r, s') ->
     PowerReading.charge_pct r = Binary64.max f0 (Binary64.min f100 p) /\
     (exists row,
        In row (power_readings (db s')) /\
        PowerReading.id row = PowerReading.id r /\
        PowerReading.charge_pct row = Binary64.max f0 (Binary64.min f100 p)) /\
     (exists m,
        List.find (fun m => String.eqb (PowerMeter.id m) meter_id) (power_meters (db s'))
          = Some m /\
        PowerMeter.charge_pct m = Binary64.max f0 (Binary64.min f100 p))) /\
  (forall p : float, in_range (Binary64.max f0 (Binary64.min f100 p))) /\
  (forall (W : World) (calls : list call), charge_in_range (db (session W calls))).
Proof.
  split; [ | split; [exact in_range_clamp | exact charge_session] ].
  intros W meter_id v c p s s' r H.
  destruct (log_power_stored _ _ _ _ _ _ _ _ H)
    as (m & v' & c' & w' & _ & _ & _ & _ & Hr & Hrows & Hmeter).
  cbv zeta in *. subst r. split; [reflexivity | split].
  - eexists. split; [rewrite Hrows; apply in_app_iff; right; left; reflexivity | ].
    split; reflexivity.
  - eexists. split; [exact Hmeter | reflexivity].
Qed.

(** C4 on the test-suite's [log_power(uuid-0, 12.0, 0.5, charge_pct=150.0)]:
    the charge returned is 100.0. *)
Lemma charge_pct_clamped_witness :
  exists r s',
    log_power Scenario.quiet "uuid-0" (Binary64.of_Z 12) (Binary64.of_dyadic 1 (-1))
      (Some (Binary64.of_Z 150)) Scenario.with_battery = (Ok r, s') /\
    PowerReading.charge_pct r = f100.
Proof.
  destruct (log_power Scenario.quiet "uuid-0" (Binary64.of_Z 12)
              (Binary64.of_dyadic 1 (-1)) (Some (Binary64.of_Z 150))
              Scenario.with_battery) as [[r | e] s'] eqn:E.
  - exists r, s'. split; [reflexivity | ].
    rewrite (proj1 (proj1 charge_pct_clamped _ _ _ _ _ _ _ _ E)).
    vm_compute. reflexivity.
  - vm_compute in E. discriminate.
Defined.
End Stored.

(** ** The state of a meter *)

Section State.

(** C2.  The state of a meter is decided by the first rule that matches, in
    the order: solar -> CHARGING; charge <= 5.0 -> CRITICAL; charge <= 20.0
    -> LOW; charge >= 95.0 -> CHARGING; otherwise NORMAL.  A meter that is
    not solar is NORMAL at 80, LOW at 15, CRITICAL at 4 and CHARGING at 97;
    a solar meter is CHARGING whatever its charge. *)
Theorem state_first_match :
  (forall m : PowerMeter.t, PowerMeter.state m = first_match (state_rules m) NORMAL) /\
  (forall m : PowerMeter.t,
     PowerMeter.type m <> SOLAR ->
     (PowerMeter.charge_pct m = Binary64.of_Z 80 -> PowerMeter.state m = NORMAL) /\
     (PowerMeter.charge_pct m = Binary64.of_Z 15 -> PowerMeter.state m = LOW) /\
     (PowerMeter.charge_pct m = Binary64.of_Z 4 -> PowerMeter.state m = CRITICAL) /\
     (PowerMeter.charge_pct m = Binary64.of_Z 97 -> PowerMeter.state m = CHARGING)) /\
  (forall m : PowerMeter.t, PowerMeter.type m = SOLAR -> PowerMeter.state m = CHARGING).
Proof.
  split; [ | split].
  - intros m. unfold PowerMeter.state, state_rules, first_match.
    change (Binary64.of_Z 5) with CRITICAL_BATTERY_THRESHOLD.
    change (Binary64.of_Z 20) with LOW_BATTERY_THRESHOLD.
    change (Binary64.of_Z 95) with f95.
    reflexivity.
  - intros m Ht. unfold PowerMeter.state.
    replace (MeterType_eqb (PowerMeter.type m) SOLAR) with false
      by (destruct (PowerMeter.type m); try reflexivity; contradiction).
    repeat split; intros ->; vm_compute; reflexivity.
  - intros m Ht. unfold PowerMeter.state. rewrite Ht. reflexivity.
Qed.

(** C2 on the fixture's battery once its charge is 15.0. *)
Lemma state_first_match_witness :
  PowerMeter.state (Sql.set_live f0 f0 (Binary64.of_Z 15) Scenario.battery) = LOW.
Proof.
  apply (proj1 (proj2 (proj1 (proj2 state_first_match)
                         (Sql.set_live f0 f0 (Binary64.of_Z 15) Scenario.battery)
                         ltac:(discriminate)))).
  reflexivity.
Defined.

(** The classification never answers [UNKNOWN]. *)
Lemma state_known (m : PowerMeter.t) : PowerMeter.state m <> UNKNOWN.
Proof.
  unfold PowerMeter.state.
  repeat match goal with |- context [if ?b then _ else _] => destruct b end;
    discriminate.
Qed.
End State.

(** ** [add_meter] *)

Section AddMeter.
Import PowerManager.
Context (W : World).

Lemma insert_meter_inv (meter_id device_id : string) (t : MeterType) (cap : float)
    (name : option string) (d d' : Store) (u : unit) :
  Sql.insert_meter meter_id device_id t cap name d = Ok (u, d') ->
  exists cap',
    Sql.real cap = Some cap' /\ Sql.has_meter d meter_id = false /\
    Sql.has_device d device_id = true /\
    d' = Sql.set_power_meters d
           (power_meters d ++ [PowerMeter.mk meter_id device_id t f0 f0 cap' f100 name]).
Proof.
  unfold Sql.insert_meter, Sql.real_not_null.
  destruct (Sql.real cap) as [cap' | ]; cbn [Sql.and_then]; [ | discriminate].
  destruct (Sql.has_meter d meter_id); cbn [Sql.unique Sql.and_then]; [discriminate | ].
  destruct (Sql.has_device d device_id); cbn [Sql.foreign_key Sql.and_then];
    [ | discriminate].
  intros H. injection H as _ <-. exists cap'. auto.
Qed.

(** Looking up the id of a row just appended, when no older row has it. *)
Lemma find_appended (meter_id : string) (d : Store) (x : PowerMeter.t) :
  Sql.has_meter d meter_id = false ->
  PowerMeter.id x = meter_id ->
  List.find (fun m => String.eqb (PowerMeter.id m) meter_id) (power_meters d ++ [x])
  = Some x.
Proof.
  unfold Sql.has_meter. generalize (power_meters d). intros l Hnew Hid.
  induction l as [ | y l IH]; cbn [List.find app existsb] in *.
  - rewrite Hid, String.eqb_refl. reflexivity.
  - apply orb_false_iff in Hnew. destruct Hnew as [Hy Hl]. rewrite Hy. exact (IH Hl).
Qed.

Lemma add_meter_step (device_id meter_type : string) (cap : float)
    (name : option string) (s : Sys) (d : DeviceRecord.t) :
  get_device W device_id s = (Ok d, after_statements 1 s) ->
  add_meter W device_id meter_type cap name s
  = let meter_id := uuid4 W (uuid_calls s) in
    bind (with_conn
            match MeterType_of_value meter_type with
            | Some t => execute W (Sql.insert_meter meter_id device_id t cap name)
            | None => raise (ValueError (String.append (PyStr.repr meter_type)
                                           " is not a valid MeterType"))
            end)
      (fun _ => get_meter W meter_id)
      (mkSys (db s) (S (uuid_calls s)) (clock_calls s) (1 + statements s)).
Proof.
  intros Hrun. unfold add_meter. rewrite (bind_run _ _ _ _ _ Hrun). reflexivity.
Qed.

(** What [add_meter] returns is the row it inserted. *)
Lemma add_meter_returns (device_id meter_type : string) (cap : float)
    (name : option string) (s s' : Sys) (m : PowerMeter.t) :
  add_meter W device_id meter_type cap name s = (Ok m, s') ->
  exists t cap',
    MeterType_of_value meter_type = Some t /\ Sql.real cap = Some cap' /\
    m = PowerMeter.mk (uuid4 W (uuid_calls s)) device_id t f0 f0 cap' f100 name /\
    power_meters (db s') = power_meters (db s) ++ [m].
Proof.
  intros H.
  destruct (get_device_cases W device_id s) as [(d & _ & Hrun) | (e & Hrun)].
  2: { unfold add_meter in H. rewrite (bind_raise _ _ _ _ _ Hrun) in H. discriminate. }
  rewrite (add_meter_step _ _ _ _ _ _ Hrun) in H. cbv zeta in H.
  apply bind_inv in H. destruct H as (u & s1 & Hblock & Hget).
  destruct (MeterType_of_value meter_type) as [t | ]; [ | discriminate].
  match type of Hblock with
  | with_conn (execute W ?st) ?s0 = _ =>
      destruct (conn_execute_cases W st s0) as [(a & d1 & _ & Hs & Hr) | (e & Hr)]
  end.
  2: { rewrite Hr in Hblock. discriminate. }
  rewrite Hr in Hblock. injection Hblock as <- <-.
  apply insert_meter_inv in Hs. destruct Hs as (cap' & Hcap & Hnew & _ & ->).
  cbn [db] in Hnew.
  match type of Hget with
  | get_meter W ?id ?s1 = _ =>
      destruct (get_meter_cases W id s1) as [(m' & Hfind & Hrun') | (e & Hrun')]
  end.
  2: { rewrite Hrun' in Hget. discriminate. }
  rewrite Hrun' in Hget. injection Hget as <- <-.
  cbn [db power_meters Sql.set_power_meters] in Hfind.
  erewrite find_appended in Hfind; [ | exact Hnew | reflexivity].
  injection Hfind as <-.
  exists t, cap'. repeat split; auto.
Qed.

(** [add_meter] succeeds on a device that exists, for a recognised type, a
    capacity that is a number and an identifier that is new. *)
Lemma add_meter_run (HW : no_fault W) (device_id meter_type : string) (t : MeterType)
    (cap cap' : float) (name : option string) (s : Sys) (d : DeviceRecord.t) :
  devices (db s) !! device_id = Some d ->
  MeterType_of_value meter_type = Some t ->
  Sql.real cap = Some cap' ->
  Sql.has_meter (db s) (uuid4 W (uuid_calls s)) = false ->
  let m := PowerMeter.mk (uuid4 W (uuid_calls s)) device_id t f0 f0 cap' f100 name in
  add_meter W device_id meter_type cap name s
  = (Ok m, mkSys (Sql.set_power_meters (db s) (power_meters (db s) ++ [m]))
             (S (uuid_calls s)) (clock_calls s) (3 + statements s)).
Proof.
  intros Hdev Hty Hcap Hnew m.
  rewrite (add_meter_step _ _ _ _ _ _ (get_device_found W HW _ _ _ Hdev)).
  cbv zeta. rewrite Hty.
  erewrite bind_run.
  2: { apply (conn_execute_ok W HW). cbn [db].
       unfold Sql.insert_meter, Sql.real_not_null.
       rewrite Hcap. cbn [Sql.and_then]. rewrite Hnew. cbn [Sql.unique Sql.and_then].
       unfold Sql.has_device. rewrite Hdev.
       rewrite bool_decide_eq_true_2 by (eexists; reflexivity).
       reflexivity. }
  etransitivity; [apply (get_meter_found W HW _ m) | reflexivity].
  cbn [db power_meters Sql.set_power_meters uuid_calls].
  apply find_appended; [exact Hnew | reflexivity].
Qed.

(** C10.  The meter [add_meter] returns has voltage 0.0, current draw 0.0
    and charge 100.0, hence wattage 0.0 and state CHARGING; and [add_meter]
    does return one for an existing device and a recognised type (in a world
    without faults, for a capacity that is a number and a new identifier). *)
Theorem add_meter_defaults :
  (forall (device_id meter_type : string) (cap : float) (name : option string)
          (s s' : Sys) (m : PowerMeter.t),
     add_meter W device_id meter_type cap name s = (Ok m, s') ->
     PowerMeter.voltage m = f0 /\ PowerMeter.current_draw m = f0 /\
     PowerMeter.charge_pct m = f100 /\
     PowerMeter.wattage m = f0 /\ PowerMeter.state m = CHARGING) /\
  (no_fault W ->
   forall (device_id meter_type : string) (t : MeterType) (cap : float)
          (name : option string) (s : Sys) (d : DeviceRecord.t),
     devices (db s) !! device_id = Some d ->
     MeterType_of_value meter_type = Some t ->
     Binary64.is_nan cap = false ->
     Sql.has_meter (db s) (uuid4 W (uuid_calls s)) = false ->
     exists m s', add_meter W device_id meter_type cap name s = (Ok m, s')).
Proof.
  split.
  - intros device_id meter_type cap name s s' m H.
    apply add_meter_returns in H. destruct H as (t & cap' & _ & _ & -> & _).
    split; [reflexivity | split; [reflexivity | split; [reflexivity | split] ] ].
    + reflexivity.
    + destruct t; reflexivity.
  - intros HW device_id meter_type t cap name s d Hdev Hty Hcap Hnew.
    destruct (real_not_nan _ Hcap) as [cap' Hcap'].
    do 2 eexists. exact (add_meter_run HW _ _ _ _ _ _ _ _ Hdev Hty Hcap' Hnew).
Qed.
End AddMeter.

(** C10 on the fixture: a solar meter added to [dev-001]. *)
Lemma add_meter_defaults_witness :
  exists m s',
    PowerManager.add_meter Scenario.quiet "dev-001" "solar" f0 (Some "Solar Panel")
      Scenario.with_battery = (Ok m, s') /\
    PowerMeter.charge_pct m = f100 /\ PowerMeter.state m = CHARGING.
Proof.
  destruct (proj2 (add_meter_defaults Scenario.quiet) ltac:(intros n; reflexivity)
              "dev-001" "solar" SOLAR f0 (Some "Solar Panel") Scenario.with_battery
              (DeviceRecord.mk "dev-001" "Edge Node" f3 None))
    as (m & s' & Hrun); [vm_compute; reflexivity .. | ].
  exists m, s'. split; [exact Hrun | ].
  destruct (proj1 (add_meter_defaults Scenario.quiet) _ _ _ _ _ _ _ Hrun)
    as (_ & _ & Hc & _ & Hs).
  split; assumption.
Defined.

(** ** Transactions *)

Section Transactions.
Import PowerManager.

(** C6 as stated fails: when the engine refuses the [INSERT] of the automatic
    event (the fifth statement of the call, statement 9 of the session),
    [log_power] raises, yet the reading and the update of the meter stay
    committed, without the event. *)
Lemma log_power_not_all_or_nothing :
  (exists e s',
     log_power (Scenario.faulty 9) "uuid-0" (Binary64.of_decimal false 32 1)
       (Binary64.of_dyadic 1 (-1)) (Some (Binary64.of_Z 4)) Scenario.with_battery
     = (Raise e, s') /\
     power_readings (db Scenario.with_battery) = [] /\
     length (power_readings (db s')) = 1%nat /\
     option_map PowerMeter.charge_pct
       (List.find (fun m => String.eqb (PowerMeter.id m) "uuid-0") (power_meters (db s')))
     = Some (Binary64.of_Z 4) /\
     power_events (db s') = []) /\
  ~ all_or_nothing
      (log_power (Scenario.faulty 9) "uuid-0" (Binary64.of_decimal false 32 1)
         (Binary64.of_dyadic 1 (-1)) (Some (Binary64.of_Z 4)))
      Scenario.with_battery.
Proof.
  destruct (log_power (Scenario.faulty 9) "uuid-0" (Binary64.of_decimal false 32 1)
              (Binary64.of_dyadic 1 (-1)) (Some (Binary64.of_Z 4))
              Scenario.with_battery) as [[r | e] s'] eqn:E.
  - vm_compute in E. discriminate.
  - split.
    + exists e, s'. split; [reflexivity | ].
      vm_compute in E. injection E as _ <-.
      repeat split; vm_compute; reflexivity.
    + intros H. unfold all_or_nothing in H. rewrite E in H.
      specialize (H e s' eq_refl).
      apply (f_equal (fun d => length (power_readings d))) in H.
      vm_compute in E. injection E as _ <-.
      vm_compute in H. discriminate.
Qed.

(** C6, amended.  Each [db_conn] block is atomic: a block that raises leaves
    the database as it was.  [trigger_event], whose one block is its last
    action, is all-or-nothing.  [log_power] writes in two blocks: whatever
    happens, in every world, the database it leaves is the one it found, or
    that one with the reading appended and the live fields of the meter
    overwritten together, or the latter with one event appended; and when it
    raises, no event was appended. *)
Theorem log_power_two_blocks (W : World) :
  (forall (A : Type) (body : M A) (s s' : Sys) (e : Exc),
     with_conn body s = (Raise e, s') -> db s' = db s) /\
  (forall (device_id event_type : string) (value : float) (note : option string)
          (s : Sys),
     all_or_nothing (trigger_event W device_id event_type value note) s) /\
  (forall (meter_id : string) (v c : float) (charge_pct : option float)
          (s s' : Sys) (res : result PowerReading.t),
     log_power W meter_id v c charge_pct s = (res, s') ->
     db s' = db s \/
     exists m v' c' w',
       List.find (fun m => String.eqb (PowerMeter.id m) meter_id) (power_meters (db s))
         = Some m /\
       let pct := clamp (match charge_pct with
                         | Some p => p
                         | None => PowerMeter.charge_pct m
                         end) in
       let row := PowerReading.mk (uuid4 W (uuid_calls s)) meter_id v' c' w' pct
                    (utcnow W (clock_calls s)) in
       let d1 := logged (db s) row meter_id v' c' pct in
       db s' = d1 \/
       (exists r ev, res = Ok r /\
          db s' = Sql.set_power_events d1 (power_events (db s) ++ [ev]))).
Proof.
  split; [ | split].
  - intros A body s s' e H. unfold with_conn in H.
    destruct (body s) as [[a | e0] s1]; [discriminate | ].
    injection H as _ <-. reflexivity.
  - intros device_id event_type value note s e s' H.
    destruct (trigger_event_cases W device_id event_type value note s)
      as [(etype & stored & ev & s1 & Hrun & _) | (e1 & s1 & Hrun & Hdb)];
      rewrite Hrun in H; [discriminate | ].
    injection H as _ <-. exact Hdb.
  - intros meter_id v c charge_pct s s' res H.
    apply log_power_cases in H.
    destruct H as [(e & _ & Hdb) | (m & v' & c' & w' & Hfind & _ & _ & _ & _ & H)];
      [left; exact Hdb | right].
    cbv zeta in H.
    exists m, v', c', w'. split; [exact Hfind | ]. cbv zeta.
    destruct H as [(_ & _ & Hdb) | (etype & _ & [(Hr & Hdb) | (e & _ & Hdb)])].
    + left. exact Hdb.
    + right. do 2 eexists. split; [exact Hr | exact Hdb].
    + left. exact Hdb.
Qed.
End Transactions.

(** ** The ordered queries *)

Section ListFacts.
Context {A : Type}.

Lemma sorted_app (R : A -> A -> Prop) (l1 l2 : list A) :
  StronglySorted R l1 -> StronglySorted R l2 ->
  (forall x y, In x l1 -> In y l2 -> R x y) ->
  StronglySorted R (l1 ++ l2).
Proof.
  intros H1 H2 H12. induction l1 as [ | a l1 IH]; cbn [app]; [exact H2 | ].
  apply StronglySorted_inv in H1. destruct H1 as [H1 Ha].
  constructor.
  - apply IH; [exact H1 | ]. intros x y Hx Hy. apply H12; [right; exact Hx | exact Hy].
  - apply Forall_app. split; [exact Ha | ].
    apply List.Forall_forall. intros y Hy. apply H12; [left; reflexivity | exact Hy].
Qed.

Lemma firstn_sorted (R : A -> A -> Prop) (n : nat) (l : list A) :
  StronglySorted R l -> StronglySorted R (firstn n l).
Proof.
  revert l. induction n as [ | n IH]; intros [ | a l] Hs; cbn [firstn];
    try constructor.
  - apply IH. apply StronglySorted_inv in Hs. tauto.
  - apply StronglySorted_inv in Hs. destruct Hs as [_ Ha].
    rewrite List.Forall_forall in *. intros x Hx. apply Ha.
    rewrite <- (firstn_skipn n l). apply in_app_iff. left. exact Hx.
Qed.

Lemma limit_sorted (R : A -> A -> Prop) (n : Z) (l : list A) :
  StronglySorted R l -> StronglySorted R (Sql.limit n l).
Proof.
  intros Hs. unfold Sql.limit. destruct (n <? 0); [exact Hs | ].
  apply firstn_sorted, Hs.
Qed.

(** A limit that is negative, or not below the number of rows, cuts
    nothing. *)
Lemma limit_all (n : Z) (l : list A) :
  n < 0 \/ Z.of_nat (length l) <= n -> Sql.limit n l = l.
Proof.
  intros H. unfold Sql.limit. destruct (Z.ltb_spec n 0) as [Hn | Hn]; [reflexivity | ].
  apply firstn_all2. lia.
Qed.

Lemma limit_length (n : Z) (l : list A) :
  0 <= n -> length (Sql.limit n l) = Nat.min (Z.to_nat n) (length l).
Proof.
  intros H. unfold Sql.limit. destruct (Z.ltb_spec n 0) as [Hn | Hn]; [lia | ].
  apply length_firstn.
Qed.
End ListFacts.

Section IndexFacts.
Context {A : Type} (key : A -> timestamp).

Lemma index_insert_perm (r : A) (l : list A) :
  Permutation (Sql.index_insert key r l) (r :: l).
Proof.
  induction l as [ | x l IH]; cbn [Sql.index_insert].
  - apply Permutation_refl.
  - destruct (key r <? key x).
    + apply Permutation_refl.
    + apply Permutation_trans with (x :: r :: l).
      * apply perm_skip. exact IH.
      * apply perm_swap.
Qed.

Lemma index_insert_sorted (r : A) (l : list A) :
  StronglySorted (fun a b => key a <= key b) l ->
  StronglySorted (fun a b => key a <= key b) (Sql.index_insert key r l).
Proof.
  induction l as [ | x l IH]; cbn [Sql.index_insert]; intros Hs.
  - constructor; constructor.
  - destruct (Z.ltb_spec (key r) (key x)) as [Hlt | Hge].
    + constructor; [exact Hs | ].
      apply StronglySorted_inv in Hs. destruct Hs as [_ Hall].
      constructor; [lia | ].
      eapply Forall_impl; [exact Hall | ]. cbn beta. intros y Hy. lia.
    + apply StronglySorted_inv in Hs. destruct Hs as [Hs Hall].
      constructor; [exact (IH Hs) | ].
      apply List.Forall_forall. intros y Hy.
      apply (Permutation_in _ (index_insert_perm r l)) in Hy.
      destruct Hy as [<- | Hy]; [exact Hge | ].
      rewrite List.Forall_forall in Hall. exact (Hall y Hy).
Qed.

Lemma index_fold_perm (rows idx : list A) :
  Permutation (fold_left (fun idx r => Sql.index_insert key r idx) rows idx)
    (rows ++ idx).
Proof.
  revert idx. induction rows as [ | r rows IH]; intros idx; cbn [fold_left app].
  - apply Permutation_refl.
  - eapply Permutation_trans; [apply IH | ].
    eapply Permutation_trans;
      [apply Permutation_app_head, index_insert_perm | ].
    apply Permutation_sym, Permutation_middle.
Qed.

Lemma index_fold_sorted (rows idx : list A) :
  StronglySorted (fun a b => key a <= key b) idx ->
  StronglySorted (fun a b => key a <= key b)
    (fold_left (fun idx r => Sql.index_insert key r idx) rows idx).
Proof.
  revert idx. induction rows as [ | r rows IH]; intros idx Hs; cbn [fold_left].
  - exact Hs.
  - apply IH, index_insert_sorted, Hs.
Qed.

(** Walking the index gives the rows, each once, by ascending timestamp. *)
Lemma index_scan_perm (rows : list A) : Permutation (Sql.index_scan key rows) rows.
Proof.
  unfold Sql.index_scan. rewrite <- (app_nil_r rows) at 2. apply index_fold_perm.
Qed.

Lemma index_scan_sorted (rows : list A) :
  StronglySorted (fun a b => key a <= key b) (Sql.index_scan key rows).
Proof. apply index_fold_sorted. constructor. Qed.

(** Walking it backwards gives them by descending timestamp. *)
Lemma rev_sorted (l : list A) :
  StronglySorted (fun a b => key a <= key b) l ->
  StronglySorted (fun a b => key b <= key a) (rev l).
Proof.
  induction l as [ | a l IH]; cbn [rev]; intros Hs; [constructor | ].
  apply StronglySorted_inv in Hs. destruct Hs as [Hs Ha].
  apply sorted_app; [exact (IH Hs) | constructor; constructor | ].
  intros x y Hx [<- | []]. apply in_rev in Hx.
  rewrite List.Forall_forall in Ha. exact (Ha x Hx).
Qed.

End IndexFacts.

Section Queries.
Import PowerManager.
Context (W : World).

Lemma timedelta_cases (hours : Z) :
  (-999999999 <= hours / 24 <= 999999999 /\
   timedelta hours = Ok (timedelta_hours hours)) \/
  (~ -999999999 <= hours / 24 <= 999999999 /\
   exists msg, timedelta hours = Raise (OverflowError msg)).
Proof.
  unfold timedelta. cbv zeta.
  destruct (Z.ltb_spec (hours / 24) (-2147483648)); cbn [orb];
    [right; split; [lia | eexists; reflexivity] | ].
  destruct (Z.ltb_spec 2147483647 (hours / 24));
    [right; split; [lia | eexists; reflexivity] | ].
  destruct (Z.ltb_spec (hours / 24) (-999999999)); cbn [orb];
    [right; split; [lia | eexists; reflexivity] | ].
  destruct (Z.ltb_spec 999999999 (hours / 24));
    [right; split; [lia | eexists; reflexivity] | ].
  left. split; [lia | reflexivity].
Qed.

Lemma datetime_sub_cases (d : timestamp) (delta : Z) :
  (datetime_min <= d - delta <= datetime_max /\ datetime_sub d delta = Ok (d - delta)) \/
  (~ datetime_min <= d - delta <= datetime_max /\
   datetime_sub d delta = Raise (OverflowError "date value out of range")).
Proof.
  unfold datetime_sub. cbv zeta.
  destruct (Z.ltb_spec (d - delta) datetime_min); cbn [orb];
    [right; split; [lia | reflexivity] | ].
  destruct (Z.ltb_spec datetime_max (d - delta));
    [right; split; [lia | reflexivity] | ].
  left. split; [lia | reflexivity].
Qed.

Lemma fits_integer_spec (n : Z) : Sql.fits_integer n = true <-> int64 n.
Proof.
  unfold Sql.fits_integer, int64. rewrite andb_true_iff, !Z.leb_le. reflexivity.
Qed.

(** A window that [timedelta] or [datetime] cannot express: [get_history]
    raises an [OverflowError] once it has read the clock, before any
    statement. *)
Lemma get_history_overflow (meter_id : string) (hours : Z) (s : Sys) :
  ~ window (utcnow W (clock_calls s)) hours ->
  exists msg,
    get_history W meter_id hours s
    = (Raise (OverflowError msg),
       mkSys (db s) (uuid_calls s) (S (clock_calls s)) (statements s)).
Proof.
  intros Hw. unfold get_history, bind, now_utc, lift.
  destruct (timedelta_cases hours) as [(Hd & ->) | (Hd & msg & ->)];
    [ | exists msg; reflexivity].
  destruct (datetime_sub_cases (utcnow W (clock_calls s)) (timedelta_hours hours))
    as [(Hr & ->) | (Hr & ->)]; [ | eexists; reflexivity].
  exfalso. apply Hw. split; assumption.
Qed.

(** A limit that is no 64-bit integer: the statement of [get_events]
    raises an [OverflowError] when the parameter is bound. *)
Lemma get_events_overflow (device_id : string) (limit : Z) (s : Sys) :
  ~ int64 limit -> sql_fault W (statements s) = None ->
  get_events W device_id limit s
  = (Raise (OverflowError "Python int too large to convert to SQLite INTEGER"),
     after_statements 1 s).
Proof.
  intros Hl Hf. unfold get_events, with_conn, execute, Sql.select_events.
  rewrite Hf. destruct (Sql.fits_integer limit) eqn:E; [ | reflexivity].
  exfalso. apply Hl, fits_integer_spec, E.
Qed.

Lemma get_history_cases (meter_id : string) (hours : Z) (s : Sys) :
  ((window (utcnow W (clock_calls s)) hours /\ sql_fault W (statements s) = None) /\
   get_history W meter_id hours s
   = (Ok (Sql.index_scan PowerReading.timestamp
            (List.filter
               (fun r => String.eqb (PowerReading.meter_id r) meter_id
                         && (utcnow W (clock_calls s) - timedelta_hours hours
                             <=? PowerReading.timestamp r))
               (power_readings (db s)))),
      mkSys (db s) (uuid_calls s) (S (clock_calls s)) (S (statements s)))) \/
  (exists e s',
     (~ window (utcnow W (clock_calls s)) hours \/ sql_fault W (statements s) <> None) /\
     get_history W meter_id hours s = (Raise e, s')).
Proof.
  unfold get_history, bind, now_utc, lift.
  destruct (timedelta_cases hours) as [(Hd & ->) | (Hd & msg & ->)].
  2: { right. do 2 eexists. split; [left; intros [H _]; exact (Hd H) | reflexivity]. }
  destruct (datetime_sub_cases (utcnow W (clock_calls s)) (timedelta_hours hours))
    as [(Hr & ->) | (Hr & ->)].
  2: { right. do 2 eexists. split; [left; intros [_ H]; exact (Hr H) | reflexivity]. }
  unfold with_conn, execute.
  cbn [db uuid_calls clock_calls statements Sql.select_readings].
  destruct (sql_fault W (statements s)) as [msg | ].
  - right. do 2 eexists. split; [right; discriminate | reflexivity].
  - left. split; [split; [split; assumption | reflexivity] | reflexivity].
Qed.

Lemma get_events_cases (device_id : string) (limit : Z) (s : Sys) :
  ((int64 limit /\ sql_fault W (statements s) = None) /\
   get_events W device_id limit s
   = (Ok (Sql.limit limit
            (rev (Sql.index_scan PowerEvent.timestamp
                    (List.filter
                       (fun e => String.eqb (PowerEvent.device_id e) device_id)
                       (power_events (db s)))))),
      after_statements 1 s)) \/
  (exists e s',
     (~ int64 limit \/ sql_fault W (statements s) <> None) /\
     get_events W device_id limit s = (Raise e, s')).
Proof.
  unfold get_events, with_conn, execute, Sql.select_events.
  destruct (sql_fault W (statements s)) as [msg | ].
  - right. do 2 eexists. split; [right; discriminate | reflexivity].
  - destruct (Sql.fits_integer limit) eqn:E.
    + left. split; [split; [apply fits_integer_spec, E | reflexivity] | reflexivity].
    + right. do 2 eexists. split; [ | reflexivity].
      left. intros H. apply fits_integer_spec in H. congruence.
Qed.

Lemma get_history_sound (meter_id : string) (hours : Z) (s s' : Sys)
    (l : list PowerReading.t) :
  get_history W meter_id hours s = (Ok l, s') ->
  StronglySorted (fun a b => PowerReading.timestamp a <= PowerReading.timestamp b) l /\
  forall row,
    In row (power_readings (db s)) ->
    PowerReading.meter_id row = meter_id ->
    utcnow W (clock_calls s) - timedelta_hours hours <= PowerReading.timestamp row ->
    In row l.
Proof.
  intros H.
  destruct (get_history_cases meter_id hours s) as [(_ & E) | (e & s1 & _ & E)];
    rewrite E in H; [ | discriminate].
  injection H as <- _. split; [apply index_scan_sorted | ].
  intros row Hin Hm Hsince.
  apply (Permutation_in _ (Permutation_sym (index_scan_perm _ _))).
  apply filter_In. split; [exact Hin | ].
  apply andb_true_iff.
  split; [apply String.eqb_eq; exact Hm | apply Z.leb_le; exact Hsince].
Qed.

Lemma get_events_sound (device_id : string) (limit : Z) (s s' : Sys)
    (l : list PowerEvent.t) :
  get_events W device_id limit s = (Ok l, s') ->
  StronglySorted (fun a b => PowerEvent.timestamp b <= PowerEvent.timestamp a) l /\
  (limit < 0 \/
   Z.of_nat (length (List.filter
                       (fun e => String.eqb (PowerEvent.device_id e) device_id)
                       (power_events (db s)))) <= limit ->
   forall e,
     In e (power_events (db s)) -> PowerEvent.device_id e = device_id -> In e l).
Proof.
  intros H.
  destruct (get_events_cases device_id limit s) as [(_ & E) | (e & s1 & _ & E)];
    rewrite E in H; [ | discriminate].
  injection H as <- _.
  split; [apply limit_sorted, rev_sorted, index_scan_sorted | ].
  intros Hlimit e Hin Hdev.
  rewrite limit_all.
  - apply in_rev. rewrite rev_involutive.
    apply (Permutation_in _ (Permutation_sym (index_scan_perm _ _))).
    apply filter_In. split; [exact Hin | apply String.eqb_eq; exact Hdev].
  - rewrite length_rev, (Permutation_length (index_scan_perm _ _)). exact Hlimit.
Qed.

(** C9.  Every reading in the database is returned by [get_history] for its
    meter when the window reaches back to its timestamp, and the readings
    come by ascending timestamp; every event in the database is returned by
    [get_events] for its device when the limit is negative or not below the
    number of events of the device, and the events come by descending
    timestamp.  Both queries return as soon as the engine accepts their
    statement, for a window that [timedelta] and [datetime] can express and
    a limit that fits a 64-bit integer.  In particular the reading a call of
    [log_power] has just stored and the event a call of [trigger_event] has
    just stored are returned. *)
Theorem history_and_events_round_trip :
  (forall (meter_id : string) (hours : Z) (s : Sys),
     sql_fault W (statements s) = None ->
     window (utcnow W (clock_calls s)) hours ->
     exists l s', get_history W meter_id hours s = (Ok l, s')) /\
  (forall (meter_id : string) (hours : Z) (s s' : Sys) (l : list PowerReading.t),
     get_history W meter_id hours s = (Ok l, s') ->
     StronglySorted
       (fun a b => PowerReading.timestamp a <= PowerReading.timestamp b) l /\
     forall row,
       In row (power_readings (db s)) ->
       PowerReading.meter_id row = meter_id ->
       utcnow W (clock_calls s) - timedelta_hours hours <= PowerReading.timestamp row ->
       In row l) /\
  (forall (device_id : string) (limit : Z) (s : Sys),
     sql_fault W (statements s) = None ->
     int64 limit ->
     exists l s', get_events W device_id limit s = (Ok l, s')) /\
  (forall (device_id : string) (limit : Z) (s s' : Sys) (l : list PowerEvent.t),
     get_events W device_id limit s = (Ok l, s') ->
     StronglySorted
       (fun a b => PowerEvent.timestamp b <= PowerEvent.timestamp a) l /\
     (limit < 0 \/
      Z.of_nat (length (List.filter
                          (fun e => String.eqb (PowerEvent.device_id e) device_id)
                          (power_events (db s)))) <= limit ->
      forall e,
        In e (power_events (db s)) -> PowerEvent.device_id e = device_id -> In e l)) /\
  (forall (meter_id : string) (v c : float) (charge_pct : option float) (hours : Z)
          (s s1 s2 : Sys) (r : PowerReading.t) (l : list PowerReading.t),
     log_power W meter_id v c charge_pct s = (Ok r, s1) ->
     get_history W meter_id hours s1 = (Ok l, s2) ->
     utcnow W (clock_calls s1) - timedelta_hours hours <= PowerReading.timestamp r ->
     exists row,
       In row l /\ PowerReading.id row = PowerReading.id r /\
       PowerReading.timestamp row = PowerReading.timestamp r) /\
  (forall (device_id event_type : string) (value : float) (note : option string)
          (limit : Z) (s s1 s2 : Sys) (ev : PowerEvent.t) (l : list PowerEvent.t),
     trigger_event W device_id event_type value note s = (Ok ev, s1) ->
     get_events W device_id limit s1 = (Ok l, s2) ->
     limit < 0 \/
     Z.of_nat (length (List.filter
                         (fun e => String.eqb (PowerEvent.device_id e) device_id)
                         (power_events (db s1)))) <= limit ->
     exists e,
       In e l /\ PowerEvent.id e = PowerEvent.id ev /\
       PowerEvent.type e = PowerEvent.type ev /\
       PowerEvent.timestamp e = PowerEvent.timestamp ev).
Proof.
  split; [ | split; [ | split; [ | split; [ | split ] ] ] ].
  - intros meter_id hours s Hok Hwin.
    destruct (get_history_cases meter_id hours s) as [(_ & H) | (e & s' & Hf & _)];
      [eauto | destruct Hf; contradiction].
  - exact get_history_sound.
  - intros device_id limit s Hok Hlim.
    destruct (get_events_cases device_id limit s) as [(_ & H) | (e & s' & Hf & _)];
      [eauto | destruct Hf; contradiction].
  - exact get_events_sound.
  - intros meter_id v c charge_pct hours s s1 s2 r l Hlog Hget Hsince.
    destruct (log_power_stored _ _ _ _ _ _ _ _ Hlog)
      as (m & v' & c' & w' & _ & _ & _ & _ & Hr & Hrows & _).
    cbv zeta in Hr, Hrows. subst r. cbn [PowerReading.timestamp] in Hsince.
    eexists. split.
    { apply (proj2 (get_history_sound _ _ _ _ _ Hget)).
      - rewrite Hrows. apply in_app_iff. right. left. reflexivity.
      - reflexivity.
      - exact Hsince. }
    split; reflexivity.
  - intros device_id event_type value note limit s s1 s2 ev l Htrig Hget Hlimit.
    destruct (trigger_event_cases W device_id event_type value note s)
      as [(etype & stored & ev' & s1' & Hrun & _ & _ & Hev & Hdb) | (e & s1' & Hrun & _)];
      rewrite Hrun in Htrig; [ | discriminate].
    injection Htrig as <- <-. subst ev'.
    eexists. split.
    { apply (proj2 (get_events_sound _ _ _ _ _ Hget) Hlimit).
      - rewrite Hdb. cbn [power_events Sql.set_power_events].
        apply in_app_iff. right. left. reflexivity.
      - reflexivity. }
    split; [reflexivity | split; reflexivity].
Qed.
End Queries.

(** C9 on the fixture after its first reading: [get_history(uuid-0, hours=1)]
    returns that reading. *)
Lemma history_and_events_round_trip_witness :
  exists l s',
    PowerManager.get_history Scenario.quiet "uuid-0" 1 Scenario.with_reading = (Ok l, s') /\
    In Scenario.reading l.
Proof.
  destruct (proj1 (history_and_events_round_trip Scenario.quiet) "uuid-0" 1
              Scenario.with_reading eq_refl
              ltac:(split; vm_compute; split; discriminate)) as (l & s' & E).
  exists l, s'. split; [exact E | ].
  apply (proj2 (proj1 (proj2 (history_and_events_round_trip Scenario.quiet))
                  _ _ _ _ _ E)).
  - vm_compute. left. reflexivity.
  - reflexivity.
  - vm_compute. discriminate.
Defined.

(** ** [export_report] *)

Section ExportReport.
Import PowerManager.

(** C8 as stated fails: with 201 events recorded for the device, the report
    counts 200. *)
Lemma export_report_counts_at_most_200 :
  exists rep s',
    export_report Scenario.quiet "dev-001" 7 Scenario.many_events = (Ok rep, s') /\
    length (List.filter (fun e => String.eqb (PowerEvent.device_id e) "dev-001")
              (power_events (db Scenario.many_events))) = 201%nat /\
    event_count rep = 200%nat.
Proof.
  destruct (export_report Scenario.quiet "dev-001" 7 Scenario.many_events)
    as [[rep | e] s'] eqn:E.
  - exists rep, s'. split; [reflexivity | ].
    split; [vm_compute; reflexivity | ].
    vm_compute in E. injection E as <- _. reflexivity.
  - vm_compute in E. discriminate.
Qed.

Context (W : World).

Lemma report_meters_loop_run (HW : no_fault W) (days : Z) (meters : list PowerMeter.t)
    (acc : list MeterReport) (s : Sys) :
  (forall tick,
     (clock_calls s <= tick < clock_calls s + length meters)%nat ->
     window (utcnow W tick) (days * 24)) ->
  exists r s',
    report_meters_loop W days meters acc s = (Ok r, s') /\ db s' = db s.
Proof.
  revert acc s. induction meters as [ | m rest IH]; intros acc s Hwin;
    cbn [report_meters_loop].
  - exists acc, s. split; reflexivity.
  - destruct (get_history_cases W (PowerMeter.id m) (days * 24) s)
      as [(_ & E) | (e & s1 & [Hf | Hf] & _)].
    2: { exfalso. apply Hf, Hwin. cbn [length]. lia. }
    2: { rewrite HW in Hf. contradiction. }
    rewrite (bind_run _ _ _ _ _ E).
    match goal with
    | |- context [report_meters_loop W days rest ?acc1 ?s1] =>
        destruct (IH acc1 s1) as (r & s' & Hr & Hdb)
    end.
    { intros tick Ht. apply Hwin. cbn [clock_calls] in Ht. cbn [length]. lia. }
    exists r, s'. split; [exact Hr | exact Hdb].
Qed.

(** The events of a report: those [get_events] returns for the limit 200. *)
Lemma export_report_inv (device_id : string) (days : Z) (s s' : Sys) (rep : Report) :
  export_report W device_id days s = (Ok rep, s') ->
  exists d,
    devices (db s) !! device_id = Some d /\
    let events :=
      Sql.limit 200
        (rev (Sql.index_scan PowerEvent.timestamp
                (List.filter (fun e => String.eqb (PowerEvent.device_id e) device_id)
                   (power_events (db s))))) in
    report_device_id rep = device_id /\
    event_count rep = length events /\
    report_events rep = firstn 20 events.
Proof.
  intros H. unfold export_report in H.
  apply bind_inv in H. destruct H as (d & s1 & H1 & H).
  apply bind_inv in H. destruct H as (meters & s2 & H2 & H).
  apply bind_inv in H. destruct H as (generated & s3 & H3 & H).
  apply bind_inv in H. destruct H as (reports & s4 & H4 & H).
  apply bind_inv in H. destruct H as (events & s5 & H5 & H).
  injection H as <- _.
  assert (Hdb : db s4 = db s).
  { pose proof (preserves_report_meters_loop W (fun x => x = db s) days meters [] s3) as P4.
    rewrite H4 in P4. apply P4.
    injection H3 as _ <-. cbn [db].
    pose proof (preserves_list_meters W (fun x => x = db s) (Some device_id) s1) as P2.
    rewrite H2 in P2. apply P2.
    pose proof (preserves_get_device W (fun x => x = db s) device_id s eq_refl) as P1.
    rewrite H1 in P1. exact P1. }
  destruct (get_device_cases W device_id s) as [(d' & Hd & E) | (e & E)];
    rewrite E in H1; [ | discriminate].
  exists d'. split; [exact Hd | ].
  destruct (get_events_cases W device_id 200 s4) as [(_ & E5) | (e & s6 & _ & E5)];
    rewrite E5 in H5; [ | discriminate].
  injection H5 as <- _. rewrite Hdb. cbv zeta. cbn [report_device_id event_count report_events].
  auto.
Qed.

(** C8, amended.  [export_report] raises "Device not found" for a device
    that is absent, and returns a report for one that exists (in a world
    without faults) when the window of [days * 24] hours exists at each
    instant at which the history of a meter is asked; when it does not
    exist for the first meter, the call raises an [OverflowError] and
    writes nothing.  In a report, [event_count] is the number of events
    recorded for the device, capped at 200, and the events embedded are the
    first 20 of the device's events by descending timestamp. *)
Theorem export_report_events :
  (no_fault W ->
   forall (device_id : string) (days : Z) (s : Sys),
     devices (db s) !! device_id = None ->
     export_report W device_id days s
     = (Raise (ValueError (String.append "Device not found: " device_id)),
        after_statements 1 s)) /\
  (no_fault W ->
   forall (device_id : string) (days : Z) (s : Sys) (d : DeviceRecord.t),
     devices (db s) !! device_id = Some d ->
     (forall tick,
        (clock_calls s < tick <= clock_calls s + length (listed (db s) device_id))%nat ->
        window (utcnow W tick) (days * 24)) ->
     exists rep s', export_report W device_id days s = (Ok rep, s')) /\
  (no_fault W ->
   forall (device_id : string) (days : Z) (s : Sys) (d : DeviceRecord.t),
     devices (db s) !! device_id = Some d ->
     listed (db s) device_id <> [] ->
     ~ window (utcnow W (S (clock_calls s))) (days * 24) ->
     exists msg s',
       export_report W device_id days s = (Raise (OverflowError msg), s') /\
       db s' = db s) /\
  (forall (device_id : string) (days : Z) (s s' : Sys) (rep : Report),
     export_report W device_id days s = (Ok rep, s') ->
     let recorded :=
       List.filter (fun e => String.eqb (PowerEvent.device_id e) device_id)
         (power_events (db s)) in
     event_count rep = Nat.min 200 (length recorded) /\
     report_events rep
     = firstn 20 (rev (Sql.index_scan PowerEvent.timestamp recorded)) /\
     length (report_events rep) = Nat.min 20 (length recorded)).
Proof.
  split; [ | split; [ | split] ].
  - intros HW device_id days s Hd. unfold export_report.
    apply bind_raise. apply (get_device_missing W HW). exact Hd.
  - intros HW device_id days s d Hd Hwin. unfold export_report.
    rewrite (bind_run _ _ _ _ _ (get_device_found W HW _ _ _ Hd)).
    rewrite (bind_run _ _ _ _ _ (list_meters_run W HW _ _)).
    unfold bind at 1, now_utc at 1.
    match goal with
    | |- context [bind (report_meters_loop W days ?ms ?acc) _ ?s3] =>
        destruct (report_meters_loop_run HW days ms acc s3) as (r & s4 & Hr & _)
    end.
    { intros tick Ht. apply Hwin. unfold listed.
      cbn [clock_calls db after_statements] in Ht. lia. }
    rewrite (bind_run _ _ _ _ _ Hr).
    destruct (get_events_cases W device_id 200 s4) as [(_ & E) | (e & s5 & [Hf | Hf] & _)].
    2: { exfalso. apply Hf. unfold int64. lia. }
    2: { rewrite HW in Hf. contradiction. }
    rewrite (bind_run _ _ _ _ _ E).
    do 2 eexists. reflexivity.
  - intros HW device_id days s d Hd Hmeters Hwin. unfold export_report.
    rewrite (bind_run _ _ _ _ _ (get_device_found W HW _ _ _ Hd)).
    rewrite (bind_run _ _ _ _ _ (list_meters_run W HW _ _)).
    cbn [db after_statements]. fold (listed (db s) device_id).
    unfold bind at 1, now_utc at 1.
    destruct (listed (db s) device_id) as [ | m rest]; [contradiction | ].
    cbn [report_meters_loop].
    match goal with
    | |- context [bind (bind (get_history W ?id ?h) _) _ ?s3] =>
        destruct (get_history_overflow W id h s3) as [msg E]
    end.
    { cbn [clock_calls after_statements]. exact Hwin. }
    exists msg. eexists.
    split; [apply bind_raise; apply bind_raise; exact E | reflexivity].
  - intros device_id days s s' rep H recorded.
    apply export_report_inv in H. destruct H as (d & _ & _ & Hcount & Hevents).
    cbv zeta in Hcount, Hevents. fold recorded in Hcount, Hevents.
    assert (Hlen : length (rev (Sql.index_scan PowerEvent.timestamp recorded))
                   = length recorded)
      by (rewrite length_rev; apply Permutation_length, index_scan_perm).
    split; [ | split].
    + rewrite Hcount, limit_length by lia. rewrite Hlen. reflexivity.
    + rewrite Hevents. unfold Sql.limit. cbn [Z.ltb Z.compare].
      rewrite firstn_firstn. reflexivity.
    + rewrite Hevents. unfold Sql.limit. cbn [Z.ltb Z.compare].
      rewrite firstn_firstn, length_firstn, Hlen. reflexivity.
Qed.
End ExportReport.

(** C8 on the fixture's device with its 201 events: the report counts 200
    and embeds 20. *)
Lemma export_report_events_witness :
  exists rep s',
    PowerManager.export_report Scenario.quiet "dev-001" 7 Scenario.many_events
    = (Ok rep, s') /\
    length (List.filter (fun e => String.eqb (PowerEvent.device_id e) "dev-001")
              (power_events (db Scenario.many_events))) = 201%nat /\
    event_count rep = 200%nat /\
    length (report_events rep) = 20%nat.
Proof.
  destruct (proj1 (proj2 (export_report_events Scenario.quiet))
              ltac:(intros n; reflexivity) "dev-001" 7 Scenario.many_events
              (DeviceRecord.mk "dev-001" "Edge Node" f3 None)
              ltac:(vm_compute; reflexivity))
    as (rep & s' & E).
  { intros tick Ht.
    assert (Hc : clock_calls Scenario.many_events = 201%nat) by (vm_compute; reflexivity).
    assert (Hl : length (listed (db Scenario.many_events) "dev-001") = 1%nat)
      by (vm_compute; reflexivity).
    rewrite Hc, Hl in Ht. assert (tick = 202%nat) as -> by lia.
    split; vm_compute; split; discriminate. }
  exists rep, s'. split; [exact E | ].
  destruct (proj2 (proj2 (proj2 (export_report_events Scenario.quiet))) _ _ _ _ _ E)
    as (Hcount & _ & Hlen).
  cbv zeta in Hcount, Hlen.
  assert (Hn : length (List.filter
                         (fun e => String.eqb (PowerEvent.device_id e) "dev-001")
                         (power_events (db Scenario.many_events))) = 201%nat)
    by (vm_compute; reflexivity).
  rewrite Hn in Hcount, Hlen.
  split; [exact Hn | split; [exact Hcount | exact Hlen] ].
Defined.

(** ** [estimate_runtime] and [power_budget_check] *)

Section Aggregation.
Import PowerManager.
Context (W : World) (HW : no_fault W).

Lemma listed_meters_of (d : Store) (device_id : string) :
  device_id <> "" -> listed d device_id = meters_of d device_id.
Proof.
  intros H. unfold listed, meters_of.
  destruct (String.eqb_spec device_id ""); [contradiction | reflexivity].
Qed.

Lemma estimate_runtime_run (device_id : string) (s : Sys) :
  estimate_runtime W device_id s
  = (Ok (runtime_of (listed (db s) device_id)), after_statements 1 s).
Proof.
  unfold estimate_runtime.
  rewrite (bind_run _ _ _ _ _ (list_meters_run W HW device_id s)).
  fold (listed (db s) device_id). unfold runtime_of.
  change (fun m => MeterType_eqb (PowerMeter.type m) BATTERY
                   && Binary64.gtb (PowerMeter.current_draw m) f0)
    with drawing_battery.
  destruct (List.filter drawing_battery (listed (db s) device_id)) as [ | bm rest];
    [reflexivity | ].
  destruct (Binary64.leb (PowerMeter.wattage bm) f0); reflexivity.
Qed.

(** X16.  [estimate_runtime] for a device whose id is not the empty string: no
    value when the device has no battery meter that draws current, no value
    when the first of them has a wattage <= 0, and otherwise its remaining
    energy over its wattage, rounded to 2 decimals. *)
Lemma estimate_runtime_of_device (device_id : string) (s : Sys) :
  device_id <> "" ->
  exists s',
    (List.filter drawing_battery (meters_of (db s) device_id) = [] ->
     estimate_runtime W device_id s = (Ok None, s')) /\
    (forall bm rest,
       List.filter drawing_battery (meters_of (db s) device_id) = bm :: rest ->
       Binary64.leb (PowerMeter.wattage bm) f0 = true ->
       estimate_runtime W device_id s = (Ok None, s')) /\
    (forall bm rest,
       List.filter drawing_battery (meters_of (db s) device_id) = bm :: rest ->
       Binary64.leb (PowerMeter.wattage bm) f0 = false ->
       estimate_runtime W device_id s
       = (Ok (Some (Binary64.round
                      (Binary64.div
                         (Binary64.mul (PowerMeter.capacity_wh bm)
                            (Binary64.div (PowerMeter.charge_pct bm) f100))
                         (PowerMeter.wattage bm)) 2)), s')).
Proof.
  intros Hid. exists (after_statements 1 s).
  rewrite estimate_runtime_run, (listed_meters_of _ _ Hid). unfold runtime_of.
  split; [ | split].
  - intros ->. reflexivity.
  - intros bm rest -> ->. reflexivity.
  - intros bm rest -> ->. reflexivity.
Qed.

Lemma budget_entry_run (dev_id : string) (s : Sys) :
  exists s', budget_entry W dev_id s = (Ok (budget_entry_of (db s) dev_id), s') /\
             db s' = db s.
Proof.
  unfold budget_entry, budget_entry_of, try_except.
  destruct (devices (db s) !! dev_id) as [d | ] eqn:Hd.
  - rewrite (bind_run _ _ _ _ _ (get_device_found W HW _ _ _ Hd)).
    rewrite (bind_run _ _ _ _ _ (list_meters_run W HW _ _)).
    rewrite (bind_run _ _ _ _ _ (estimate_runtime_run _ _)).
    eexists. split; reflexivity.
  - rewrite (bind_raise _ _ _ _ _ (get_device_missing W HW _ _ Hd)).
    eexists. split; reflexivity.
Qed.

Lemma power_budget_loop_run (device_ids : list string)
    (results : gmap string BudgetEntry) (s : Sys) :
  exists s',
    power_budget_loop W device_ids results s
    = (Ok (fold_left (fun r id => <[id := budget_entry_of (db s) id]> r)
             device_ids results), s') /\
    db s' = db s.
Proof.
  revert results s.
  induction device_ids as [ | id rest IH]; intros results s;
    cbn [power_budget_loop fold_left].
  - exists s. split; reflexivity.
  - destruct (budget_entry_run id s) as (s1 & E & Hdb).
    rewrite (bind_run _ _ _ _ _ E).
    destruct (IH (<[id := budget_entry_of (db s) id]> results) s1) as (s' & E' & Hdb').
    rewrite Hdb in E'. exists s'. split; [exact E' | congruence].
Qed.

Lemma lookup_fold_insert_other (f : string -> BudgetEntry) (ids : list string)
    (results : gmap string BudgetEntry) (id : string) :
  ~ In id ids ->
  fold_left (fun r k => <[k := f k]> r) ids results !! id = results !! id.
Proof.
  revert results. induction ids as [ | k rest IH]; intros results Hnin; cbn [fold_left].
  - reflexivity.
  - rewrite IH by (intros Hin; apply Hnin; right; exact Hin).
    apply lookup_insert_ne. intros ->. apply Hnin. left. reflexivity.
Qed.

Lemma lookup_fold_insert (f : string -> BudgetEntry) (ids : list string)
    (results : gmap string BudgetEntry) (id : string) :
  In id ids ->
  fold_left (fun r k => <[k := f k]> r) ids results !! id = Some (f id).
Proof.
  revert results. induction ids as [ | k rest IH]; intros results Hin; cbn [fold_left].
  - destruct Hin.
  - destruct (in_dec String.string_dec id rest) as [Hrest | Hrest].
    + apply IH. exact Hrest.
    + destruct Hin as [-> | Hin]; [ | contradiction].
      rewrite (lookup_fold_insert_other _ _ _ _ Hrest). apply lookup_insert_eq.
Qed.

(** [power_budget_check] in a world without faults: it returns, with the
    entry of each id of the list and of no other; an id that names no device
    has the error "Device not found", and raises nothing. *)
Lemma power_budget_check_run (device_ids : list string) (s : Sys) :
  exists results s',
    power_budget_check W device_ids s = (Ok results, s') /\
    db s' = db s /\
    (forall id, In id device_ids -> results !! id = Some (budget_entry_of (db s) id)) /\
    (forall id, ~ In id device_ids -> results !! id = None).
Proof.
  unfold power_budget_check.
  destruct (power_budget_loop_run device_ids ∅ s) as (s' & E & Hdb).
  do 2 eexists. split; [exact E | ]. split; [exact Hdb | ].
  split; intros id Hid.
  - apply (lookup_fold_insert (budget_entry_of (db s))). exact Hid.
  - rewrite (lookup_fold_insert_other (budget_entry_of (db s)) _ _ _ Hid).
    apply lookup_empty.
Qed.

(** The entries of the ids that are not the empty string: the result object
    over the device's own meters when the device exists, the error
    descriptor when it does not. *)
Lemma power_budget_check_of_devices (device_ids : list string) (s : Sys) :
  exists results s',
    power_budget_check W device_ids s = (Ok results, s') /\
    forall id, In id device_ids -> id <> "" ->
      (is_Some (devices (db s) !! id) ->
       results !! id
       = Some (BudgetResult (budget_of (meters_of (db s) id)
                               (runtime_of (meters_of (db s) id))))) /\
      (devices (db s) !! id = None ->
       results !! id = Some (BudgetError (String.append "Device not found: " id))).
Proof.
  destruct (power_budget_check_run device_ids s) as (results & s' & E & _ & Hin & _).
  exists results, s'. split; [exact E | ].
  intros id Hid Hne. rewrite (Hin id Hid). unfold budget_entry_of.
  rewrite (listed_meters_of _ _ Hne).
  split.
  - intros [d ->]. reflexivity.
  - intros ->. reflexivity.
Qed.
End Aggregation.

Section BudgetInEveryWorld.
Import PowerManager.
Context (W : World).

Lemma budget_entry_returns (dev_id : string) (s : Sys) :
  exists entry s', budget_entry W dev_id s = (Ok entry, s').
Proof.
  unfold budget_entry, try_except.
  match goal with |- context [match ?body s with _ => _ end] => destruct (body s) as [[a | e] s1] end;
    do 2 eexists; reflexivity.
Qed.

Lemma power_budget_loop_returns (device_ids : list string)
    (results : gmap string BudgetEntry) (s : Sys) :
  exists r s',
    power_budget_loop W device_ids results s = (Ok r, s') /\
    forall id, In id device_ids \/ is_Some (results !! id) -> is_Some (r !! id).
Proof.
  revert results s.
  induction device_ids as [ | k rest IH]; intros results s; cbn [power_budget_loop].
  - exists results, s. split; [reflexivity | ]. intros id [[] | H]. exact H.
  - destruct (budget_entry_returns k s) as (entry & s1 & E).
    rewrite (bind_run _ _ _ _ _ E).
    destruct (IH (<[k := entry]> results) s1) as (r & s' & Hr & Hdom).
    exists r, s'. split; [exact Hr | ].
    intros id [[<- | Hin] | Hsome]; apply Hdom.
    + right. rewrite lookup_insert_eq. eexists. reflexivity.
    + left. exact Hin.
    + right. destruct (decide (k = id)) as [<- | Hne].
      * rewrite lookup_insert_eq. eexists. reflexivity.
      * rewrite lookup_insert_ne by exact Hne. exact Hsome.
Qed.

(** In every world [power_budget_check] returns, and its result has an entry
    for each id of the list: a failure on one id, whatever it is, never
    aborts the batch. *)
Lemma power_budget_check_returns (device_ids : list string) (s : Sys) :
  exists results s',
    power_budget_check W device_ids s = (Ok results, s') /\
    forall id, In id device_ids -> is_Some (results !! id).
Proof.
  destruct (power_budget_loop_returns device_ids ∅ s) as (r & s' & E & Hdom).
  exists r, s'. split; [exact E | ]. intros id Hin. apply Hdom. left. exact Hin.
Qed.
End BudgetInEveryWorld.

(** ** The empty device id

    [list_meters] tests its filter with [if device_id:], so the empty string
    selects every meter.  A device registered under the id [""] is then
    given the meters of all devices by [estimate_runtime] and
    [power_budget_check], and C5 and C7 fail on it. *)

Section EmptyDeviceId.
Import PowerManager.

(** C5 at the failing input: the device [""] exists and has no meter, yet
    [estimate_runtime("")] is 1.67, computed from the battery of
    [dev-001]. *)
Theorem estimate_runtime_empty_id :
  is_Some (devices (db Scenario.with_unnamed) !! "") /\
  meters_of (db Scenario.with_unnamed) "" = [] /\
  fst (estimate_runtime Scenario.quiet "" Scenario.with_unnamed)
  = Ok (Some (Binary64.of_decimal false 167 2)).
Proof.
  split; [ | split].
  - eexists. vm_compute. reflexivity.
  - vm_compute. reflexivity.
  - vm_compute. reflexivity.
Qed.

(** C7 at the failing input: the entry of the device [""], which has no
    meter, reports 24 W, one battery at 80 %, 1.67 hours and one state. *)
Theorem power_budget_check_empty_id :
  meters_of (db Scenario.with_unnamed) "" = [] /\
  exists results s',
    power_budget_check Scenario.quiet [""] Scenario.with_unnamed = (Ok results, s') /\
    results !! ""
    = Some (BudgetResult
              (mkBudget (Binary64.of_Z 24) 1 0 (Some (Binary64.of_Z 80))
                 (Some (Binary64.of_decimal false 167 2)) ["normal"])).
Proof.
  split; [vm_compute; reflexivity | ].
  destruct (power_budget_check_run Scenario.quiet ltac:(intros n; reflexivity)
              [""] Scenario.with_unnamed) as (results & s' & E & _ & Hin & _).
  exists results, s'. split; [exact E | ].
  rewrite (Hin "" ltac:(left; reflexivity)).
  vm_compute. reflexivity.
Qed.
End EmptyDeviceId.

(** ** Referential integrity *)

Section ForeignKeys.
Import PowerManager.
Context (W : World).

Lemma has_device_insert (d : Store) (k : string) (r : DeviceRecord.t) (x : string) :
  Sql.has_device d x = true ->
  Sql.has_device (Sql.set_devices d (<[k := r]> (devices d))) x = true.
Proof.
  unfold Sql.has_device. cbn [devices Sql.set_devices]. intros H.
  apply bool_decide_eq_true in H. apply bool_decide_eq_true.
  destruct (decide (k = x)) as [-> | Hne].
  - rewrite lookup_insert_eq. eexists. reflexivity.
  - rewrite lookup_insert_ne by exact Hne. exact H.
Qed.

Lemma has_meter_app (d : Store) (l : list PowerMeter.t) (x : string) :
  Sql.has_meter d x = true ->
  Sql.has_meter (Sql.set_power_meters d (power_meters d ++ l)) x = true.
Proof.
  unfold Sql.has_meter. cbn [power_meters Sql.set_power_meters]. intros H.
  rewrite existsb_app, H. reflexivity.
Qed.

Lemma has_meter_set_live (d : Store) (v c p : float) (meter_id x : string) :
  Sql.has_meter
    (Sql.set_power_meters d
       (List.map (fun m => if String.eqb (PowerMeter.id m) meter_id
                           then Sql.set_live v c p m else m) (power_meters d))) x
  = Sql.has_meter d x.
Proof.
  unfold Sql.has_meter. cbn [power_meters Sql.set_power_meters].
  induction (power_meters d) as [ | m l IH]; cbn [List.map existsb]; [reflexivity | ].
  rewrite IH. destruct (String.eqb (PowerMeter.id m) meter_id); reflexivity.
Qed.

Lemma keeps_keys_register (device_id name : string) (th : float) (target : option float) :
  keeps foreign_keys (Sql.insert_or_replace_device device_id name th target).
Proof.
  intros d a d' (Hm & Hr & He) E. injection E as _ <-.
  split; [ | split].
  - eapply List.Forall_impl; [ | exact Hm]. intros m. apply has_device_insert.
  - exact Hr.
  - eapply List.Forall_impl; [ | exact He]. intros e. apply has_device_insert.
Qed.

Lemma keeps_keys_insert_meter (meter_id device_id : string) (t : MeterType)
    (cap : float) (name : option string) :
  keeps foreign_keys (Sql.insert_meter meter_id device_id t cap name).
Proof.
  intros d a d' (Hm & Hr & He) E. apply insert_meter_inv in E.
  destruct E as (cap' & _ & _ & Hdev & ->).
  split; [ | split].
  - cbn [power_meters Sql.set_power_meters]. apply List.Forall_app. split; [exact Hm | ].
    constructor; [exact Hdev | constructor].
  - eapply List.Forall_impl; [ | exact Hr]. intros r. apply has_meter_app.
  - exact He.
Qed.

Lemma keeps_keys_insert_reading (rid meter_id : string) (v c w p : float)
    (now : timestamp) :
  keeps foreign_keys (Sql.insert_reading rid meter_id v c w p now).
Proof.
  intros d a d' (Hm & Hr & He) E. apply insert_reading_inv in E.
  destruct E as (v' & c' & w' & p' & _ & _ & _ & _ & _ & Hmeter & ->).
  split; [exact Hm | split; [ | exact He] ].
  cbn [power_readings Sql.set_power_readings]. apply List.Forall_app.
  split; [exact Hr | ]. constructor; [exact Hmeter | constructor].
Qed.

Lemma keeps_keys_update (v c p : float) (meter_id : string) :
  keeps foreign_keys (Sql.update_meter_live v c p meter_id).
Proof.
  intros d a d' (Hm & Hr & He) E. unfold Sql.update_meter_live, Sql.real_not_null in E.
  destruct (Sql.has_meter d meter_id);
    [ | injection E as _ <-; split; [ | split]; assumption].
  destruct (Sql.real v) as [v' | ]; cbn [Sql.and_then] in E; [ | discriminate].
  destruct (Sql.real c) as [c' | ]; cbn [Sql.and_then] in E; [ | discriminate].
  destruct (Sql.real p) as [p' | ]; cbn [Sql.and_then] in E; [ | discriminate].
  injection E as _ <-. split; [ | split].
  - cbn [power_meters Sql.set_power_meters]. apply List.Forall_map.
    eapply List.Forall_impl; [ | exact Hm]. intros m Hd. cbn beta.
    destruct (String.eqb (PowerMeter.id m) meter_id); exact Hd.
  - eapply List.Forall_impl; [ | exact Hr]. intros r Hd. cbn beta.
    rewrite has_meter_set_live. exact Hd.
  - exact He.
Qed.

Lemma keeps_keys_insert_event (eid device_id : string) (t : PowerEventType)
    (value : float) (now : timestamp) (note : option string) :
  keeps foreign_keys (Sql.insert_event eid device_id t value now note).
Proof.
  intros d a d' (Hm & Hr & He) E. apply insert_event_inv in E.
  destruct E as (stored & _ & _ & Hdev & ->).
  split; [exact Hm | split; [exact Hr | ] ].
  cbn [power_events Sql.set_power_events]. apply List.Forall_app.
  split; [exact He | ]. constructor; [exact Hdev | constructor].
Qed.

Lemma keys_perform (c : call) (s : Sys) :
  foreign_keys (db s) -> foreign_keys (db (perform W c s)).
Proof.
  destruct c; cbn [perform];
    [ | apply preserves_get_device | | apply preserves_get_meter
    | apply preserves_list_meters | | apply preserves_calculate_wattage
    | apply preserves_estimate_runtime | | apply preserves_get_events
    | apply preserves_power_budget_check | apply preserves_get_history
    | apply preserves_export_report ].
  - unfold register_device. preserve; auto using keeps_keys_register with preserve.
  - unfold add_meter. preserve; auto using preserves_get_device, preserves_get_meter.
    apply preserves_with_conn.
    destruct (MeterType_of_value meter_type);
      auto using keeps_keys_insert_meter with preserve.
  - unfold log_power. preserve;
      auto using preserves_get_meter, keeps_keys_insert_event with preserve.
    apply preserves_with_conn, preserves_bind; [ | intros _ ];
      apply preserves_execute;
      auto using keeps_keys_insert_reading, keeps_keys_update.
  - unfold trigger_event. preserve;
      auto using preserves_get_device, keeps_keys_insert_event with preserve.
Qed.

(** After every session every meter and every event references a device of
    the database, and every reading a meter. *)
Lemma keys_session (calls : list call) : foreign_keys (db (session W calls)).
Proof.
  unfold session.
  assert (H : foreign_keys (db initial)) by (repeat split; constructor).
  revert H. generalize initial.
  induction calls as [ | c rest IH]; intros s H; cbn [fold_left].
  - exact H.
  - apply IH, keys_perform, H.
Qed.

(** The device of a meter found in the database of a session exists: the
    assumption C1 makes on the meter holds by itself there. *)
Lemma session_meter_device (calls : list call) (meter_id : string) (m : PowerMeter.t) :
  List.find (fun m => String.eqb (PowerMeter.id m) meter_id)
    (power_meters (db (session W calls))) = Some m ->
  Sql.has_device (db (session W calls)) (PowerMeter.device_id m) = true.
Proof.
  intros H. apply find_some in H. destruct H as [Hin _].
  destruct (keys_session calls) as (Hm & _).
  rewrite List.Forall_forall in Hm. exact (Hm m Hin).
Qed.
End ForeignKeys.

(** * Further properties of the methods *)

(** ** Registration *)

Section Registration.
Import PowerManager.
Context (W : World).

Lemma register_device_inv (device_id name : string) (th : float)
    (target : option float) (s s' : Sys) (d : DeviceRecord.t) :
  register_device W device_id name th target s = (Ok d, s') ->
  d = DeviceRecord.mk device_id name
        (match Sql.real th with Some y => y | None => f3 end) (target ≫= Sql.real) /\
  db s' = Sql.set_devices (db s) (<[device_id := d]> (devices (db s))).
Proof.
  intros H. unfold register_device in H.
  apply bind_inv in H. destruct H as (u & s1 & Hblock & Hget).
  destruct (conn_execute_cases W
              (Sql.insert_or_replace_device device_id name th target) s)
    as [(a & d1 & _ & Hs & Hr) | (e & Hr)]; rewrite Hr in Hblock; [ | discriminate].
  injection Hblock as _ <-.
  unfold Sql.insert_or_replace_device in Hs. injection Hs as _ <-.
  match type of Hget with
  | get_device W _ ?s1 = _ =>
      destruct (get_device_cases W device_id s1) as [(d' & Hd & E) | (e & E)]
  end; rewrite E in Hget; [ | discriminate].
  injection Hget as <- <-.
  cbn [db devices Sql.set_devices] in Hd. rewrite lookup_insert_eq in Hd.
  injection Hd as <-. split; reflexivity.
Qed.

(** X1.  [register_device] is an upsert.  A call that returns has stored under
    the id exactly the record it returns, with the id and the name given and
    the threshold given (3.0, the column default, for a NaN); every other
    device, and every meter, reading and event, is as before; and
    [get_device] then returns that record.  In a world without faults the
    call always returns, whether the id was registered or not. *)
Theorem register_device_upsert :
  (forall (device_id name : string) (th : float) (target : option float)
          (s s' : Sys) (d : DeviceRecord.t),
     register_device W device_id name th target s = (Ok d, s') ->
     devices (db s') !! device_id = Some d /\
     DeviceRecord.id d = device_id /\ DeviceRecord.name d = name /\
     (Binary64.is_nan th = false -> SFeqb (DeviceRecord.shutdown_threshold d) th = true) /\
     (Binary64.is_nan th = true -> DeviceRecord.shutdown_threshold d = f3) /\
     (forall other, other <> device_id ->
        devices (db s') !! other = devices (db s) !! other) /\
     power_meters (db s') = power_meters (db s) /\
     power_readings (db s') = power_readings (db s) /\
     power_events (db s') = power_events (db s) /\
     (sql_fault W (statements s') = None ->
      get_device W device_id s' = (Ok d, after_statements 1 s'))) /\
  (no_fault W ->
   forall (device_id name : string) (th : float) (target : option float) (s : Sys),
   exists d s', register_device W device_id name th target s = (Ok d, s')).
Proof.
  split.
  - intros device_id name th target s s' d H.
    apply register_device_inv in H. destruct H as (Hd & Hdb).
    assert (Hlook : devices (db s') !! device_id = Some d).
    { rewrite Hdb. cbn [devices Sql.set_devices]. apply lookup_insert_eq. }
    split; [exact Hlook | ].
    split; [rewrite Hd; reflexivity | ]. split; [rewrite Hd; reflexivity | ].
    split; [ | split; [ | split; [ | split; [ | split; [ | split ] ] ] ] ].
    + intros Hnan. rewrite Hd. cbn [DeviceRecord.shutdown_threshold].
      destruct (real_not_nan _ Hnan) as [y Hy]. rewrite Hy. exact (real_eqb _ _ Hy).
    + intros Hnan. rewrite Hd. destruct th; try discriminate. reflexivity.
    + intros other Hne. rewrite Hdb. cbn [devices Sql.set_devices].
      apply lookup_insert_ne. congruence.
    + rewrite Hdb. reflexivity.
    + rewrite Hdb. reflexivity.
    + rewrite Hdb. reflexivity.
    + intros Hok.
      destruct (get_device_cases W device_id s') as [(d' & Hd' & E) | (e & E)].
      * rewrite E. congruence.
      * exfalso. unfold get_device, bind, with_conn, execute in E.
        rewrite Hok in E. cbn [Sql.select_device] in E. rewrite Hlook in E.
        discriminate.
  - intros HW device_id name th target s. unfold register_device.
    erewrite bind_run; [ | apply (conn_execute_ok W HW); reflexivity].
    do 2 eexists. apply (get_device_found W HW).
    cbn [db devices Sql.set_devices]. apply lookup_insert_eq.
Qed.
End Registration.

(** The test-suite's idempotent registration: [dev-001] registered again
    under a new name. *)
Lemma register_device_upsert_witness :
  exists d s',
    PowerManager.register_device Scenario.quiet "dev-001" "Edge Node updated" f3 None
      Scenario.with_reading = (Ok d, s') /\
    DeviceRecord.name d = "Edge Node updated" /\
    power_meters (db s') = power_meters (db Scenario.with_reading).
Proof.
  destruct (proj2 (register_device_upsert Scenario.quiet) ltac:(intros n; reflexivity)
              "dev-001" "Edge Node updated" f3 None Scenario.with_reading)
    as (d & s' & E).
  exists d, s'. split; [exact E | ].
  destruct (proj1 (register_device_upsert Scenario.quiet) _ _ _ _ _ _ _ E)
    as (_ & _ & Hname & _ & _ & _ & Hmeters & _).
  split; assumption.
Defined.

(** ** The enumerations *)

Section Enumerations.
Import PowerManager.

(** X2.  [MeterType] and [PowerEventType] round-trip through their values: the
    member read back from [t.value] is [t], and a string that names a member
    is that member's value.  So the type a meter or an event is stored with
    is always read back by [from_row]. *)
Theorem enum_value_round_trip :
  (forall t, MeterType_of_value (MeterType_value t) = Some t) /\
  (forall v t, MeterType_of_value v = Some t -> MeterType_value t = v) /\
  (forall t, PowerEventType_of_value (PowerEventType_value t) = Some t) /\
  (forall v t, PowerEventType_of_value v = Some t -> PowerEventType_value t = v).
Proof.
  split; [ | split; [ | split ] ].
  - intros t. destruct t; reflexivity.
  - intros v t H. unfold MeterType_of_value in H. apply find_some in H.
    destruct H as [_ H]. apply String.eqb_eq in H. exact H.
  - intros t. destruct t; reflexivity.
  - intros v t H. unfold PowerEventType_of_value in H. apply find_some in H.
    destruct H as [_ H]. apply String.eqb_eq in H. exact H.
Qed.
End Enumerations.

(** ** Identifiers that resolve to nothing *)

Section UnknownIds.
Import PowerManager.
Context (W : World) (HW : no_fault W).

Lemma has_meter_find (d : Store) (meter_id : string) :
  Sql.has_meter d meter_id = false ->
  List.find (fun m => String.eqb (PowerMeter.id m) meter_id) (power_meters d) = None.
Proof.
  unfold Sql.has_meter. induction (power_meters d) as [ | m l IH];
    cbn [existsb List.find]; [reflexivity | ].
  intros H. apply orb_false_iff in H. destruct H as [Hm Hl]. rewrite Hm. exact (IH Hl).
Qed.

Lemma get_meter_missing (meter_id : string) (s : Sys) :
  Sql.has_meter (db s) meter_id = false ->
  get_meter W meter_id s
  = (Raise (ValueError (String.append "Meter not found: " meter_id)),
     after_statements 1 s).
Proof.
  intros H. unfold get_meter.
  rewrite (bind_run _ _ s (after_statements 1 s) None); [reflexivity | ].
  rewrite (conn_execute_ok W HW _ s None (db s)); [reflexivity | ].
  unfold Sql.select_meter. rewrite (has_meter_find _ _ H). reflexivity.
Qed.

(** X3.  A meter id that names no meter: [get_meter], [calculate_wattage] and
    [log_power] raise "Meter not found: <id>" after their first query; the
    database is untouched, and no identifier or clock reading is used. *)
Theorem unknown_meter_raises (meter_id : string) (s : Sys) :
  Sql.has_meter (db s) meter_id = false ->
  get_meter W meter_id s
  = (Raise (ValueError (String.append "Meter not found: " meter_id)),
     after_statements 1 s) /\
  calculate_wattage W meter_id s
  = (Raise (ValueError (String.append "Meter not found: " meter_id)),
     after_statements 1 s) /\
  forall (v c : float) (charge_pct : option float),
    log_power W meter_id v c charge_pct s
    = (Raise (ValueError (String.append "Meter not found: " meter_id)),
       after_statements 1 s).
Proof.
  intros H. pose proof (get_meter_missing _ _ H) as E.
  split; [exact E | split].
  - unfold calculate_wattage. apply bind_raise. exact E.
  - intros v c charge_pct. unfold log_power. apply bind_raise. exact E.
Qed.

(** X4.  A device id that names no device: [get_device], [add_meter] and
    [trigger_event] raise "Device not found: <id>" after their first query;
    the database is untouched, and no identifier or clock reading is used. *)
Theorem unknown_device_raises (device_id : string) (s : Sys) :
  devices (db s) !! device_id = None ->
  get_device W device_id s
  = (Raise (ValueError (String.append "Device not found: " device_id)),
     after_statements 1 s) /\
  (forall (meter_type : string) (cap : float) (name : option string),
     add_meter W device_id meter_type cap name s
     = (Raise (ValueError (String.append "Device not found: " device_id)),
        after_statements 1 s)) /\
  (forall (event_type : string) (value : float) (note : option string),
     trigger_event W device_id event_type value note s
     = (Raise (ValueError (String.append "Device not found: " device_id)),
        after_statements 1 s)).
Proof.
  intros H. pose proof (get_device_missing W HW _ _ H) as E.
  split; [exact E | split].
  - intros meter_type cap name. unfold add_meter. apply bind_raise. exact E.
  - intros event_type value note. unfold trigger_event. apply bind_raise. exact E.
Qed.

Lemma filter_none {A : Type} (f : A -> bool) (l : list A) :
  Forall (fun x => f x = false) l -> List.filter f l = [].
Proof.
  induction 1 as [ | x l Hx _ IH]; cbn [List.filter]; [reflexivity | ].
  rewrite Hx. exact IH.
Qed.

Lemma limit_nil {A : Type} (n : Z) : Sql.limit n (@nil A) = [].
Proof. unfold Sql.limit. destruct (n <? 0); [reflexivity | apply firstn_nil]. Qed.

Lemma has_device_true (d : Store) (device_id : string) :
  Sql.has_device d device_id = true -> devices d !! device_id <> None.
Proof.
  intros H. destruct (has_device_lookup _ _ H) as [r Hr]. congruence.
Qed.

(** X5.  The queries by id do not check that the id exists.  On a database that
    respects its foreign keys, for an id that names no device and is not the
    empty string, [list_meters] returns no meter, [estimate_runtime] no
    value and [get_events], for a limit that fits a 64-bit integer, no
    event; for an id that names no meter, [get_history] returns no reading
    when the window asked exists.  Whatever the id, [get_events] raises an
    [OverflowError] for a limit that does not fit, and [get_history] for a
    window that [timedelta] or [datetime] cannot express; neither writes. *)
Theorem unknown_id_queries_are_empty (s : Sys) :
  foreign_keys (db s) ->
  (forall device_id,
     device_id <> "" -> devices (db s) !! device_id = None ->
     list_meters W (Some device_id) s = (Ok [], after_statements 1 s) /\
     estimate_runtime W device_id s = (Ok None, after_statements 1 s) /\
     forall limit,
       int64 limit ->
       get_events W device_id limit s = (Ok [], after_statements 1 s)) /\
  (forall meter_id hours,
     Sql.has_meter (db s) meter_id = false ->
     window (utcnow W (clock_calls s)) hours ->
     exists s', get_history W meter_id hours s = (Ok [], s')) /\
  (forall device_id limit,
     ~ int64 limit ->
     exists msg s',
       get_events W device_id limit s = (Raise (OverflowError msg), s') /\
       db s' = db s) /\
  (forall meter_id hours,
     ~ window (utcnow W (clock_calls s)) hours ->
     exists msg s',
       get_history W meter_id hours s = (Raise (OverflowError msg), s') /\
       db s' = db s).
Proof.
  intros (Hm & Hr & He). split; [ | split; [ | split] ].
  - intros device_id Hne Hnone.
    assert (Hmeters : listed (db s) device_id = []).
    { rewrite (listed_meters_of _ _ Hne). unfold meters_of. apply filter_none.
      eapply List.Forall_impl; [ | exact Hm]. intros m Hd. cbn beta in *.
      destruct (String.eqb_spec (PowerMeter.device_id m) device_id) as [Heq | ];
        [ | reflexivity].
      rewrite Heq in Hd. apply has_device_true in Hd. contradiction. }
    split; [ | split].
    + rewrite (list_meters_run W HW). fold (listed (db s) device_id).
      rewrite Hmeters. reflexivity.
    + rewrite (estimate_runtime_run W HW), Hmeters. reflexivity.
    + intros limit Hlimit.
      destruct (get_events_cases W device_id limit s)
        as [(_ & E) | (e & s' & [Hf | Hf] & _)];
        [ | contradiction | rewrite HW in Hf; contradiction].
      rewrite E. rewrite filter_none;
        [ change (rev (Sql.index_scan PowerEvent.timestamp [])) with (@nil PowerEvent.t);
          rewrite limit_nil; reflexivity | ].
      eapply List.Forall_impl; [ | exact He]. intros ev Hd. cbn beta in *.
      destruct (String.eqb_spec (PowerEvent.device_id ev) device_id) as [Heq | ];
        [ | reflexivity].
      rewrite Heq in Hd. apply has_device_true in Hd. contradiction.
  - intros meter_id hours Hnone Hwin.
    destruct (get_history_cases W meter_id hours s)
      as [(_ & E) | (e & s' & [Hf | Hf] & _)];
      [ | contradiction | rewrite HW in Hf; contradiction].
    eexists. rewrite E. rewrite filter_none; [reflexivity | ].
    eapply List.Forall_impl; [ | exact Hr]. intros r Hd. cbn beta in *.
    destruct (String.eqb_spec (PowerReading.meter_id r) meter_id) as [Heq | ];
      [ | reflexivity].
    rewrite Heq in Hd. congruence.
  - intros device_id limit Hlimit. do 2 eexists.
    split; [exact (get_events_overflow W device_id limit s Hlimit (HW _)) | reflexivity].
  - intros meter_id hours Hwin.
    destruct (get_history_overflow W meter_id hours s Hwin) as [msg E].
    exists msg. eexists. split; [exact E | reflexivity].
Qed.
End UnknownIds.

(** On the fixture there is no meter [nope]. *)
Lemma unknown_meter_raises_witness :
  PowerManager.calculate_wattage Scenario.quiet "nope" Scenario.with_reading
  = (Raise (ValueError "Meter not found: nope"), after_statements 1 Scenario.with_reading).
Proof.
  apply (proj1 (proj2 (unknown_meter_raises Scenario.quiet ltac:(intros n; reflexivity)
                         "nope" Scenario.with_reading ltac:(vm_compute; reflexivity)))).
Defined.

(** On the fixture there is no device [nonexistent]. *)
Lemma unknown_device_raises_witness :
  PowerManager.get_device Scenario.quiet "nonexistent" Scenario.with_reading
  = (Raise (ValueError "Device not found: nonexistent"),
     after_statements 1 Scenario.with_reading).
Proof.
  apply (proj1 (unknown_device_raises Scenario.quiet ltac:(intros n; reflexivity)
                  "nonexistent" Scenario.with_reading ltac:(vm_compute; reflexivity))).
Defined.

Lemma unknown_id_queries_are_empty_witness :
  PowerManager.estimate_runtime Scenario.quiet "nonexistent" Scenario.with_reading
  = (Ok None, after_statements 1 Scenario.with_reading) /\
  PowerManager.get_events Scenario.quiet "nonexistent" 50 Scenario.with_reading
  = (Ok [], after_statements 1 Scenario.with_reading).
Proof.
  assert (Hkeys : foreign_keys (db Scenario.with_reading))
    by (unfold foreign_keys; vm_compute; repeat constructor).
  destruct (proj1 (unknown_id_queries_are_empty Scenario.quiet
                     ltac:(intros n; reflexivity) Scenario.with_reading Hkeys)
              "nonexistent" ltac:(discriminate) ltac:(vm_compute; reflexivity))
    as (_ & Hruntime & Hevents).
  split; [exact Hruntime | ].
  apply Hevents. unfold int64. lia.
Defined.

(** ** Inputs the store refuses *)

Section RefusedInputs.
Import PowerManager.
Context (W : World).

Lemma real_nan (x : float) : Binary64.is_nan x = true -> Sql.real x = None.
Proof. destruct x; simpl; intros H; try discriminate. reflexivity. Qed.

Lemma escape_plain (c : ascii) :
  (32 <=? N_of_ascii c)%N = true -> (N_of_ascii c <? 127)%N = true ->
  Ascii.eqb c PyStr.squote = false -> Ascii.eqb c PyStr.backslash = false ->
  PyStr.escape PyStr.squote c = String c EmptyString.
Proof.
  intros Hlo Hhi Hq Hb. unfold PyStr.escape. cbv zeta. rewrite Hq, Hb. cbn [orb].
  pose proof (proj1 (N.leb_le _ _) Hlo) as Hle.
  destruct (N.eqb_spec (N_of_ascii c) 9); [lia | ].
  destruct (N.eqb_spec (N_of_ascii c) 10); [lia | ].
  destruct (N.eqb_spec (N_of_ascii c) 13); [lia | ].
  unfold PyStr.printable. rewrite Hlo, Hhi. reflexivity.
Qed.

(** [repr] of a plain string: the string between single quotes. *)
Lemma repr_plain (s : string) :
  plain s = true -> PyStr.repr s = String.append "'" (String.append s "'").
Proof.
  intros H.
  assert (Hs : PyStr.contains PyStr.squote s = false /\
               PyStr.escaped PyStr.squote s = s).
  { induction s as [ | c rest IH]; [split; reflexivity | ].
    cbn [plain] in H. rewrite !andb_true_iff, !negb_true_iff in H.
    destruct H as ((((Hlo & Hhi) & Hq) & Hb) & Hrest).
    destruct (IH Hrest) as [IH1 IH2].
    cbn [PyStr.contains PyStr.escaped]. rewrite Hq, IH1, IH2.
    rewrite (escape_plain c Hlo Hhi Hq Hb). split; reflexivity. }
  destruct Hs as [Hq He]. unfold PyStr.repr. cbv zeta. rewrite Hq. cbn [andb].
  rewrite He. reflexivity.
Qed.

Lemma add_meter_refused (device_id meter_type : string) (cap : float)
    (name : option string) (s s' : Sys) (res : result PowerMeter.t) :
  add_meter W device_id meter_type cap name s = (res, s') ->
  MeterType_of_value meter_type = None \/ Binary64.is_nan cap = true ->
  (exists e, res = Raise e) /\ db s' = db s.
Proof.
  intros H Hbad.
  destruct (get_device_cases W device_id s) as [(d & _ & Hrun) | (e & Hrun)].
  2: { unfold add_meter in H. rewrite (bind_raise _ _ _ _ _ Hrun) in H.
       injection H as <- <-. split; [eexists; reflexivity | reflexivity]. }
  rewrite (add_meter_step W _ _ _ _ _ _ Hrun) in H. cbv zeta in H.
  destruct (MeterType_of_value meter_type) as [t | ].
  - destruct Hbad as [Hbad | Hnan]; [discriminate | ].
    match type of H with
    | bind (with_conn (execute W ?st)) _ ?s0 = _ =>
        destruct (conn_execute_cases W st s0) as [(a & d1 & _ & Hs & Hr) | (e & Hr)]
    end.
    + apply insert_meter_inv in Hs. destruct Hs as (cap' & Hcap & _).
      rewrite (real_nan _ Hnan) in Hcap. discriminate.
    + rewrite (bind_raise _ _ _ _ _ Hr) in H. injection H as <- <-.
      split; [eexists; reflexivity | reflexivity].
  - unfold bind, with_conn, raise in H. injection H as <- <-.
    split; [eexists; reflexivity | reflexivity].
Qed.

(** X6.  Inputs the store refuses leave no trace, in every world.  [add_meter]
    with a type that is no [MeterType] value or a NaN capacity,
    [trigger_event] with a type that is no [PowerEventType] value or a NaN
    value, and [log_power] with a NaN voltage, current or wattage, all raise
    and leave the database as it was.  On an existing device and in a world
    without faults, the unrecognised type [s] is reported by a [ValueError]
    whose message starts with [repr(s)]: the string between single quotes
    when it is made of printable ASCII characters other than the single
    quote and the backslash. *)
Theorem refused_input_stores_nothing :
  (forall (device_id meter_type : string) (cap : float) (name : option string)
          (s s' : Sys) (res : result PowerMeter.t),
     add_meter W device_id meter_type cap name s = (res, s') ->
     MeterType_of_value meter_type = None \/ Binary64.is_nan cap = true ->
     (exists e, res = Raise e) /\ db s' = db s) /\
  (forall (device_id event_type : string) (value : float) (note : option string)
          (s s' : Sys) (res : result PowerEvent.t),
     trigger_event W device_id event_type value note s = (res, s') ->
     PowerEventType_of_value event_type = None \/ Binary64.is_nan value = true ->
     (exists e, res = Raise e) /\ db s' = db s) /\
  (forall (meter_id : string) (v c : float) (charge_pct : option float)
          (s s' : Sys) (res : result PowerReading.t),
     log_power W meter_id v c charge_pct s = (res, s') ->
     Binary64.is_nan v = true \/ Binary64.is_nan c = true \/
     Binary64.is_nan (Binary64.round (Binary64.mul v c) 4) = true ->
     (exists e, res = Raise e) /\ db s' = db s) /\
  (no_fault W ->
   forall (device_id bad : string) (d : DeviceRecord.t) (s : Sys),
     devices (db s) !! device_id = Some d ->
     (MeterType_of_value bad = None ->
      forall cap name,
        fst (add_meter W device_id bad cap name s)
        = Raise (ValueError (String.append (PyStr.repr bad)
                               " is not a valid MeterType"))) /\
     (PowerEventType_of_value bad = None ->
      forall value note,
        fst (trigger_event W device_id bad value note s)
        = Raise (ValueError (String.append (PyStr.repr bad)
                               " is not a valid PowerEventType")))) /\
  (forall bad : string,
     plain bad = true ->
     PyStr.repr bad = String.append "'" (String.append bad "'")).
Proof.
  split; [exact add_meter_refused | split; [ | split; [ | split] ] ].
  - intros device_id event_type value note s s' res H Hbad.
    destruct (trigger_event_cases W device_id event_type value note s)
      as [(etype & stored & ev & s1 & Hrun & Hty & Hreal & _) | (e & s1 & Hrun & Hdb)];
      rewrite Hrun in H.
    + destruct Hbad as [Hbad | Hnan]; [congruence | ].
      rewrite (real_nan _ Hnan) in Hreal. discriminate.
    + injection H as <- <-. split; [eexists; reflexivity | exact Hdb].
  - intros meter_id v c charge_pct s s' res H Hbad.
    apply log_power_cases in H.
    destruct H as [(e & -> & Hdb) | (m & v' & c' & w' & _ & Hv & Hc & Hw & _)].
    + split; [eexists; reflexivity | exact Hdb].
    + destruct Hbad as [Hn | [Hn | Hn] ]; apply real_nan in Hn; congruence.
  - intros HW device_id bad d s Hd. split.
    + intros Hbad cap name.
      rewrite (add_meter_step W _ _ _ _ _ _ (get_device_found W HW _ _ _ Hd)).
      cbv zeta. rewrite Hbad. reflexivity.
    + intros Hbad value note.
      rewrite (trigger_event_step W _ _ _ _ _ _ (get_device_found W HW _ _ _ Hd)).
      cbv zeta. rewrite Hbad. reflexivity.
  - exact repr_plain.
Qed.
End RefusedInputs.

(** On the fixture, ["nuclear"] is no meter type, and neither is ["it's"],
    which is reported between double quotes. *)
Lemma refused_input_stores_nothing_witness :
  fst (PowerManager.add_meter Scenario.quiet "dev-001" "nuclear" f0 None
         Scenario.with_reading)
  = Raise (ValueError "'nuclear' is not a valid MeterType") /\
  fst (PowerManager.add_meter Scenario.quiet "dev-001" "it's" f0 None
         Scenario.with_reading)
  = Raise (ValueError
             (String PyStr.dquote
                (String.append "it's"
                   (String PyStr.dquote " is not a valid MeterType")))).
Proof.
  split.
  - apply (proj1 (proj1 (proj2 (proj2 (proj2
                    (refused_input_stores_nothing Scenario.quiet))))
                    ltac:(intros n; reflexivity) "dev-001" "nuclear"
                    (DeviceRecord.mk "dev-001" "Edge Node" f3 None)
                    Scenario.with_reading ltac:(vm_compute; reflexivity))
             ltac:(reflexivity)).
  - apply (proj1 (proj1 (proj2 (proj2 (proj2
                    (refused_input_stores_nothing Scenario.quiet))))
                    ltac:(intros n; reflexivity) "dev-001" "it's"
                    (DeviceRecord.mk "dev-001" "Edge Node" f3 None)
                    Scenario.with_reading ltac:(vm_compute; reflexivity))
             ltac:(reflexivity)).
Defined.

(** ** Integrity of the database *)

Section PrimaryKeys.
Import PowerManager.
Context (W : World).

Lemma nodup_snoc {A : Type} (l : list A) (a : A) :
  NoDup l -> a ∉ l -> NoDup (l ++ [a]).
Proof.
  intros Hl Ha. apply NoDup_app. split; [exact Hl | split].
  - intros x Hx Hin. apply list_elem_of_singleton in Hin. subst x. exact (Ha Hx).
  - apply NoDup_singleton.
Qed.

Lemma existsb_not_in {A : Type} (key : A -> string) (l : list A) (x : string) :
  existsb (fun r => String.eqb (key r) x) l = false -> x ∉ List.map key l.
Proof.
  intros H Hin. apply list_elem_of_In in Hin. revert H Hin.
  induction l as [ | r l IH]; cbn [existsb List.map]; intros H Hin; [destruct Hin | ].
  apply orb_false_iff in H. destruct H as [Hr Hl].
  destruct Hin as [Heq | Hin]; [ | exact (IH Hl Hin)].
  rewrite Heq, String.eqb_refl in Hr. discriminate.
Qed.

Lemma map_id_set_live (v c p : float) (meter_id : string) (l : list PowerMeter.t) :
  List.map PowerMeter.id
    (List.map (fun m => if String.eqb (PowerMeter.id m) meter_id
                        then Sql.set_live v c p m else m) l)
  = List.map PowerMeter.id l.
Proof.
  induction l as [ | m l IH]; cbn [List.map]; [reflexivity | ].
  rewrite IH. destruct (String.eqb (PowerMeter.id m) meter_id); reflexivity.
Qed.

Lemma keeps_ids_register (device_id name : string) (th : float) (target : option float) :
  keeps primary_keys (Sql.insert_or_replace_device device_id name th target).
Proof. intros d a d' H E. injection E as _ <-. exact H. Qed.

Lemma keeps_ids_insert_meter (meter_id device_id : string) (t : MeterType)
    (cap : float) (name : option string) :
  keeps primary_keys (Sql.insert_meter meter_id device_id t cap name).
Proof.
  intros d a d' (Hm & Hr & He) E. apply insert_meter_inv in E.
  destruct E as (cap' & _ & Hnew & _ & ->).
  split; [ | split; assumption].
  cbn [power_meters Sql.set_power_meters]. rewrite List.map_app. cbn [List.map].
  apply nodup_snoc; [exact Hm | ].
  apply (existsb_not_in PowerMeter.id). exact Hnew.
Qed.

Lemma keeps_ids_insert_reading (rid meter_id : string) (v c w p : float)
    (now : timestamp) :
  keeps primary_keys (Sql.insert_reading rid meter_id v c w p now).
Proof.
  intros d a d' (Hm & Hr & He) E. apply insert_reading_inv in E.
  destruct E as (v' & c' & w' & p' & _ & _ & _ & _ & Hnew & _ & ->).
  split; [exact Hm | split; [ | exact He] ].
  cbn [power_readings Sql.set_power_readings]. rewrite List.map_app. cbn [List.map].
  apply nodup_snoc; [exact Hr | ].
  apply (existsb_not_in PowerReading.id). exact Hnew.
Qed.

Lemma keeps_ids_update (v c p : float) (meter_id : string) :
  keeps primary_keys (Sql.update_meter_live v c p meter_id).
Proof.
  intros d a d' (Hm & Hr & He) E. unfold Sql.update_meter_live, Sql.real_not_null in E.
  destruct (Sql.has_meter d meter_id);
    [ | injection E as _ <-; split; [ | split]; assumption].
  destruct (Sql.real v) as [v' | ]; cbn [Sql.and_then] in E; [ | discriminate].
  destruct (Sql.real c) as [c' | ]; cbn [Sql.and_then] in E; [ | discriminate].
  destruct (Sql.real p) as [p' | ]; cbn [Sql.and_then] in E; [ | discriminate].
  injection E as _ <-. split; [ | split; assumption].
  cbn [power_meters Sql.set_power_meters]. rewrite map_id_set_live. exact Hm.
Qed.

Lemma keeps_ids_insert_event (eid device_id : string) (t : PowerEventType)
    (value : float) (now : timestamp) (note : option string) :
  keeps primary_keys (Sql.insert_event eid device_id t value now note).
Proof.
  intros d a d' (Hm & Hr & He) E. apply insert_event_inv in E.
  destruct E as (stored & _ & Hnew & _ & ->).
  split; [exact Hm | split; [exact Hr | ] ].
  cbn [power_events Sql.set_power_events]. rewrite List.map_app. cbn [List.map].
  apply nodup_snoc; [exact He | ].
  apply (existsb_not_in PowerEvent.id). exact Hnew.
Qed.

Lemma ids_perform (c : call) (s : Sys) :
  primary_keys (db s) -> primary_keys (db (perform W c s)).
Proof.
  destruct c; cbn [perform];
    [ | apply preserves_get_device | | apply preserves_get_meter
    | apply preserves_list_meters | | apply preserves_calculate_wattage
    | apply preserves_estimate_runtime | | apply preserves_get_events
    | apply preserves_power_budget_check | apply preserves_get_history
    | apply preserves_export_report ].
  - unfold register_device. preserve; auto using keeps_ids_register with preserve.
  - unfold add_meter. preserve; auto using preserves_get_device, preserves_get_meter.
    apply preserves_with_conn.
    destruct (MeterType_of_value meter_type);
      auto using keeps_ids_insert_meter with preserve.
  - unfold log_power. preserve;
      auto using preserves_get_meter, keeps_ids_insert_event with preserve.
    apply preserves_with_conn, preserves_bind; [ | intros _ ];
      apply preserves_execute;
      auto using keeps_ids_insert_reading, keeps_ids_update.
  - unfold trigger_event. preserve;
      auto using preserves_get_device, keeps_ids_insert_event with preserve.
Qed.

(** X7.  After every sequence of calls, in every world (statements may fail and
    [uuid4] may repeat an identifier), no two meters, no two readings and no
    two events share an id, every meter and every event references a device
    of the database, and every reading references a meter. *)
Theorem session_integrity (calls : list call) :
  primary_keys (db (session W calls)) /\ foreign_keys (db (session W calls)).
Proof.
  split; [ | apply keys_session].
  unfold session.
  assert (H : primary_keys (db initial)) by (repeat split; constructor).
  revert H. generalize initial.
  induction calls as [ | c rest IH]; intros s H; cbn [fold_left].
  - exact H.
  - apply IH, ids_perform, H.
Qed.

(** X8.  The calls that read never write: in every world, whatever they return
    or raise, the database after [get_device], [get_meter], [list_meters],
    [calculate_wattage], [estimate_runtime], [get_events],
    [power_budget_check], [get_history] or [export_report] is the database
    before. *)
Theorem queries_never_write (c : call) (s : Sys) :
  is_query c = true -> db (perform W c s) = db s.
Proof.
  intros H. destruct c; try discriminate; cbn [perform].
  - apply (preserves_get_device W (fun d => d = db s)). reflexivity.
  - apply (preserves_get_meter W (fun d => d = db s)). reflexivity.
  - apply (preserves_list_meters W (fun d => d = db s)). reflexivity.
  - apply (preserves_calculate_wattage W (fun d => d = db s)). reflexivity.
  - apply (preserves_estimate_runtime W (fun d => d = db s)). reflexivity.
  - apply (preserves_get_events W (fun d => d = db s)). reflexivity.
  - apply (preserves_power_budget_check W (fun d => d = db s)). reflexivity.
  - apply (preserves_get_history W (fun d => d = db s)). reflexivity.
  - apply (preserves_export_report W (fun d => d = db s)). reflexivity.
Qed.
End PrimaryKeys.

(** [export_report] on the fixture, with the engine refusing a statement on
    the way, leaves the database as it was. *)
Lemma queries_never_write_witness :
  db (perform (Scenario.faulty 8) (ExportReport "dev-001" 7) Scenario.with_reading)
  = db Scenario.with_reading.
Proof.
  apply (queries_never_write (Scenario.faulty 8) (ExportReport "dev-001" 7)
           Scenario.with_reading eq_refl).
Defined.

(** ** The live fields of a meter *)

Section LiveFields.
Import PowerManager.

Lemma find_logged_other (meter_id other : string) (l : list PowerMeter.t)
    (v c p : float) :
  other <> meter_id ->
  List.find (fun m => String.eqb (PowerMeter.id m) other)
    (List.map (fun m => if String.eqb (PowerMeter.id m) meter_id
                        then Sql.set_live v c p m else m) l)
  = List.find (fun m => String.eqb (PowerMeter.id m) other) l.
Proof.
  intros Hne. induction l as [ | x l IH]; cbn [List.find List.map]; [reflexivity | ].
  destruct (String.eqb (PowerMeter.id x) meter_id) eqn:E.
  - cbn [Sql.set_live PowerMeter.id]. apply String.eqb_eq in E.
    destruct (String.eqb (PowerMeter.id x) other) eqn:E'.
    + apply String.eqb_eq in E'. congruence.
    + exact IH.
  - destruct (String.eqb (PowerMeter.id x) other); [reflexivity | exact IH].
Qed.

Lemma eqb_refl (x : float) : Binary64.is_nan x = false -> SFeqb x x = true.
Proof.
  intros H. destruct x as [s | s | | s m e]; try discriminate; unfold SFeqb; simpl.
  - reflexivity.
  - destruct s; reflexivity.
  - destruct s; rewrite Z.compare_refl, Pos.compare_cont_refl; reflexivity.
Qed.

(** The wattage of the values a row keeps is the wattage of the values
    given: a [REAL] column only changes a negative zero. *)
Lemma wattage_real (v c v' c' w' : float) :
  Sql.real v = Some v' -> Sql.real c = Some c' ->
  Sql.real (Binary64.round (Binary64.mul v c) 4) = Some w' ->
  SFeqb (Binary64.round (Binary64.mul v' c') 4) (Binary64.round (Binary64.mul v c) 4)
  = true.
Proof.
  intros Hv Hc Hw.
  assert (Hnan : Binary64.is_nan (Binary64.round (Binary64.mul v c) 4) = false).
  { destruct (Binary64.round (Binary64.mul v c) 4); try reflexivity. discriminate. }
  destruct v as [sv | sv | | sv mv ev]; try discriminate Hv;
    destruct c as [sc | sc | | sc mc ec]; try discriminate Hc;
    cbn [Sql.real] in Hv, Hc; injection Hv as <-; injection Hc as <-.
  - reflexivity.
  - discriminate Hnan.
  - reflexivity.
  - discriminate Hnan.
  - apply eqb_refl, Hnan.
  - apply eqb_refl, Hnan.
  - reflexivity.
  - apply eqb_refl, Hnan.
  - apply eqb_refl, Hnan.
Qed.

(** What [log_power] has done to the tables of devices and meters when it
    returns. *)
Lemma log_power_meters (W : World) (meter_id : string) (v c : float)
    (charge_pct : option float) (s s' : Sys) (r : PowerReading.t) :
  log_power W meter_id v c charge_pct s = (Ok r, s') ->
  exists m v' c' w',
    List.find (fun m => String.eqb (PowerMeter.id m) meter_id) (power_meters (db s))
      = Some m /\
    Sql.real v = Some v' /\ Sql.real c = Some c' /\
    Sql.real (Binary64.round (Binary64.mul v c) 4) = Some w' /\
    r = PowerReading.mk (uuid4 W (uuid_calls s)) meter_id v c
          (Binary64.round (Binary64.mul v c) 4)
          (clamp (match charge_pct with
                  | Some p => p
                  | None => PowerMeter.charge_pct m
                  end))
          (utcnow W (clock_calls s)) /\
    devices (db s') = devices (db s) /\
    power_meters (db s')
    = List.map (fun x => if String.eqb (PowerMeter.id x) meter_id
                         then Sql.set_live v' c' (PowerReading.charge_pct r) x else x)
        (power_meters (db s)).
Proof.
  intros H. apply log_power_cases in H.
  destruct H as [(e & H & _) | (m & v' & c' & w' & Hfind & Hv & Hc & Hw & _ & H)];
    [discriminate | ].
  exists m, v', c', w'. repeat (split; [assumption | ]). cbv zeta in H.
  destruct H as [(Hr & _ & Hdb) | (etype & _ & [(Hr & Hdb) | (e & Hr & _)])];
    try discriminate;
    injection Hr as ->; rewrite Hdb; repeat split; reflexivity.
Qed.

(** X9.  [log_power] writes last-write-wins onto one meter.  When it returns, in
    every world: the devices are as before, the table of meters holds the
    same ids in the same order, every other meter is as before, and the
    meter named keeps its id, device, type, capacity and name and now holds
    the voltage and the current given (a negative zero is kept as zero) and
    the charge of the reading returned.  What [calculate_wattage] then
    returns for the meter equals the wattage of the reading. *)
Theorem log_power_last_write_wins (W : World) (meter_id : string) (v c : float)
    (charge_pct : option float) (s s' : Sys) (r : PowerReading.t) :
  log_power W meter_id v c charge_pct s = (Ok r, s') ->
  devices (db s') = devices (db s) /\
  List.map PowerMeter.id (power_meters (db s'))
  = List.map PowerMeter.id (power_meters (db s)) /\
  (forall other,
     other <> meter_id ->
     List.find (fun m => String.eqb (PowerMeter.id m) other) (power_meters (db s'))
     = List.find (fun m => String.eqb (PowerMeter.id m) other) (power_meters (db s))) /\
  (exists m m',
     List.find (fun m => String.eqb (PowerMeter.id m) meter_id) (power_meters (db s))
       = Some m /\
     List.find (fun m => String.eqb (PowerMeter.id m) meter_id) (power_meters (db s'))
       = Some m' /\
     PowerMeter.id m' = PowerMeter.id m /\
     PowerMeter.device_id m' = PowerMeter.device_id m /\
     PowerMeter.type m' = PowerMeter.type m /\
     PowerMeter.capacity_wh m' = PowerMeter.capacity_wh m /\
     PowerMeter.name m' = PowerMeter.name m /\
     SFeqb (PowerMeter.voltage m') v = true /\
     SFeqb (PowerMeter.current_draw m') c = true /\
     PowerMeter.charge_pct m' = PowerReading.charge_pct r) /\
  (forall (W' : World) (w : float) (s'' : Sys),
     calculate_wattage W' meter_id s' = (Ok w, s'') ->
     SFeqb w (PowerReading.wattage r) = true).
Proof.
  intros H. destruct (log_power_meters _ _ _ _ _ _ _ _ H)
    as (m & v' & c' & w' & Hfind & Hv & Hc & Hw & Hr & Hdev & Hmeters).
  assert (Hfind' :
    List.find (fun m => String.eqb (PowerMeter.id m) meter_id) (power_meters (db s'))
    = Some (Sql.set_live v' c' (PowerReading.charge_pct r) m)).
  { rewrite Hmeters. apply find_logged. exact Hfind. }
  split; [exact Hdev | split; [ | split; [ | split] ] ].
  - rewrite Hmeters. apply map_id_set_live.
  - intros other Hne. rewrite Hmeters. apply find_logged_other. exact Hne.
  - exists m, (Sql.set_live v' c' (PowerReading.charge_pct r) m).
    split; [exact Hfind | split; [exact Hfind' | ] ].
    cbn [Sql.set_live PowerMeter.id PowerMeter.device_id PowerMeter.type
         PowerMeter.capacity_wh PowerMeter.name PowerMeter.voltage
         PowerMeter.current_draw PowerMeter.charge_pct].
    repeat (split; [reflexivity | ]).
    split; [exact (real_eqb _ _ Hv) | split; [exact (real_eqb _ _ Hc) | reflexivity] ].
  - intros W' w s'' Hw'. unfold calculate_wattage in Hw'.
    destruct (get_meter_cases W' meter_id s') as [(m' & Hm' & Hrun) | (e & Hrun)].
    + rewrite (bind_run _ _ _ _ _ Hrun) in Hw'. injection Hw' as <- _.
      rewrite Hfind' in Hm'. injection Hm' as <-.
      rewrite Hr. cbn [PowerReading.wattage]. unfold PowerMeter.wattage.
      cbn [Sql.set_live PowerMeter.voltage PowerMeter.current_draw].
      exact (wattage_real _ _ _ _ _ Hv Hc Hw).
    + rewrite (bind_raise _ _ _ _ _ Hrun) in Hw'. discriminate.
Qed.
End LiveFields.

(** The test-suite's [log_power(uuid-0, 12.0, 2.0, 90.0)] followed by
    [calculate_wattage(uuid-0)]: 24.0. *)
Lemma log_power_last_write_wins_witness :
  exists r s' w s'',
    PowerManager.log_power Scenario.quiet "uuid-0" (Binary64.of_Z 12) (Binary64.of_Z 2)
      (Some (Binary64.of_Z 90)) Scenario.with_battery = (Ok r, s') /\
    PowerManager.calculate_wattage Scenario.quiet "uuid-0" s' = (Ok w, s'') /\
    SFeqb w (PowerReading.wattage r) = true /\
    w = Binary64.of_Z 24.
Proof.
  destruct (PowerManager.log_power Scenario.quiet "uuid-0" (Binary64.of_Z 12)
              (Binary64.of_Z 2) (Some (Binary64.of_Z 90)) Scenario.with_battery)
    as [[r | e] s'] eqn:E; [ | vm_compute in E; discriminate].
  destruct (PowerManager.calculate_wattage Scenario.quiet "uuid-0" s')
    as [[w | e] s''] eqn:E'.
  - exists r, s', w, s''. split; [reflexivity | split; [exact E' | split] ].
    + exact (proj2 (proj2 (proj2 (proj2
               (log_power_last_write_wins _ _ _ _ _ _ _ _ E)))) _ _ _ E').
    + vm_compute in E. injection E as <- <-. vm_compute in E'.
      injection E' as <- _. reflexivity.
  - vm_compute in E. injection E as <- <-. vm_compute in E'. discriminate.
Defined.

(** ** A reading without a charge *)

Section OmittedCharge.
Import PowerManager.
Context (W : World).

Lemma clamp_idempotent (p : float) : clamp (clamp p) = clamp p.
Proof.
  destruct (clamp_cases p) as [(H1 & H2 & E) | [(H1 & H2 & E) | (H1 & E)] ]; rewrite E.
  - exact E.
  - reflexivity.
  - reflexivity.
Qed.

Lemma keeps_settled_register (device_id name : string) (th : float)
    (target : option float) :
  keeps charge_settled (Sql.insert_or_replace_device device_id name th target).
Proof. intros d a d' H E. injection E as _ <-. exact H. Qed.

Lemma keeps_settled_insert_meter (meter_id device_id : string) (t : MeterType)
    (cap : float) (name : option string) :
  keeps charge_settled (Sql.insert_meter meter_id device_id t cap name).
Proof.
  intros d a d' H E. apply insert_meter_inv in E.
  destruct E as (cap' & _ & _ & _ & ->).
  unfold charge_settled. cbn [power_meters Sql.set_power_meters].
  apply List.Forall_app. split; [exact H | ].
  constructor; [reflexivity | constructor].
Qed.

Lemma keeps_settled_insert_reading (rid meter_id : string) (v c w p : float)
    (now : timestamp) :
  keeps charge_settled (Sql.insert_reading rid meter_id v c w p now).
Proof.
  intros d a d' H E. apply insert_reading_inv in E.
  destruct E as (v' & c' & w' & p' & _ & _ & _ & _ & _ & _ & ->). exact H.
Qed.

Lemma keeps_settled_update (v c p : float) (meter_id : string) :
  keeps charge_settled (Sql.update_meter_live v c (clamp p) meter_id).
Proof.
  intros d a d' H E. unfold Sql.update_meter_live, Sql.real_not_null in E.
  destruct (Sql.has_meter d meter_id); [ | injection E as _ <-; exact H].
  destruct (Sql.real v) as [v' | ]; cbn [Sql.and_then] in E; [ | discriminate].
  destruct (Sql.real c) as [c' | ]; cbn [Sql.and_then] in E; [ | discriminate].
  rewrite real_clamp in E. cbn [Sql.and_then] in E.
  injection E as _ <-.
  unfold charge_settled. cbn [power_meters Sql.set_power_meters]. apply List.Forall_map.
  eapply List.Forall_impl; [ | exact H]. intros m Hm. cbn beta.
  destruct (String.eqb (PowerMeter.id m) meter_id); [ | exact Hm].
  cbn [Sql.set_live PowerMeter.charge_pct]. apply clamp_idempotent.
Qed.

Lemma keeps_settled_insert_event (eid device_id : string) (t : PowerEventType)
    (value : float) (now : timestamp) (note : option string) :
  keeps charge_settled (Sql.insert_event eid device_id t value now note).
Proof.
  intros d a d' H E. apply insert_event_inv in E.
  destruct E as (stored & _ & _ & _ & ->). exact H.
Qed.

Lemma settled_perform (c : call) (s : Sys) :
  charge_settled (db s) -> charge_settled (db (perform W c s)).
Proof.
  destruct c; cbn [perform];
    [ | apply preserves_get_device | | apply preserves_get_meter
    | apply preserves_list_meters | | apply preserves_calculate_wattage
    | apply preserves_estimate_runtime | | apply preserves_get_events
    | apply preserves_power_budget_check | apply preserves_get_history
    | apply preserves_export_report ].
  - unfold register_device. preserve; auto using keeps_settled_register with preserve.
  - unfold add_meter. preserve; auto using preserves_get_device, preserves_get_meter.
    apply preserves_with_conn.
    destruct (MeterType_of_value meter_type);
      auto using keeps_settled_insert_meter with preserve.
  - unfold log_power. preserve;
      auto using preserves_get_meter, keeps_settled_insert_event with preserve.
    apply preserves_with_conn, preserves_bind; [ | intros _ ];
      apply preserves_execute;
      auto using keeps_settled_insert_reading, keeps_settled_update.
  - unfold trigger_event. preserve;
      auto using preserves_get_device, keeps_settled_insert_event with preserve.
Qed.

Lemma settled_session (calls : list call) : charge_settled (db (session W calls)).
Proof.
  unfold session.
  assert (H : charge_settled (db initial)) by constructor.
  revert H. generalize initial.
  induction calls as [ | c rest IH]; intros s H; cbn [fold_left].
  - exact H.
  - apply IH, settled_perform, H.
Qed.

(** X10.  [log_power] without a charge reuses the charge of the meter.  After any
    sequence of calls, in every world, a call [log_power(meter_id, v, c)]
    that returns gives a reading with exactly the charge the meter had, and
    leaves the meter with that charge and in the state it was in: the clamp
    changes nothing, since every charge in the database has been through
    it. *)
Theorem omitted_charge_is_kept (calls : list call) (meter_id : string) (v c : float)
    (s' : Sys) (r : PowerReading.t) :
  log_power W meter_id v c None (session W calls) = (Ok r, s') ->
  exists m m',
    List.find (fun m => String.eqb (PowerMeter.id m) meter_id)
      (power_meters (db (session W calls))) = Some m /\
    List.find (fun m => String.eqb (PowerMeter.id m) meter_id) (power_meters (db s'))
      = Some m' /\
    PowerReading.charge_pct r = PowerMeter.charge_pct m /\
    PowerMeter.charge_pct m' = PowerMeter.charge_pct m /\
    PowerMeter.state m' = PowerMeter.state m.
Proof.
  intros H. destruct (log_power_meters _ _ _ _ _ _ _ _ H)
    as (m & v' & c' & w' & Hfind & _ & _ & _ & Hr & _ & Hmeters).
  assert (Hm : clamp (PowerMeter.charge_pct m) = PowerMeter.charge_pct m).
  { pose proof (settled_session calls) as Hall. unfold charge_settled in Hall.
    rewrite List.Forall_forall in Hall. apply Hall.
    apply find_some in Hfind. exact (proj1 Hfind). }
  assert (Hpct : PowerReading.charge_pct r = PowerMeter.charge_pct m).
  { rewrite Hr. cbn [PowerReading.charge_pct]. exact Hm. }
  exists m, (Sql.set_live v' c' (PowerReading.charge_pct r) m).
  split; [exact Hfind | split; [ | split; [exact Hpct | split] ] ].
  - rewrite Hmeters. apply find_logged. exact Hfind.
  - cbn [Sql.set_live PowerMeter.charge_pct]. exact Hpct.
  - unfold PowerMeter.state. cbn [Sql.set_live PowerMeter.charge_pct PowerMeter.type].
    rewrite Hpct. reflexivity.
Qed.
End OmittedCharge.

(** After the fixture's calls and a reading at 15 %, a reading without a
    charge is at 15 % again, and the battery stays LOW. *)
Lemma omitted_charge_is_kept_witness :
  exists r s' m',
    PowerManager.log_power Scenario.quiet "uuid-0" (Binary64.of_Z 12) (Binary64.of_Z 2)
      None
      (session Scenario.quiet
         [RegisterDevice "dev-001" "Edge Node" f3 None;
          AddMeter "dev-001" "battery" (Binary64.of_Z 50) (Some "Main Battery");
          LogPower "uuid-0" (Binary64.of_Z 10) (Binary64.of_dyadic 1 (-1))
            (Some (Binary64.of_Z 15))]) = (Ok r, s') /\
    List.find (fun m => String.eqb (PowerMeter.id m) "uuid-0") (power_meters (db s'))
      = Some m' /\
    PowerReading.charge_pct r = Binary64.of_Z 15 /\
    PowerMeter.state m' = LOW.
Proof.
  destruct (PowerManager.log_power Scenario.quiet "uuid-0" (Binary64.of_Z 12)
              (Binary64.of_Z 2) None
              (session Scenario.quiet
                 [RegisterDevice "dev-001" "Edge Node" f3 None;
                  AddMeter "dev-001" "battery" (Binary64.of_Z 50) (Some "Main Battery");
                  LogPower "uuid-0" (Binary64.of_Z 10) (Binary64.of_dyadic 1 (-1))
                    (Some (Binary64.of_Z 15))]))
    as [[r | e] s'] eqn:E; [ | vm_compute in E; discriminate].
  destruct (omitted_charge_is_kept Scenario.quiet _ _ _ _ _ _ E)
    as (m & m' & Hm & Hm' & Hr & Hc & Hs).
  exists r, s', m'. split; [reflexivity | split; [exact Hm' | ] ].
  vm_compute in Hm. injection Hm as <-.
  split; [rewrite Hr | rewrite Hs]; reflexivity.
Defined.

(** ** Writing, then reading back *)

Section OneStatement.
Import PowerManager.
Context (W : World).

Lemma conn_execute_here {A : Type} (stmt : Store -> result (A * Store)) (s : Sys)
    (a : A) (d : Store) :
  sql_fault W (statements s) = None ->
  stmt (db s) = Ok (a, d) ->
  with_conn (execute W stmt) s
  = (Ok a, mkSys d (uuid_calls s) (clock_calls s) (S (statements s))).
Proof. intros Hf Hs. unfold with_conn, execute. rewrite Hf, Hs. reflexivity. Qed.

Lemma get_meter_here (meter_id : string) (m : PowerMeter.t) (s : Sys) :
  sql_fault W (statements s) = None ->
  List.find (fun m => String.eqb (PowerMeter.id m) meter_id) (power_meters (db s))
    = Some m ->
  get_meter W meter_id s = (Ok m, after_statements 1 s).
Proof.
  intros Hf H. unfold get_meter.
  rewrite (bind_run _ _ s (after_statements 1 s) (Some m)); [reflexivity | ].
  apply conn_execute_here; [exact Hf | ].
  unfold Sql.select_meter. rewrite H. reflexivity.
Qed.

Lemma get_device_here (device_id : string) (d : DeviceRecord.t) (s : Sys) :
  sql_fault W (statements s) = None ->
  devices (db s) !! device_id = Some d ->
  get_device W device_id s = (Ok d, after_statements 1 s).
Proof.
  intros Hf H. unfold get_device.
  rewrite (bind_run _ _ s (after_statements 1 s) (Some d)); [reflexivity | ].
  apply conn_execute_here; [exact Hf | ].
  unfold Sql.select_device. rewrite H. reflexivity.
Qed.

Lemma list_meters_inv (device_id : string) (s s' : Sys) (l : list PowerMeter.t) :
  list_meters W (Some device_id) s = (Ok l, s') -> l = listed (db s) device_id.
Proof.
  unfold list_meters. intros H.
  match type of H with
  | with_conn (execute W ?st) s = _ =>
      destruct (conn_execute_cases W st s) as [(a & d & _ & Hs & Hr) | (e & Hr)]
  end; rewrite Hr in H; [ | discriminate].
  injection H as <- _. unfold listed.
  unfold Sql.select_meters in Hs. destruct (String.eqb device_id "");
    injection Hs as <- _; reflexivity.
Qed.

End OneStatement.

Section ReadBack.
Import PowerManager.
Context (W : World).

(** What a call of [add_meter] can have done when it ends, in every world:
    nothing, and it raised; or the row is stored, and it returned the row
    or, the read-back refused by the engine, raised. *)
Lemma add_meter_cases (device_id meter_type : string) (cap : float)
    (name : option string) (s s' : Sys) (res : result PowerMeter.t) :
  add_meter W device_id meter_type cap name s = (res, s') ->
  ((exists e, res = Raise e) /\ db s' = db s) \/
  (exists t cap',
     MeterType_of_value meter_type = Some t /\ Sql.real cap = Some cap' /\
     Sql.has_meter (db s) (uuid4 W (uuid_calls s)) = false /\
     Sql.has_device (db s) device_id = true /\
     let m := PowerMeter.mk (uuid4 W (uuid_calls s)) device_id t f0 f0 cap' f100 name in
     db s' = Sql.set_power_meters (db s) (power_meters (db s) ++ [m]) /\
     (res = Ok m \/
      (exists e, res = Raise e) /\ sql_fault W (2 + statements s) <> None)).
Proof.
  intros H.
  destruct (get_device_cases W device_id s) as [(d & _ & Hrun) | (e & Hrun)].
  2: { unfold add_meter in H. rewrite (bind_raise _ _ _ _ _ Hrun) in H.
       injection H as <- <-. left. split; [eexists; reflexivity | reflexivity]. }
  rewrite (add_meter_step W _ _ _ _ _ _ Hrun) in H. cbv zeta in H.
  destruct (MeterType_of_value meter_type) as [t | ].
  2: { unfold bind, with_conn, raise in H. injection H as <- <-.
       left. split; [eexists; reflexivity | reflexivity]. }
  match type of H with
  | bind (with_conn (execute W ?st)) _ ?s0 = _ =>
      destruct (conn_execute_cases W st s0) as [(a & d1 & _ & Hs & Hr) | (e & Hr)]
  end.
  2: { rewrite (bind_raise _ _ _ _ _ Hr) in H. injection H as <- <-.
       left. split; [eexists; reflexivity | reflexivity]. }
  rewrite (bind_run _ _ _ _ _ Hr) in H.
  apply insert_meter_inv in Hs. destruct Hs as (cap' & Hcap & Hnew & Hdev & ->).
  cbn [db] in Hnew, Hdev.
  right. exists t, cap'. split; [reflexivity | ].
  repeat (split; [assumption | ]). cbv zeta.
  assert (Hfind :
    List.find (fun m => String.eqb (PowerMeter.id m) (uuid4 W (uuid_calls s)))
      (power_meters (db s) ++
       [PowerMeter.mk (uuid4 W (uuid_calls s)) device_id t f0 f0 cap' f100 name])
    = Some (PowerMeter.mk (uuid4 W (uuid_calls s)) device_id t f0 f0 cap' f100 name)).
  { apply find_appended; [exact Hnew | reflexivity]. }
  destruct (sql_fault W (2 + statements s)) as [msg | ] eqn:Hf.
  - unfold get_meter, bind, with_conn, execute in H.
    cbn [statements db Nat.add] in H. cbn [Nat.add] in Hf. rewrite Hf in H.
    injection H as <- <-. split; [reflexivity | ].
    right. split; [eexists; reflexivity | discriminate].
  - erewrite get_meter_here in H; [ | exact Hf | exact Hfind].
    injection H as <- <-.
    split; [reflexivity | left; reflexivity].
Qed.

(** X11.  What [add_meter] returns can be read back.  When it returns a meter, in
    every world: the meter has the identifier drawn, the device and the name
    given, the type named and the capacity given; the device exists; the
    row is appended to the table, and nothing else is written; [get_meter]
    on its id then returns it whenever it returns, and [list_meters] for its
    device returns the meters listed before followed by it. *)
Theorem add_meter_round_trip (device_id meter_type : string) (cap : float)
    (name : option string) (s s' : Sys) (m : PowerMeter.t) :
  add_meter W device_id meter_type cap name s = (Ok m, s') ->
  PowerMeter.id m = uuid4 W (uuid_calls s) /\
  PowerMeter.device_id m = device_id /\
  MeterType_value (PowerMeter.type m) = meter_type /\
  PowerMeter.name m = name /\
  SFeqb (PowerMeter.capacity_wh m) cap = true /\
  is_Some (devices (db s) !! device_id) /\
  db s' = Sql.set_power_meters (db s) (power_meters (db s) ++ [m]) /\
  (forall (W' : World) (m' : PowerMeter.t) (s'' : Sys),
     get_meter W' (PowerMeter.id m) s' = (Ok m', s'') -> m' = m) /\
  (forall (W' : World) (l : list PowerMeter.t) (s'' : Sys),
     list_meters W' (Some device_id) s' = (Ok l, s'') ->
     l = listed (db s) device_id ++ [m]).
Proof.
  intros H. apply add_meter_cases in H.
  destruct H as [((e & He) & _) | (t & cap' & Ht & Hcap & Hnew & Hdev & H)];
    [discriminate | ].
  cbv zeta in H. destruct H as (Hdb & [Hr | ((e & He) & _)]); [ | discriminate].
  injection Hr as ->.
  cbn [PowerMeter.id PowerMeter.device_id PowerMeter.type PowerMeter.name
       PowerMeter.capacity_wh].
  split; [reflexivity | split; [reflexivity | split; [ | split; [reflexivity | ] ] ] ].
  { unfold MeterType_of_value in Ht. apply find_some in Ht.
    destruct Ht as [_ Ht]. apply String.eqb_eq in Ht. exact Ht. }
  split; [exact (real_eqb _ _ Hcap) | ].
  split; [unfold Sql.has_device in Hdev; apply bool_decide_eq_true in Hdev; exact Hdev | ].
  split; [exact Hdb | split].
  - intros W' m' s'' Hget.
    destruct (get_meter_cases W' (uuid4 W (uuid_calls s)) s')
      as [(m2 & Hfind & Hrun) | (e & Hrun)]; rewrite Hrun in Hget; [ | discriminate].
    injection Hget as <- _. rewrite Hdb in Hfind.
    cbn [power_meters Sql.set_power_meters] in Hfind.
    erewrite find_appended in Hfind; [ | exact Hnew | reflexivity].
    injection Hfind as <-. reflexivity.
  - intros W' l s'' Hlist. apply list_meters_inv in Hlist. rewrite Hlist, Hdb.
    unfold listed. cbn [power_meters Sql.set_power_meters].
    destruct (String.eqb device_id ""); [reflexivity | ].
    rewrite List.filter_app. cbn [List.filter PowerMeter.device_id].
    rewrite String.eqb_refl. reflexivity.
Qed.

(** What a call of [register_device] can have done when it ends. *)
Lemma register_device_cases (device_id name : string) (th : float)
    (target : option float) (s s' : Sys) (res : result DeviceRecord.t) :
  register_device W device_id name th target s = (res, s') ->
  ((exists e, res = Raise e) /\ db s' = db s) \/
  (let d := DeviceRecord.mk device_id name
              (match Sql.real th with Some y => y | None => f3 end)
              (target ≫= Sql.real) in
   db s' = Sql.set_devices (db s) (<[device_id := d]> (devices (db s))) /\
   (res = Ok d \/
    (exists e, res = Raise e) /\ sql_fault W (1 + statements s) <> None)).
Proof.
  intros H. unfold register_device in H.
  destruct (conn_execute_cases W
              (Sql.insert_or_replace_device device_id name th target) s)
    as [(a & d1 & _ & Hs & Hr) | (e & Hr)].
  2: { rewrite (bind_raise _ _ _ _ _ Hr) in H. injection H as <- <-.
       left. split; [eexists; reflexivity | reflexivity]. }
  rewrite (bind_run _ _ _ _ _ Hr) in H.
  unfold Sql.insert_or_replace_device in Hs. injection Hs as _ <-.
  right. cbv zeta.
  destruct (sql_fault W (1 + statements s)) as [msg | ] eqn:Hf.
  - unfold get_device, bind, with_conn, execute in H.
    cbn [statements db Nat.add] in H. cbn [Nat.add] in Hf. rewrite Hf in H.
    injection H as <- <-. split; [reflexivity | ].
    right. split; [eexists; reflexivity | discriminate].
  - erewrite get_device_here in H; [ | exact Hf | ].
    2: { cbn [db devices Sql.set_devices]. apply lookup_insert_eq. }
    injection H as <- <-. split; [reflexivity | left; reflexivity].
Qed.

(** X12.  The methods that write and then read back are not all-or-nothing.  In
    every world, when [register_device] or [add_meter] raises, either the
    database is as it was, or the row has been committed and it is the
    read-back ([get_device], [get_meter]) that the engine refused.
    [trigger_event], which reads nothing back, has changed nothing when it
    raises. *)
Theorem read_back_failure_keeps_the_write :
  (forall (device_id name : string) (th : float) (target : option float)
          (s s' : Sys) (e : Exc),
     register_device W device_id name th target s = (Raise e, s') ->
     db s' = db s \/
     (sql_fault W (1 + statements s) <> None /\
      exists d, DeviceRecord.id d = device_id /\ DeviceRecord.name d = name /\
                db s' = Sql.set_devices (db s) (<[device_id := d]> (devices (db s))))) /\
  (forall (device_id meter_type : string) (cap : float) (name : option string)
          (s s' : Sys) (e : Exc),
     add_meter W device_id meter_type cap name s = (Raise e, s') ->
     db s' = db s \/
     (sql_fault W (2 + statements s) <> None /\
      exists m, PowerMeter.id m = uuid4 W (uuid_calls s) /\
                PowerMeter.device_id m = device_id /\
                db s' = Sql.set_power_meters (db s) (power_meters (db s) ++ [m]))) /\
  (forall (device_id event_type : string) (value : float) (note : option string)
          (s s' : Sys) (e : Exc),
     trigger_event W device_id event_type value note s = (Raise e, s') ->
     db s' = db s).
Proof.
  split; [ | split].
  - intros device_id name th target s s' e H. apply register_device_cases in H.
    destruct H as [(_ & Hdb) | H]; [left; exact Hdb | ].
    cbv zeta in H. destruct H as (Hdb & [Hr | (_ & Hf)]); [discriminate | ].
    right. split; [exact Hf | ]. eexists. split; [ | split; [ | exact Hdb] ]; reflexivity.
  - intros device_id meter_type cap name s s' e H. apply add_meter_cases in H.
    destruct H as [(_ & Hdb) | (t & cap' & _ & _ & _ & _ & H)]; [left; exact Hdb | ].
    cbv zeta in H. destruct H as (Hdb & [Hr | (_ & Hf)]); [discriminate | ].
    right. split; [exact Hf | ]. eexists. split; [ | split; [ | exact Hdb] ]; reflexivity.
  - intros device_id event_type value note s s' e H.
    destruct (trigger_event_cases W device_id event_type value note s)
      as [(etype & stored & ev & s1 & Hrun & _) | (e1 & s1 & Hrun & Hdb)];
      rewrite Hrun in H; [discriminate | ].
    injection H as _ <-. exact Hdb.
Qed.
End ReadBack.

(** A solar meter added to the fixture's device is read back, and listed
    after the battery. *)
Lemma add_meter_round_trip_witness :
  exists m s' l s'',
    PowerManager.add_meter Scenario.quiet "dev-001" "solar" f0 (Some "Solar Panel")
      Scenario.with_battery = (Ok m, s') /\
    PowerManager.list_meters Scenario.quiet (Some "dev-001") s' = (Ok l, s'') /\
    l = [Scenario.battery; m].
Proof.
  destruct (PowerManager.add_meter Scenario.quiet "dev-001" "solar" f0
              (Some "Solar Panel") Scenario.with_battery)
    as [[m | e] s'] eqn:E; [ | vm_compute in E; discriminate].
  destruct (PowerManager.list_meters Scenario.quiet (Some "dev-001") s')
    as [[l | e] s''] eqn:E'.
  - exists m, s', l, s''. split; [reflexivity | split; [exact E' | ] ].
    rewrite (proj2 (proj2 (proj2 (proj2 (proj2 (proj2 (proj2 (proj2
               (add_meter_round_trip _ _ _ _ _ _ _ _ E)))))))) _ _ _ E').
    reflexivity.
  - vm_compute in E. injection E as <- <-. vm_compute in E'. discriminate.
Defined.

(** With the engine refusing the read-back, [add_meter] on the fixture
    raises and the solar meter is in the table all the same. *)
Lemma read_back_failure_keeps_the_write_witness :
  exists e s',
    PowerManager.add_meter (Scenario.faulty 7) "dev-001" "solar" f0 None
      Scenario.with_battery = (Raise e, s') /\
    length (power_meters (db s')) = 2%nat.
Proof.
  destruct (PowerManager.add_meter (Scenario.faulty 7) "dev-001" "solar" f0 None
              Scenario.with_battery)
    as [[m | e] s'] eqn:E; [vm_compute in E; discriminate | ].
  exists e, s'. split; [reflexivity | ].
  destruct (proj1 (proj2 (read_back_failure_keeps_the_write (Scenario.faulty 7)))
              _ _ _ _ _ _ _ E) as [Hdb | (_ & m & _ & _ & Hdb)].
  - vm_compute in E. injection E as _ <-. vm_compute in Hdb. discriminate.
  - rewrite Hdb. cbn [power_meters Sql.set_power_meters]. rewrite length_app.
    reflexivity.
Defined.

(** ** What the two listings return *)

Section SortedLists.
Context {A : Type}.

Lemma sorted_app_inv (R : A -> A -> Prop) (l1 l2 : list A) :
  StronglySorted R (l1 ++ l2) ->
  forall x y, In x l1 -> In y l2 -> R x y.
Proof.
  induction l1 as [ | a l1 IH]; cbn [app]; intros H x y Hx Hy; [destruct Hx | ].
  inversion H as [ | a' l' Hs Hall]; subst.
  destruct Hx as [<- | Hx].
  - rewrite List.Forall_forall in Hall. apply Hall, in_or_app. right. exact Hy.
  - exact (IH Hs x y Hx Hy).
Qed.

Lemma limit_in (n : Z) (l : list A) (x : A) : In x (Sql.limit n l) -> In x l.
Proof.
  unfold Sql.limit. destruct (n <? 0); [auto | ].
  intros H. rewrite <- (firstn_skipn (Z.to_nat n) l). apply in_or_app. left. exact H.
Qed.

(** The rows a limit leaves out come after the rows it keeps. *)
Lemma limit_keeps_first (R : A -> A -> Prop) (n : Z) (l : list A) :
  StronglySorted R l ->
  forall x y, In x (Sql.limit n l) -> In y l -> ~ In y (Sql.limit n l) -> R x y.
Proof.
  unfold Sql.limit. intros Hs x y Hx Hy Hout. destruct (n <? 0); [contradiction | ].
  rewrite <- (firstn_skipn (Z.to_nat n) l) in Hs, Hy.
  apply in_app_or in Hy. destruct Hy as [Hy | Hy]; [contradiction | ].
  exact (sorted_app_inv R _ _ Hs x y Hx Hy).
Qed.
End SortedLists.

Section Listings.
Import PowerManager.
Context (W : World).

(** X13.  [get_history] and [get_events] return rows of the database and nothing
    else.  In every world, what [get_history] returns is a rearrangement of
    the readings of the meter whose timestamp is in the window: each of
    them once, and no other row.  What [get_events] returns are events of
    the device; with a limit [>= 0] there are [min(limit, n)] of them for
    the [n] events of the device, with a negative limit all [n]; and an
    event of the device that is left out is not more recent than any event
    returned. *)
Theorem listings_are_exact :
  (forall (meter_id : string) (hours : Z) (s s' : Sys) (l : list PowerReading.t),
     get_history W meter_id hours s = (Ok l, s') ->
     Permutation l
       (List.filter
          (fun r => String.eqb (PowerReading.meter_id r) meter_id
                    && (utcnow W (clock_calls s) - timedelta_hours hours
                        <=? PowerReading.timestamp r))
          (power_readings (db s))) /\
     forall row,
       In row l ->
       In row (power_readings (db s)) /\ PowerReading.meter_id row = meter_id /\
       utcnow W (clock_calls s) - timedelta_hours hours <= PowerReading.timestamp row) /\
  (forall (device_id : string) (limit : Z) (s s' : Sys) (l : list PowerEvent.t),
     get_events W device_id limit s = (Ok l, s') ->
     let recorded :=
       List.filter (fun e => String.eqb (PowerEvent.device_id e) device_id)
         (power_events (db s)) in
     (forall e, In e l ->
        In e (power_events (db s)) /\ PowerEvent.device_id e = device_id) /\
     (0 <= limit -> length l = Nat.min (Z.to_nat limit) (length recorded)) /\
     (limit < 0 -> length l = length recorded) /\
     (forall e e',
        In e l -> In e' (power_events (db s)) -> PowerEvent.device_id e' = device_id ->
        ~ In e' l -> PowerEvent.timestamp e' <= PowerEvent.timestamp e)).
Proof.
  split.
  - intros meter_id hours s s' l H.
    destruct (get_history_cases W meter_id hours s) as [(_ & Hrun) | (e & s1 & _ & Hrun)];
      rewrite Hrun in H; [ | discriminate].
    injection H as <- _.
    split; [apply index_scan_perm | ].
    intros row Hin.
    apply (Permutation_in _ (index_scan_perm PowerReading.timestamp _)) in Hin.
    apply filter_In in Hin. destruct Hin as [Hin Hb].
    apply andb_true_iff in Hb. destruct Hb as [Hm Ht].
    apply String.eqb_eq in Hm. apply Z.leb_le in Ht. auto.
  - intros device_id limit s s' l H.
    destruct (get_events_cases W device_id limit s) as [(_ & Hrun) | (e & s1 & _ & Hrun)];
      rewrite Hrun in H; [ | discriminate].
    injection H as <- _. cbv zeta.
    set (recorded := List.filter (fun e => String.eqb (PowerEvent.device_id e) device_id)
                       (power_events (db s))).
    assert (Hlen : length (rev (Sql.index_scan PowerEvent.timestamp recorded))
                   = length recorded).
    { rewrite length_rev.
      apply Permutation_length, index_scan_perm. }
    assert (Hin : forall e, In e (rev (Sql.index_scan PowerEvent.timestamp recorded)) <->
                            In e recorded).
    { intros e. rewrite <- in_rev. split; apply Permutation_in;
        [ | apply Permutation_sym]; apply index_scan_perm. }
    split; [ | split; [ | split] ].
    + intros e He. apply limit_in, Hin, filter_In in He. destruct He as [He Hd].
      apply String.eqb_eq in Hd. auto.
    + intros Hpos. rewrite limit_length by exact Hpos. rewrite Hlen. reflexivity.
    + intros Hneg. rewrite limit_all by (left; exact Hneg). exact Hlen.
    + intros e e' He He' Hd Hout.
      apply (limit_keeps_first
               (fun a b => PowerEvent.timestamp b <= PowerEvent.timestamp a) limit
               (rev (Sql.index_scan PowerEvent.timestamp recorded))).
      * apply rev_sorted, index_scan_sorted.
      * exact He.
      * apply Hin, filter_In. split; [exact He' | ]. apply String.eqb_eq. exact Hd.
      * exact Hout.
Qed.
End Listings.

(** Of the 201 events of the fixture's device, [get_events] with the limit
    50 returns 50. *)
Lemma listings_are_exact_witness :
  exists l s',
    PowerManager.get_events Scenario.quiet "dev-001" 50 Scenario.many_events = (Ok l, s') /\
    length l = 50%nat.
Proof.
  destruct (PowerManager.get_events Scenario.quiet "dev-001" 50 Scenario.many_events)
    as [[l | e] s'] eqn:E; [ | vm_compute in E; discriminate].
  exists l, s'. split; [reflexivity | ].
  rewrite (proj1 (proj2 (proj2 (listings_are_exact Scenario.quiet) _ _ _ _ _ E))
             ltac:(lia)).
  vm_compute. reflexivity.
Defined.

(** ** The meters of a report *)

Section ReportMeters.
Import PowerManager.
Context (W : World).

Lemma meter_report_id (m : PowerMeter.t) (readings : list PowerReading.t) :
  report_meter_id (meter_report m readings) = PowerMeter.id m.
Proof. destruct readings; reflexivity. Qed.

Lemma meter_report_count (m : PowerMeter.t) (readings : list PowerReading.t) :
  report_reading_count (meter_report m readings) = length readings.
Proof. destruct readings; reflexivity. Qed.

(** The loop of [export_report] adds one element for each meter, computed
    from the history of the meter at the time it is queried. *)
Lemma report_meters_loop_inv (days : Z) (d : Store) (c0 : nat)
    (meters : list PowerMeter.t) :
  forall (acc : list MeterReport) (s s' : Sys) (r : list MeterReport),
    db s = d -> (c0 <= clock_calls s)%nat ->
    report_meters_loop W days meters acc s = (Ok r, s') ->
    exists es,
      r = acc ++ es /\
      Forall2 (fun m e =>
                 exists tick, (c0 <= tick)%nat /\
                   e = meter_report m
                         (history_of d (PowerMeter.id m)
                            (utcnow W tick - timedelta_hours (days * 24))))
        meters es.
Proof.
  induction meters as [ | m rest IH]; intros acc s s' r Hd Hc H;
    cbn [report_meters_loop] in H.
  - injection H as <- _. exists []. split; [symmetry; apply app_nil_r | constructor].
  - destruct (get_history_cases W (PowerMeter.id m) (days * 24) s)
      as [(_ & Hrun) | (e & s1 & _ & Hrun)].
    2: { rewrite (bind_raise _ _ _ _ _ Hrun) in H. discriminate. }
    rewrite (bind_run _ _ _ _ _ Hrun) in H.
    apply IH in H; [ | exact Hd | cbn [clock_calls]; lia].
    destruct H as (es & Hr & Hall).
    eexists (_ :: es). split; [rewrite Hr, <- app_assoc; reflexivity | ].
    constructor; [ | exact Hall].
    exists (clock_calls s). split; [exact Hc | ].
    unfold history_of. rewrite Hd. reflexivity.
Qed.

(** X14.  The meters section of a report.  When [export_report] returns, in every
    world: the report is for the device and the period asked, and stamped
    with the first instant read; nothing is written; and [report["meters"]]
    has one element for each meter [list_meters] gives for the device, in
    that order, with the id of the meter, built from the readings of the
    meter in the [days * 24] hours before an instant read later, of which
    [reading_count] is the number. *)
Theorem export_report_meters (device_id : string) (days : Z) (s s' : Sys)
    (rep : Report) :
  export_report W device_id days s = (Ok rep, s') ->
  report_device_id rep = device_id /\ period_days rep = days /\
  generated_at rep = utcnow W (clock_calls s) /\
  db s' = db s /\
  List.map report_meter_id (report_meters rep)
  = List.map PowerMeter.id (listed (db s) device_id) /\
  Forall2 (fun m e =>
             exists tick, (clock_calls s < tick)%nat /\
               let readings :=
                 history_of (db s) (PowerMeter.id m)
                   (utcnow W tick - timedelta_hours (days * 24)) in
               e = meter_report m readings /\
               report_reading_count e = length readings)
    (listed (db s) device_id) (report_meters rep).
Proof.
  intros H.
  assert (Hdb : db s' = db s).
  { pose proof (preserves_export_report W (fun x => x = db s) device_id days s eq_refl)
      as P. rewrite H in P. exact P. }
  unfold export_report in H.
  apply bind_inv in H. destruct H as (d & s1 & H1 & H).
  apply bind_inv in H. destruct H as (meters & s2 & H2 & H).
  apply bind_inv in H. destruct H as (generated & s3 & H3 & H).
  apply bind_inv in H. destruct H as (reports & s4 & H4 & H).
  apply bind_inv in H. destruct H as (events & s5 & H5 & H).
  injection H as <- _. cbn [report_device_id period_days generated_at report_meters].
  destruct (get_device_cases W device_id s) as [(d' & Hd & E) | (e & E)];
    rewrite E in H1; [ | discriminate].
  injection H1 as _ <-.
  pose proof (list_meters_inv W _ _ _ _ H2) as Hm. cbn [db after_statements] in Hm.
  assert (Hs2 : db s2 = db s /\ clock_calls s2 = clock_calls s).
  { unfold list_meters in H2.
    match type of H2 with
    | with_conn (execute W ?st) ?s0 = _ =>
        destruct (conn_execute_cases W st s0) as [(a & d1 & _ & Hs & Hr) | (e & Hr)]
    end; rewrite Hr in H2; [ | discriminate].
    injection H2 as _ <-. unfold Sql.select_meters in Hs. injection Hs as _ <-.
    split; reflexivity. }
  destruct Hs2 as [Hd2 Hc2].
  unfold now_utc in H3. injection H3 as <- <-.
  apply (report_meters_loop_inv days (db s) (S (clock_calls s))) in H4;
    [ | cbn [db]; exact Hd2 | cbn [clock_calls]; lia].
  destruct H4 as (es & Hr & Hall). cbn [app] in Hr. subst reports meters.
  split; [reflexivity | split; [reflexivity | split; [rewrite Hc2; reflexivity | ] ] ].
  split; [exact Hdb | ].
  clear - Hall. induction Hall as [ | m e ms es (tick & Ht & He) Hrest [IH1 IH2] ].
  - split; constructor.
  - split; cbn [List.map].
    + rewrite IH1, He, meter_report_id. reflexivity.
    + constructor; [ | exact IH2].
      exists tick. split; [lia | ]. cbv zeta.
      split; [exact He | rewrite He; apply meter_report_count].
Qed.
End ReportMeters.

(** The report of the fixture's device has one element, for the battery,
    with its one reading. *)
Lemma export_report_meters_witness :
  exists rep s',
    PowerManager.export_report Scenario.quiet "dev-001" 1 Scenario.with_reading
    = (Ok rep, s') /\
    List.map report_meter_id (report_meters rep) = ["uuid-0"] /\
    List.map report_reading_count (report_meters rep) = [1%nat].
Proof.
  destruct (PowerManager.export_report Scenario.quiet "dev-001" 1 Scenario.with_reading)
    as [[rep | e] s'] eqn:E; [ | vm_compute in E; discriminate].
  exists rep, s'. split; [reflexivity | ].
  split.
  - rewrite (proj1 (proj2 (proj2 (proj2 (proj2
               (export_report_meters Scenario.quiet _ _ _ _ _ E)))))).
    vm_compute. reflexivity.
  - vm_compute in E. injection E as <- _. reflexivity.
Defined.

(** ** The budget of a batch of devices *)

Section BudgetEntries.
Import PowerManager.
Context (W : World).

Lemma estimate_runtime_inv (device_id : string) (s s' : Sys) (x : option float) :
  estimate_runtime W device_id s = (Ok x, s') ->
  x = runtime_of (listed (db s) device_id).
Proof.
  intros H. unfold estimate_runtime in H.
  apply bind_inv in H. destruct H as (meters & s1 & Hl & H).
  apply list_meters_inv in Hl. subst meters.
  unfold runtime_of.
  change (fun m => MeterType_eqb (PowerMeter.type m) BATTERY
                   && Binary64.gtb (PowerMeter.current_draw m) f0)
    with drawing_battery in H.
  destruct (List.filter drawing_battery (listed (db s) device_id)) as [ | bm rest].
  - injection H as <- _. reflexivity.
  - destruct (Binary64.leb (PowerMeter.wattage bm) f0); injection H as <- _; reflexivity.
Qed.

(** One entry of the result, in every world: [budget_entry] returns, writes
    nothing, and a result object is the one of an existing device. *)
Lemma budget_entry_inv (dev_id : string) (s : Sys) :
  exists entry s',
    budget_entry W dev_id s = (Ok entry, s') /\ db s' = db s /\
    forall b, entry = BudgetResult b ->
      is_Some (devices (db s) !! dev_id) /\
      b = budget_of (listed (db s) dev_id) (runtime_of (listed (db s) dev_id)).
Proof.
  destruct (budget_entry_returns W dev_id s) as (entry & s' & E).
  exists entry, s'. split; [exact E | ].
  split.
  { pose proof (preserves_budget_entry W (fun x => x = db s) dev_id s eq_refl) as P.
    rewrite E in P. exact P. }
  intros b ->. unfold budget_entry, try_except in E.
  match type of E with
  | match ?body s with _ => _ end = _ => destruct (body s) as [[a | e] s1] eqn:Hbody
  end.
  2: { unfold ret in E. discriminate. }
  injection E as -> ->.
  apply bind_inv in Hbody. destruct Hbody as (d & s2 & H1 & H).
  apply bind_inv in H. destruct H as (meters & s3 & H2 & H).
  apply bind_inv in H. destruct H as (runtime & s4 & H3 & H).
  injection H as <- _.
  destruct (get_device_cases W dev_id s) as [(d' & Hd & E1) | (e & E1)];
    rewrite E1 in H1; [ | discriminate].
  injection H1 as _ <-.
  assert (Hdb3 : db s3 = db s).
  { pose proof (preserves_list_meters W (fun x => x = db s) (Some dev_id)
                  (after_statements 1 s) eq_refl) as P.
    rewrite H2 in P. exact P. }
  apply list_meters_inv in H2. apply estimate_runtime_inv in H3.
  cbn [db after_statements] in H2. rewrite Hdb3 in H3. subst meters runtime.
  split; [eexists; exact Hd | reflexivity].
Qed.

Lemma power_budget_loop_inv (device_ids : list string) :
  forall (results : gmap string BudgetEntry) (s : Sys),
  exists r s',
    power_budget_loop W device_ids results s = (Ok r, s') /\ db s' = db s /\
    (forall id, is_Some (r !! id) <-> In id device_ids \/ is_Some (results !! id)) /\
    (forall id b,
       r !! id = Some (BudgetResult b) ->
       results !! id = Some (BudgetResult b) \/
       (In id device_ids /\ is_Some (devices (db s) !! id) /\
        b = budget_of (listed (db s) id) (runtime_of (listed (db s) id)))).
Proof.
  induction device_ids as [ | k rest IH]; intros results s; cbn [power_budget_loop].
  - exists results, s. split; [reflexivity | split; [reflexivity | split] ].
    + intros id. split; [intros H; right; exact H | intros [ [] | H]; exact H].
    + intros id b H. left. exact H.
  - destruct (budget_entry_inv k s) as (entry & s1 & E & Hdb & Hentry).
    rewrite (bind_run _ _ _ _ _ E).
    destruct (IH (<[k := entry]> results) s1) as (r & s' & Hr & Hdb' & Hdom & Hres).
    exists r, s'. split; [exact Hr | split; [congruence | split] ].
    + intros id. rewrite Hdom. cbn [In].
      destruct (decide (k = id)) as [<- | Hne].
      * rewrite lookup_insert_eq. split; [intros _; left; left; reflexivity | ].
        intros _. right. eexists. reflexivity.
      * rewrite lookup_insert_ne by exact Hne. tauto.
    + intros id b Hb. destruct (Hres id b Hb) as [Hold | (Hin & Hdev & Hval)].
      * destruct (decide (k = id)) as [<- | Hne].
        -- rewrite lookup_insert_eq in Hold. injection Hold as ->.
           right. split; [left; reflexivity | exact (Hentry b eq_refl)].
        -- rewrite lookup_insert_ne in Hold by exact Hne. left. exact Hold.
      * right. rewrite Hdb in Hdev, Hval. split; [right; exact Hin | auto].
Qed.

(** X15.  [power_budget_check] never raises and never writes.  In every world it
    returns a dictionary whose keys are exactly the ids given.  A result
    object stands only under the id of a device that exists, and holds the
    figures of the meters [list_meters] gives for that id; an id that names
    no device always has an error descriptor. *)
Theorem power_budget_check_never_raises (device_ids : list string) (s : Sys) :
  exists results s',
    power_budget_check W device_ids s = (Ok results, s') /\
    db s' = db s /\
    (forall id, is_Some (results !! id) <-> In id device_ids) /\
    (forall id b,
       results !! id = Some (BudgetResult b) ->
       is_Some (devices (db s) !! id) /\
       b = budget_of (listed (db s) id) (runtime_of (listed (db s) id))) /\
    (forall id,
       In id device_ids -> devices (db s) !! id = None ->
       exists error, results !! id = Some (BudgetError error)).
Proof.
  destruct (power_budget_loop_inv device_ids ∅ s) as (r & s' & E & Hdb & Hdom & Hres).
  assert (Hres' : forall id b,
            r !! id = Some (BudgetResult b) ->
            is_Some (devices (db s) !! id) /\
            b = budget_of (listed (db s) id) (runtime_of (listed (db s) id))).
  { intros id b Hb. destruct (Hres id b Hb) as [Hold | (_ & Hdev & Hval)]; [ | auto].
    rewrite lookup_empty in Hold. discriminate. }
  exists r, s'. split; [exact E | split; [exact Hdb | split; [ | split] ] ].
  - intros id. rewrite Hdom. split; [ | intros H; left; exact H].
    intros [H | H]; [exact H | ]. rewrite lookup_empty in H. destruct H. discriminate.
  - exact Hres'.
  - intros id Hin Hnone.
    assert (Hsome : is_Some (r !! id)) by (apply Hdom; left; exact Hin).
    destruct Hsome as [[b | error] Hentry].
    + destruct (Hres' id b Hentry) as [[d Hd] _]. congruence.
    + exists error. exact Hentry.
Qed.
End BudgetEntries.

(** The fixture's device and an id that names none: both have an entry,
    and the entry of the second is an error descriptor. *)
Lemma power_budget_check_never_raises_witness :
  exists results s' error,
    PowerManager.power_budget_check Scenario.quiet ["dev-001"; "nonexistent"]
      Scenario.with_reading = (Ok results, s') /\
    is_Some (results !! "dev-001") /\
    results !! "nonexistent" = Some (BudgetError error).
Proof.
  destruct (power_budget_check_never_raises Scenario.quiet ["dev-001"; "nonexistent"]
              Scenario.with_reading) as (results & s' & E & _ & Hdom & _ & Herr).
  destruct (Herr "nonexistent" ltac:(right; left; reflexivity)
              ltac:(vm_compute; reflexivity)) as [error Herror].
  exists results, s', error. split; [exact E | split; [ | exact Herror] ].
  apply Hdom. left. reflexivity.
Defined.

(** The fixture's battery: 50 Wh at 80 % over 24 W, that is 1.67 hours. *)
Lemma estimate_runtime_of_device_witness :
  fst (PowerManager.estimate_runtime Scenario.quiet "dev-001" Scenario.with_reading)
  = Ok (Some (Binary64.of_decimal false 167 2)).
Proof.
  destruct (estimate_runtime_of_device Scenario.quiet ltac:(intros n; reflexivity)
              "dev-001" Scenario.with_reading ltac:(discriminate))
    as (s' & _ & _ & H).
  rewrite (H (Sql.set_live (Binary64.of_Z 12) (Binary64.of_Z 2) (Binary64.of_Z 80)
                Scenario.battery) []
             ltac:(vm_compute; reflexivity) ltac:(vm_compute; reflexivity)).
  vm_compute. reflexivity.
Defined.

(** ** Events *)

Section Events.
Import PowerManager.
Context (W : World).

(** X17.  [trigger_event] appends one event.  When it returns, in every world:
    the event returned has the identifier drawn, the device, the value and
    the note given, the type named and the instant read; the device exists;
    one row is appended to the events, equal to the event returned (its
    value as the column keeps it), and nothing else is written. *)
Theorem trigger_event_appends_one (device_id event_type : string) (value : float)
    (note : option string) (s s' : Sys) (ev : PowerEvent.t) :
  trigger_event W device_id event_type value note s = (Ok ev, s') ->
  PowerEvent.id ev = uuid4 W (uuid_calls s) /\
  PowerEvent.device_id ev = device_id /\
  PowerEventType_value (PowerEvent.type ev) = event_type /\
  PowerEvent.value ev = value /\
  PowerEvent.timestamp ev = utcnow W (clock_calls s) /\
  PowerEvent.note ev = note /\
  is_Some (devices (db s) !! device_id) /\
  devices (db s') = devices (db s) /\
  power_meters (db s') = power_meters (db s) /\
  power_readings (db s') = power_readings (db s) /\
  exists row,
    power_events (db s') = power_events (db s) ++ [row] /\
    PowerEvent.id row = PowerEvent.id ev /\
    PowerEvent.device_id row = device_id /\
    PowerEvent.type row = PowerEvent.type ev /\
    SFeqb (PowerEvent.value row) value = true /\
    PowerEvent.timestamp row = PowerEvent.timestamp ev /\
    PowerEvent.note row = note.
Proof.
  intros H.
  assert (Hdev : is_Some (devices (db s) !! device_id)).
  { destruct (get_device_cases W device_id s) as [(d & Hd & _) | (e & Hrun)].
    - eexists. exact Hd.
    - unfold trigger_event in H. rewrite (bind_raise _ _ _ _ _ Hrun) in H.
      discriminate. }
  destruct (trigger_event_cases W device_id event_type value note s)
    as [(etype & stored & ev' & s1 & Hrun & Hty & Hval & Hev & Hdb)
       | (e1 & s1 & Hrun & _)];
    rewrite Hrun in H; [ | discriminate].
  injection H as <- <-. subst ev'.
  cbn [PowerEvent.id PowerEvent.device_id PowerEvent.type PowerEvent.value
       PowerEvent.timestamp PowerEvent.note].
  split; [reflexivity | split; [reflexivity | split] ].
  { unfold PowerEventType_of_value in Hty. apply find_some in Hty.
    destruct Hty as [_ Hty]. apply String.eqb_eq in Hty. exact Hty. }
  split; [reflexivity | split; [reflexivity | split; [reflexivity | ] ] ].
  split; [exact Hdev | ]. rewrite Hdb.
  split; [reflexivity | split; [reflexivity | split; [reflexivity | ] ] ].
  eexists. split; [reflexivity | ].
  cbn [PowerEvent.id PowerEvent.device_id PowerEvent.type PowerEvent.value
       PowerEvent.timestamp PowerEvent.note].
  split; [reflexivity | split; [reflexivity | split; [reflexivity | ] ] ].
  split; [exact (real_eqb _ _ Hval) | split; reflexivity].
Qed.

(** The events of the database after [log_power] has returned. *)
Lemma log_power_events (meter_id : string) (v c : float) (charge_pct : option float)
    (s s' : Sys) (r : PowerReading.t) :
  log_power W meter_id v c charge_pct s = (Ok r, s') ->
  exists m,
    List.find (fun m => String.eqb (PowerMeter.id m) meter_id) (power_meters (db s))
      = Some m /\
    power_events (db s')
    = power_events (db s) ++
      match auto_event (PowerMeter.type m) (PowerReading.charge_pct r) with
      | Some t => [PowerEvent.mk (uuid4 W (S (uuid_calls s))) (PowerMeter.device_id m) t
                     (PowerReading.charge_pct r) (utcnow W (S (clock_calls s))) None]
      | None => []
      end.
Proof.
  intros H. apply log_power_cases in H.
  destruct H as [(e & H & _) | (m & v' & c' & w' & Hfind & _ & _ & _ & _ & H)];
    [discriminate | ].
  exists m. split; [exact Hfind | ]. cbv zeta in H.
  destruct H as [(Hr & Ha & Hdb) | (etype & Ha & [(Hr & Hdb) | (e & Hr & _)])];
    try discriminate;
    injection Hr as ->; rewrite Hdb; cbn [PowerReading.charge_pct]; rewrite Ha.
  - cbn [logged power_events]. symmetry. apply app_nil_r.
  - reflexivity.
Qed.

(** X18.  The automatic event of [log_power] follows the state of the meter.
    When [log_power] returns, in every world, the meter named is left in a
    state: if it is a battery in the state CRITICAL, one [low_battery] event
    has been appended for its device, carrying its charge; if it is a
    battery in the state LOW, one [discharge] event; in every other case
    the events are as they were. *)
Theorem auto_event_follows_state (meter_id : string) (v c : float)
    (charge_pct : option float) (s s' : Sys) (r : PowerReading.t) :
  log_power W meter_id v c charge_pct s = (Ok r, s') ->
  exists m',
    List.find (fun m => String.eqb (PowerMeter.id m) meter_id) (power_meters (db s'))
      = Some m' /\
    let event (t : PowerEventType) :=
      PowerEvent.mk (uuid4 W (S (uuid_calls s))) (PowerMeter.device_id m') t
        (PowerMeter.charge_pct m') (utcnow W (S (clock_calls s))) None in
    power_events (db s')
    = power_events (db s) ++
      match PowerMeter.type m', PowerMeter.state m' with
      | BATTERY, CRITICAL => [event LOW_BATTERY]
      | BATTERY, LOW => [event DISCHARGE]
      | _, _ => []
      end.
Proof.
  intros H.
  destruct (log_power_meters _ _ _ _ _ _ _ _ H)
    as (m & v' & c' & w' & Hfind & _ & _ & _ & _ & _ & Hmeters).
  destruct (log_power_events _ _ _ _ _ _ _ H) as (m0 & Hfind0 & Hev).
  rewrite Hfind in Hfind0. injection Hfind0 as <-.
  exists (Sql.set_live v' c' (PowerReading.charge_pct r) m).
  split; [rewrite Hmeters; apply find_logged; exact Hfind | ].
  cbv zeta. rewrite Hev. f_equal.
  unfold auto_event, PowerMeter.state.
  cbn [Sql.set_live PowerMeter.type PowerMeter.charge_pct PowerMeter.device_id].
  destruct (PowerMeter.type m); cbn [MeterType_eqb]; try reflexivity.
  destruct (Binary64.leb (PowerReading.charge_pct r) CRITICAL_BATTERY_THRESHOLD);
    [reflexivity | ].
  destruct (Binary64.leb (PowerReading.charge_pct r) LOW_BATTERY_THRESHOLD);
    [reflexivity | ].
  destruct (Binary64.geb (PowerReading.charge_pct r) f95); reflexivity.
Qed.
End Events.

(** The test-suite's [trigger_event(dev-001, "charge_start", value=85.0)]. *)
Lemma trigger_event_appends_one_witness :
  exists ev s',
    PowerManager.trigger_event Scenario.quiet "dev-001" "charge_start"
      (Binary64.of_Z 85) None Scenario.with_battery = (Ok ev, s') /\
    PowerEvent.type ev = CHARGE_START /\
    length (power_events (db s')) = 1%nat.
Proof.
  destruct (PowerManager.trigger_event Scenario.quiet "dev-001" "charge_start"
              (Binary64.of_Z 85) None Scenario.with_battery)
    as [[ev | e] s'] eqn:E; [ | vm_compute in E; discriminate].
  exists ev, s'. split; [reflexivity | ].
  destruct (trigger_event_appends_one Scenario.quiet _ _ _ _ _ _ _ E)
    as (_ & _ & Hty & _ & _ & _ & _ & _ & _ & _ & row & Hrows & _).
  split.
  - destruct (PowerEvent.type ev); try reflexivity; vm_compute in Hty; discriminate.
  - rewrite Hrows. reflexivity.
Defined.

(** The test-suite's [log_power(uuid-0, 3.2, 0.5, charge_pct=4.0)] (3.2 taken
    as 3.25 here): the battery is CRITICAL and a [low_battery] event is
    there. *)
Lemma auto_event_follows_state_witness :
  exists r s' m' ev,
    PowerManager.log_power Scenario.quiet "uuid-0" (Binary64.of_dyadic 13 (-2))
      (Binary64.of_dyadic 1 (-1)) (Some (Binary64.of_Z 4)) Scenario.with_battery
    = (Ok r, s') /\
    List.find (fun m => String.eqb (PowerMeter.id m) "uuid-0") (power_meters (db s'))
      = Some m' /\
    PowerMeter.state m' = CRITICAL /\
    power_events (db s') = [ev] /\ PowerEvent.type ev = LOW_BATTERY.
Proof.
  destruct (PowerManager.log_power Scenario.quiet "uuid-0" (Binary64.of_dyadic 13 (-2))
              (Binary64.of_dyadic 1 (-1)) (Some (Binary64.of_Z 4)) Scenario.with_battery)
    as [[r | e] s'] eqn:E; [ | vm_compute in E; discriminate].
  destruct (auto_event_follows_state Scenario.quiet _ _ _ _ _ _ _ E)
    as (m' & Hm' & Hev).
  cbv zeta in Hev.
  assert (Hfound : List.find (fun m => String.eqb (PowerMeter.id m) "uuid-0")
                     (power_meters (db s'))
                   = Some (Sql.set_live (Binary64.of_dyadic 13 (-2))
                             (Binary64.of_dyadic 1 (-1)) (Binary64.of_Z 4)
                             Scenario.battery)).
  { vm_compute in E. injection E as _ <-. vm_compute. reflexivity. }
  rewrite Hfound in Hm'. injection Hm' as <-.
  eexists r, s', _, _. split; [reflexivity | split; [exact Hfound | ] ].
  split; [vm_compute; reflexivity | ].
  split; [rewrite Hev; vm_compute; reflexivity | reflexivity].
Defined.

(** ** Nothing is deleted *)

Section Growth.
Import PowerManager.
Context (W : World).

Lemma grows_refl (d : Store) : grows d d.
Proof.
  split; [auto | split; [ | split] ]; exists []; symmetry; apply app_nil_r.
Qed.

Lemma grows_trans (d1 d2 d3 : Store) : grows d1 d2 -> grows d2 d3 -> grows d1 d3.
Proof.
  intros (Hd & [m Hm] & [r Hr] & [e He]) (Hd' & [m' Hm'] & [r' Hr'] & [e' He']).
  split; [auto | split; [ | split] ].
  - exists (m ++ m'). rewrite Hm', Hm, app_assoc. reflexivity.
  - exists (r ++ r'). rewrite Hr', Hr, app_assoc. reflexivity.
  - exists (e ++ e'). rewrite He', He, app_assoc. reflexivity.
Qed.

Lemma grows_keeps {A : Type} (stmt : Store -> result (A * Store)) :
  (forall d a d', stmt d = Ok (a, d') -> grows d d') ->
  forall d0, keeps (grows d0) stmt.
Proof. intros H d0 d a d' H0 E. exact (grows_trans _ _ _ H0 (H _ _ _ E)). Qed.

Lemma map_identity_set_live (v c p : float) (meter_id : string)
    (l : list PowerMeter.t) :
  List.map meter_identity
    (List.map (fun m => if String.eqb (PowerMeter.id m) meter_id
                        then Sql.set_live v c p m else m) l)
  = List.map meter_identity l.
Proof.
  induction l as [ | m l IH]; cbn [List.map]; [reflexivity | ].
  rewrite IH. destruct (String.eqb (PowerMeter.id m) meter_id); reflexivity.
Qed.

Lemma grows_register (device_id name : string) (th : float) (target : option float)
    (d : Store) (a : unit) (d' : Store) :
  Sql.insert_or_replace_device device_id name th target d = Ok (a, d') -> grows d d'.
Proof.
  intros E. unfold Sql.insert_or_replace_device in E. injection E as _ <-.
  split; [ | split; [ | split]; exists []; symmetry; apply app_nil_r].
  intros k Hk. cbn [devices Sql.set_devices].
  destruct (decide (device_id = k)) as [<- | Hne].
  - rewrite lookup_insert_eq. eexists. reflexivity.
  - rewrite lookup_insert_ne by exact Hne. exact Hk.
Qed.

Lemma grows_insert_meter (meter_id device_id : string) (t : MeterType) (cap : float)
    (name : option string) (d : Store) (a : unit) (d' : Store) :
  Sql.insert_meter meter_id device_id t cap name d = Ok (a, d') -> grows d d'.
Proof.
  intros E. apply insert_meter_inv in E. destruct E as (cap' & _ & _ & _ & ->).
  split; [auto | split; [ | split] ].
  - eexists. cbn [power_meters Sql.set_power_meters]. apply List.map_app.
  - exists []. symmetry. apply app_nil_r.
  - exists []. symmetry. apply app_nil_r.
Qed.

Lemma grows_insert_reading (rid meter_id : string) (v c w p : float) (now : timestamp)
    (d : Store) (a : unit) (d' : Store) :
  Sql.insert_reading rid meter_id v c w p now d = Ok (a, d') -> grows d d'.
Proof.
  intros E. apply insert_reading_inv in E.
  destruct E as (v' & c' & w' & p' & _ & _ & _ & _ & _ & _ & ->).
  split; [auto | split; [ | split] ].
  - exists []. symmetry. apply app_nil_r.
  - eexists. reflexivity.
  - exists []. symmetry. apply app_nil_r.
Qed.

Lemma grows_update (v c p : float) (meter_id : string) (d : Store) (a : unit)
    (d' : Store) :
  Sql.update_meter_live v c p meter_id d = Ok (a, d') -> grows d d'.
Proof.
  intros E. unfold Sql.update_meter_live, Sql.real_not_null in E.
  destruct (Sql.has_meter d meter_id); [ | injection E as _ <-; apply grows_refl].
  destruct (Sql.real v) as [v' | ]; cbn [Sql.and_then] in E; [ | discriminate].
  destruct (Sql.real c) as [c' | ]; cbn [Sql.and_then] in E; [ | discriminate].
  destruct (Sql.real p) as [p' | ]; cbn [Sql.and_then] in E; [ | discriminate].
  injection E as _ <-.
  split; [auto | split; [ | split] ].
  - exists []. cbn [power_meters Sql.set_power_meters].
    rewrite map_identity_set_live. symmetry. apply app_nil_r.
  - exists []. symmetry. apply app_nil_r.
  - exists []. symmetry. apply app_nil_r.
Qed.

Lemma grows_insert_event (eid device_id : string) (t : PowerEventType) (value : float)
    (now : timestamp) (note : option string) (d : Store) (a : unit) (d' : Store) :
  Sql.insert_event eid device_id t value now note d = Ok (a, d') -> grows d d'.
Proof.
  intros E. apply insert_event_inv in E. destruct E as (stored & _ & _ & _ & ->).
  split; [auto | split; [ | split] ].
  - exists []. symmetry. apply app_nil_r.
  - exists []. symmetry. apply app_nil_r.
  - eexists. reflexivity.
Qed.

Lemma keeps_grows_register (d0 : Store) (device_id name : string) (th : float)
    (target : option float) :
  keeps (grows d0) (Sql.insert_or_replace_device device_id name th target).
Proof. apply grows_keeps, grows_register. Qed.

Lemma keeps_grows_insert_meter (d0 : Store) (meter_id device_id : string)
    (t : MeterType) (cap : float) (name : option string) :
  keeps (grows d0) (Sql.insert_meter meter_id device_id t cap name).
Proof. apply grows_keeps, grows_insert_meter. Qed.

Lemma keeps_grows_insert_reading (d0 : Store) (rid meter_id : string) (v c w p : float)
    (now : timestamp) :
  keeps (grows d0) (Sql.insert_reading rid meter_id v c w p now).
Proof. apply grows_keeps, grows_insert_reading. Qed.

Lemma keeps_grows_update (d0 : Store) (v c p : float) (meter_id : string) :
  keeps (grows d0) (Sql.update_meter_live v c p meter_id).
Proof. apply grows_keeps, grows_update. Qed.

Lemma keeps_grows_insert_event (d0 : Store) (eid device_id : string)
    (t : PowerEventType) (value : float) (now : timestamp) (note : option string) :
  keeps (grows d0) (Sql.insert_event eid device_id t value now note).
Proof. apply grows_keeps, grows_insert_event. Qed.

Lemma grows_perform (d0 : Store) (c : call) (s : Sys) :
  grows d0 (db s) -> grows d0 (db (perform W c s)).
Proof.
  destruct c; cbn [perform];
    [ | apply preserves_get_device | | apply preserves_get_meter
    | apply preserves_list_meters | | apply preserves_calculate_wattage
    | apply preserves_estimate_runtime | | apply preserves_get_events
    | apply preserves_power_budget_check | apply preserves_get_history
    | apply preserves_export_report ].
  - unfold register_device. preserve; auto using keeps_grows_register with preserve.
  - unfold add_meter. preserve; auto using preserves_get_device, preserves_get_meter.
    apply preserves_with_conn.
    destruct (MeterType_of_value meter_type);
      auto using keeps_grows_insert_meter with preserve.
  - unfold log_power. preserve;
      auto using preserves_get_meter, keeps_grows_insert_event with preserve.
    apply preserves_with_conn, preserves_bind; [ | intros _ ];
      apply preserves_execute;
      auto using keeps_grows_insert_reading, keeps_grows_update.
  - unfold trigger_event. preserve;
      auto using preserves_get_device, keeps_grows_insert_event with preserve.
Qed.

(** X19.  No call deletes anything.  In every world, whether it returns or
    raises, a call leaves a database that extends the one it found: every
    device is still registered; the meters are the same, in the same order,
    with their id, device, type, capacity and name, followed by the new
    ones; the readings and the events are the same rows, followed by the new
    ones.  Hence the database after a sequence of calls extends the database
    after any of its prefixes. *)
Theorem nothing_is_deleted :
  (forall (c : call) (s : Sys), grows (db s) (db (perform W c s))) /\
  (forall calls more : list call,
     grows (db (session W calls)) (db (session W (calls ++ more)))).
Proof.
  split.
  - intros c s. apply grows_perform, grows_refl.
  - intros calls more. unfold session. rewrite fold_left_app.
    generalize (fold_left (fun s c => perform W c s) calls initial). intros s.
    assert (H : grows (db s) (db s)) by apply grows_refl.
    revert H. generalize s at 1 3. intros s0 H. revert s H.
    induction more as [ | c rest IH]; intros s H; cbn [fold_left]; [exact H | ].
    apply IH, grows_perform, H.
Qed.
End Growth.
